(** * Agri_API: the CO2 projection and scoring engine

    A shallow embedding of [src/utils/calculations.js] (performCalculations,
    performEnhancedCalculations, calculateEstimatedCost,
    getSustainabilityRating, linspace) and of the computational part of the
    social routes ([/sdg-report] and [/health-impact], with
    getSdgAlignmentRating), followed by the properties of the specification.

    Numbers.  A JavaScript number is modelled as an exact real number, or one
    of the three special values Infinity, -Infinity and NaN.  Arithmetic on
    finite values is exact (no rounding, overflow or underflow), which is the
    "exact arithmetic" reading the specification itself uses; zero carries no
    sign.  The special values follow IEEE 754, as JavaScript does.  In
    double precision a product can underflow to 0 or overflow to Infinity,
    [Math.exp] can return 0 or 1, and every result is rounded: a property
    that depends on exact values says "in exact arithmetic".

    Objects.  A JSON object with numeric values is the list of its own
    properties in enumeration order.  Reading a property that is not an own
    property falls through to [Object.prototype], as it does in JavaScript.

    Requests.  The fields of a request hold JSON numbers (finite reals),
    [points] and the horizon of the enhanced projections hold integers, and
    the category maps hold numbers.  A field left out is [None].

    Left out.  The human-readable [summary] strings, the echo of the
    configuration, the report identifiers and time stamps, and the storing
    of results are not modelled. *)

From Stdlib Require Import Reals Lra Lia List String ZArith Bool.
Import ListNotations.
Open Scope R_scope.

(** ** JavaScript numbers *)

Module Num.

Inductive num : Type :=
| Fin (x : R)
| PInf
| NInf
| NaN.

Inductive sign : Type := Neg | Zero | Pos.

Definition Rsign (x : R) : sign :=
  if Rlt_dec 0 x then Pos else if Rlt_dec x 0 then Neg else Zero.

Definition sign_of (a : num) : option sign :=
  match a with
  | Fin x => Some (Rsign x)
  | PInf => Some Pos
  | NInf => Some Neg
  | NaN => None
  end.

Definition inf_of (s : sign) : num :=
  match s with Pos => PInf | Neg => NInf | Zero => NaN end.

Definition sign_mul (s t : sign) : sign :=
  match s, t with
  | Zero, _ | _, Zero => Zero
  | Pos, Pos | Neg, Neg => Pos
  | _, _ => Neg
  end.

Definition neg (a : num) : num :=
  match a with
  | Fin x => Fin (- x)
  | PInf => NInf
  | NInf => PInf
  | NaN => NaN
  end.

Definition add (a b : num) : num :=
  match a, b with
  | NaN, _ | _, NaN => NaN
  | Fin x, Fin y => Fin (x + y)
  | PInf, NInf | NInf, PInf => NaN
  | PInf, _ | _, PInf => PInf
  | NInf, _ | _, NInf => NInf
  end.

Definition sub (a b : num) : num := add a (neg b).

Definition mul (a b : num) : num :=
  match a, b with
  | NaN, _ | _, NaN => NaN
  | Fin x, Fin y => Fin (x * y)
  | PInf, Fin y | NInf, Fin y | Fin y, PInf | Fin y, NInf =>
      match sign_of a, sign_of b with
      | Some s, Some t => inf_of (sign_mul s t)
      | _, _ => NaN
      end
  | PInf, PInf | NInf, NInf => PInf
  | PInf, NInf | NInf, PInf => NInf
  end.

(** Division: a finite value over zero is an infinity of the sign of the
    numerator, and 0/0 is NaN (zero is taken as +0). *)
Definition div (a b : num) : num :=
  match a, b with
  | NaN, _ | _, NaN => NaN
  | Fin x, Fin y =>
      if Req_dec_T y 0 then inf_of (Rsign x) else Fin (x / y)
  | Fin _, PInf | Fin _, NInf => Fin 0
  | PInf, Fin y => if Rlt_dec y 0 then NInf else PInf
  | NInf, Fin y => if Rlt_dec y 0 then PInf else NInf
  | _, _ => NaN
  end.

(** Math.exp *)
Definition exp (a : num) : num :=
  match a with
  | Fin x => Fin (Rtrigo_def.exp x)
  | PInf => PInf
  | NInf => Fin 0
  | NaN => NaN
  end.

(** The comparisons [a <= b], [a < b]; false whenever an operand is NaN. *)
Definition leb (a b : num) : bool :=
  match a, b with
  | NaN, _ | _, NaN => false
  | Fin x, Fin y => if Rle_dec x y then true else false
  | NInf, _ => true
  | _, PInf => true
  | _, _ => false
  end.

Definition ltb (a b : num) : bool :=
  match a, b with
  | NaN, _ | _, NaN => false
  | Fin x, Fin y => if Rlt_dec x y then true else false
  | NInf, NInf | PInf, PInf => false
  | NInf, _ => true
  | _, PInf => true
  | _, _ => false
  end.

Definition geb (a b : num) : bool := leb b a.
Definition gtb (a b : num) : bool := ltb b a.

(** Math.max and Math.min of two arguments: NaN if either is NaN. *)
Definition max (a b : num) : num :=
  match a, b with
  | NaN, _ | _, NaN => NaN
  | _, _ => if leb a b then b else a
  end.

Definition min (a b : num) : num :=
  match a, b with
  | NaN, _ | _, NaN => NaN
  | _, _ => if leb a b then a else b
  end.

(** Math.abs *)
Definition abs (a : num) : num :=
  match a with
  | Fin x => Fin (Rabs x)
  | PInf | NInf => PInf
  | NaN => NaN
  end.

(** Math.floor, on the finite values; [Int_part] is the integer floor. *)
Definition floor (a : num) : num :=
  match a with
  | Fin x => Fin (IZR (Int_part x))
  | _ => a
  end.

(** A number is falsy when it is zero or NaN. *)
Definition truthy (a : num) : bool :=
  match a with
  | Fin x => if Req_dec_T x 0 then false else true
  | PInf | NInf => true
  | NaN => false
  end.

End Num.

Import Num.

(** ** JavaScript values and objects *)

(** The values the modelled code handles.  [VObject] stands for any object
    or function value; the code only ever tests such a value for truthiness
    or converts it to a number. *)
Inductive value : Type :=
| VNum (n : num)
| VNull
| VUndefined
| VObject.

(** ToNumber: the conversion the arithmetic operators apply. *)
Definition ToNumber (v : value) : num :=
  match v with
  | VNum n => n
  | VNull => Fin 0
  | VUndefined => NaN
  | VObject => NaN
  end.

(** ToBoolean *)
Definition ToBoolean (v : value) : bool :=
  match v with
  | VNum n => truthy n
  | VNull => false
  | VUndefined => false
  | VObject => true
  end.

(** [a || b] *)
Definition or_else (a b : value) : value :=
  if ToBoolean a then a else b.

(** The own properties of an object, in enumeration order. *)
Definition obj (A : Type) : Type := list (string * A).

Definition keys {A} (o : obj A) : list string := map fst o.
Definition values {A} (o : obj A) : list A := map snd o.

Fixpoint own_get {A} (o : obj A) (k : string) : option A :=
  match o with
  | [] => None
  | (k', v) :: o' => if String.eqb k k' then Some v else own_get o' k
  end.

(** The property names every object inherits from [Object.prototype]; each
    holds a function, and [__proto__] holds the prototype object itself. *)
Definition prototype_names : list string :=
  [ "constructor"; "__defineGetter__"; "__defineSetter__"; "hasOwnProperty";
    "__lookupGetter__"; "__lookupSetter__"; "isPrototypeOf";
    "propertyIsEnumerable"; "toString"; "valueOf"; "__proto__";
    "toLocaleString" ]%string.

Definition inherited (k : string) : bool :=
  existsb (String.eqb k) prototype_names.

(** [o[k]]: the own property if there is one, else what the prototype holds,
    else undefined. *)
Definition prop (own : option num) (k : string) : value :=
  match own with
  | Some n => VNum n
  | None => if inherited k then VObject else VUndefined
  end.

Definition get (o : obj num) (k : string) : value := prop (own_get o k) k.

(** The same for an object of the request, whose values are JSON numbers. *)
Definition getR (o : obj R) (k : string) : value :=
  prop (option_map Fin (own_get o k)) k.

(** [o[k] = v] for a number [v] on an object created by [{}]: an own
    property is written, except for the key [__proto__], which reaches the
    setter inherited from [Object.prototype]; that setter ignores a value
    that is not an object. *)
Fixpoint own_set {A} (o : obj A) (k : string) (v : A) : obj A :=
  match o with
  | [] => [(k, v)]
  | (k', v') :: o' =>
      if String.eqb k k' then (k', v) :: o' else (k', v') :: own_set o' k v
  end.

Definition set (o : obj num) (k : string) (v : num) : obj num :=
  if String.eqb k "__proto__" then o else own_set o k v.

(** [a[i]] for an array and a numeric index: undefined unless [i] is an
    integer within the bounds. *)
Definition index (a : list num) (i : num) : value :=
  match i with
  | Fin x =>
      let z := Int_part x in
      if Req_dec_T (IZR z) x then
        if (0 <=? z)%Z then
          match nth_error a (Z.to_nat z) with
          | Some n => VNum n
          | None => VUndefined
          end
        else VUndefined
      else VUndefined
  | _ => VUndefined
  end.

(** [a[i]] for a loop counter. *)
Definition at_index (a : list num) (i : nat) : value :=
  match nth_error a i with
  | Some n => VNum n
  | None => VUndefined
  end.

(** [Object.values(o).reduce((sum, val) => sum + val, 0)] *)
Definition sum_values (o : obj num) : num :=
  fold_left add (values o) (Fin 0).

Definition sum_valuesR (o : obj R) : R :=
  fold_left Rplus (values o) 0.

Definition default {A} (d : A) (o : option A) : A :=
  match o with Some a => a | None => d end.

(** ** Exceptions *)

Inductive result (A : Type) : Type :=
| Return (a : A)
| Throw (msg : string).
Arguments Return {A} a.
Arguments Throw {A} msg.

Definition bind {A B} (m : result A) (f : A -> result B) : result B :=
  match m with
  | Return a => f a
  | Throw msg => Throw msg
  end.

Notation "x <- m ;; k" := (bind m (fun x => k))
  (at level 61, m at next level, right associativity).

(** [if (c) throw new Error(msg)] followed by the rest of the body. *)
Definition throw_if {A} (c : bool) (msg : string) (k : result A) : result A :=
  if c then Throw msg else k.

Notation "'guard' c 'throws' msg ;; k" := (throw_if c msg k)
  (at level 61, c at next level, msg at next level, right associativity).

(** ** linspace *)

(** The largest length of an array, [2^32 - 1]. *)
Definition max_array_length : Z := 4294967295.

(** [new Array(n)] raises a RangeError for a length that is negative or
    above [2^32 - 1]; the loop then stores [start + step * i] at each
    index. *)
Definition linspace (start end_ : num) (n : Z) : result (list num) :=
  guard ((n <? 0) || (max_array_length <? n))%Z
    throws "Invalid array length" ;;
  let step := div (sub end_ start) (Fin (IZR (n - 1))) in
  Return (map (fun i => add start (mul step (Fin (IZR (Z.of_nat i)))))
              (seq 0 (Z.to_nat n))).

(** ** performCalculations *)

Open Scope string_scope.

(** The request body; a field left out of the request is [None] and takes
    the default of the destructuring pattern. *)
Record Params : Type := {
  roof_area : option R;
  GWP_roof : option R;
  decline_rate : option R;
  roof_division : option (obj R);
  full_savings : option (obj R);
  improvement_years : option (obj R);
  years_to_calculate : option R;
  points : option Z;
  efficiency_degradation : option R;
  climate_zone : option string
}.

Definition default_roof_division : obj R :=
  [("Green Areas", 25); ("Solar Power", 25);
   ("Water Management", 25); ("Social Impact", 25)].

Definition default_full_savings : obj R :=
  [("Green Areas", 1347.98); ("Solar Power", 12142.5);
   ("Water Management", 1441.25); ("Social Impact", 4180.0)].

Definition default_improvement_years : obj R :=
  [("Green Areas", 0); ("Solar Power", 1);
   ("Water Management", 2); ("Social Impact", 3)].

Definition climateFactors : obj num :=
  [("temperate", Fin 1.0); ("tropical", Fin 1.2); ("arid", Fin 0.9);
   ("continental", Fin 1.1); ("polar", Fin 0.8)].

Definition cost_factors : obj num :=
  [("Green Areas", Fin 120); ("Solar Power", Fin 350);
   ("Water Management", Fin 80); ("Social Impact", Fin 150)].

Definition calculateEstimatedCost (roof_area : num) (roof_division : obj R)
  : num :=
  fold_left
    (fun total_cost improvement =>
       let area_for_improvement :=
         mul roof_area
             (div (ToNumber (getR roof_division improvement)) (Fin 100)) in
       let cost_for_improvement :=
         mul area_for_improvement
             (ToNumber (or_else (get cost_factors improvement)
                                (VNum (Fin 100)))) in
       add total_cost cost_for_improvement)
    (keys roof_division) (Fin 0).

(** The loop that fills [annual_savings], starting from [{}]. *)
Definition annual_savings_of (roof_division full_savings : obj R)
  : obj num :=
  fold_left
    (fun annual_savings key =>
       set annual_savings key
           (mul (ToNumber (getR full_savings key))
                (div (ToNumber (getR roof_division key)) (Fin 100))))
    (keys roof_division) [].

(** One sample of the natural curve. *)
Definition natural_sample (initial_co2 decline_rate climate_factor year : num)
  : num :=
  mul initial_co2 (exp (mul (mul (neg decline_rate) year) climate_factor)).

(** The inner loop over [improvement_years] at one sample. *)
Definition apply_improvements
  (improvement_years : obj R) (annual_savings : obj num)
  (efficiency_degradation points climate_factor year : num) (co2 : num)
  : num :=
  fold_left
    (fun co2 improvement =>
       let start_year := ToNumber (getR improvement_years improvement) in
       if geb year start_year then
         let years_active := sub year start_year in
         let efficiency :=
           max (Fin 0) (sub (Fin 1) (mul efficiency_degradation years_active)) in
         sub co2
             (mul (div (mul (ToNumber (get annual_savings improvement))
                            efficiency)
                       points)
                  climate_factor)
       else co2)
    (keys improvement_years) co2.

(** The body of the outer loop: the sample at [year] from the previous one. *)
Definition improved_step
  (improvement_years : obj R) (annual_savings : obj num)
  (decline_rate efficiency_degradation points climate_factor : num)
  (previous year : num) : num :=
  let co2 := mul previous (exp (mul (neg decline_rate) climate_factor)) in
  let co2 := apply_improvements improvement_years annual_savings
               efficiency_degradation points climate_factor year co2 in
  max (Fin 0) co2.

Fixpoint improved_from
  (step : num -> num -> num) (previous : num) (years : list num) : list num :=
  match years with
  | [] => []
  | year :: rest =>
      let co2 := step previous year in
      co2 :: improved_from step co2 rest
  end.

(** The array starts as zeros, index 0 receives [initial_co2], and the loop
    runs over the indices from 1. *)
Definition improved_curve
  (step : num -> num -> num) (initial_co2 : num) (years_smooth : list num)
  : list num :=
  initial_co2 :: improved_from step initial_co2 (tl years_smooth).

(** The neutrality scan: the first index whose sample is [<= 0], or -1. *)
Fixpoint neutral_index_from (i : nat) (curve : list num) : Z :=
  match curve with
  | [] => (-1)%Z
  | c :: rest =>
      if leb c (Fin 0) then Z.of_nat i else neutral_index_from (S i) rest
  end.

Definition neutral_index (curve : list num) : Z := neutral_index_from 0 curve.

Definition years_to_neutrality (years_smooth : list num) (neutral_index : Z)
  : value :=
  if (0 <? neutral_index)%Z
  then at_index years_smooth (Z.to_nat neutral_index)
  else VNull.

Record Result : Type := {
  r_initial_co2 : num;
  r_annual_savings : obj num;
  r_climate_factor : value;
  timeline_years : list num;
  timeline_co2_with_improvements : list num;
  timeline_co2_natural_decline : list num;
  neutrality_with_improvements : value;
  neutrality_natural_decline : value;
  savings_annual : num;
  savings_ten_year : num;
  economics_estimated_cost : num;
  economics_simple_payback_years : value;
  economics_roi_10yr : num;
  intensity_carbon_per_sqm : num;
  intensity_reduction_per_euro : num
}.

Definition performCalculations (params : Params) : result Result :=
  let roof_area := Fin (default 2776 (roof_area params)) in
  let GWP_roof := Fin (default 3.33 (GWP_roof params)) in
  let decline_rate := Fin (default 0.03 (decline_rate params)) in
  let roof_division := default default_roof_division (roof_division params) in
  let full_savings := default default_full_savings (full_savings params) in
  let improvement_years :=
    default default_improvement_years (improvement_years params) in
  let years_to_calculate := Fin (default 50 (years_to_calculate params)) in
  let points := default 1000%Z (points params) in
  let efficiency_degradation :=
    Fin (default 0.005 (efficiency_degradation params)) in
  let climate_zone := default "temperate" (climate_zone params) in
  let climate_factor :=
    or_else (get climateFactors climate_zone) (VNum (Fin 1.0)) in
  guard leb roof_area (Fin 0) throws "Roof area must be positive" ;;
  guard leb GWP_roof (Fin 0) throws "GWP_roof must be positive" ;;
  guard ltb decline_rate (Fin 0) || geb decline_rate (Fin 1)
    throws "Decline rate must be between 0 and 1" ;;
  guard leb years_to_calculate (Fin 0)
    throws "Years to calculate must be positive" ;;
  guard (points <=? 0)%Z throws "Points must be positive" ;;
  let totalPercentage := Fin (sum_valuesR roof_division) in
  guard gtb (abs (sub totalPercentage (Fin 100))) (Fin 0.01)
    throws "Roof division percentages must sum to 100%" ;;
  let initial_co2 := mul GWP_roof roof_area in
  let annual_savings := annual_savings_of roof_division full_savings in
  years_smooth <- linspace (Fin 0) years_to_calculate points ;;
  let co2_natural_decline :=
    map (natural_sample initial_co2 decline_rate (ToNumber climate_factor))
        years_smooth in
  let co2_with_improvements :=
    improved_curve
      (improved_step improvement_years annual_savings decline_rate
         efficiency_degradation (Fin (IZR points)) (ToNumber climate_factor))
      initial_co2 years_smooth in
  let neutral_index_improved := neutral_index co2_with_improvements in
  let neutral_index_natural := neutral_index co2_natural_decline in
  let years_to_neutrality_improved :=
    years_to_neutrality years_smooth neutral_index_improved in
  let years_to_neutrality_natural :=
    years_to_neutrality years_smooth neutral_index_natural in
  let ten_year_index :=
    floor (mul (div (Fin (IZR points)) years_to_calculate) (Fin 10)) in
  let co2_without_improvements_10yr :=
    index co2_natural_decline ten_year_index in
  let co2_with_improvements_10yr :=
    index co2_with_improvements ten_year_index in
  let co2_savings_10yr :=
    sub (ToNumber co2_without_improvements_10yr)
        (ToNumber co2_with_improvements_10yr) in
  let total_annual_savings := sum_values annual_savings in
  let estimated_cost := calculateEstimatedCost roof_area roof_division in
  let simple_payback_years := div estimated_cost total_annual_savings in
  let roi_10yr := mul (div co2_savings_10yr estimated_cost) (Fin 100) in
  let carbon_intensity_per_sqm := div initial_co2 roof_area in
  let carbon_reduction_per_euro := div co2_savings_10yr estimated_cost in
  Return {|
    r_initial_co2 := initial_co2;
    r_annual_savings := annual_savings;
    r_climate_factor := climate_factor;
    timeline_years := years_smooth;
    timeline_co2_with_improvements := co2_with_improvements;
    timeline_co2_natural_decline := co2_natural_decline;
    neutrality_with_improvements := years_to_neutrality_improved;
    neutrality_natural_decline := years_to_neutrality_natural;
    savings_annual := total_annual_savings;
    savings_ten_year := co2_savings_10yr;
    economics_estimated_cost := estimated_cost;
    economics_simple_payback_years := VNum simple_payback_years;
    economics_roi_10yr := roi_10yr;
    intensity_carbon_per_sqm := carbon_intensity_per_sqm;
    intensity_reduction_per_euro := carbon_reduction_per_euro
  |}.

(** ** The rating scales *)

(** getSustainabilityRating, in [utils/calculations.js]. *)
Definition getSustainabilityRating (score : num) : string :=
  if geb score (Fin 90) then "Outstanding"
  else if geb score (Fin 80) then "Excellent"
  else if geb score (Fin 70) then "Very Good"
  else if geb score (Fin 60) then "Good"
  else if geb score (Fin 50) then "Satisfactory"
  else if geb score (Fin 40) then "Acceptable"
  else "Needs Improvement".

(** getSdgAlignmentRating, in the social routes. *)
Definition getSdgAlignmentRating (score : num) : string :=
  if geb score (Fin 90) then "Exceptional"
  else if geb score (Fin 70) then "Strong"
  else if geb score (Fin 50) then "Good"
  else if geb score (Fin 30) then "Moderate"
  else "Limited".

(** getHealthImpactRating, in the social routes. *)
Definition getHealthImpactRating (score : num) : string :=
  if geb score (Fin 30) then "Transformative"
  else if geb score (Fin 20) then "Significant"
  else if geb score (Fin 10) then "Moderate"
  else if geb score (Fin 5) then "Modest"
  else "Minimal".

(** ** performEnhancedCalculations *)

Module Enhanced.

Record Params : Type := {
  roof_area : option R;
  GWP_roof : option R;
  roof_division : option (obj R);
  plant_absorption : option R;
  energy_emission : option R;
  solar_emission : option R;
  solar_reduction : option R;
  heating_original : option R;
  heating_reduced : option R;
  water_emission : option R;
  water_mitigated : option R;
  water_collected : option R;
  social_metrics : option (obj R);
  health_metrics : option (obj R);
  sdg_focus : option (list string);
  years_to_calculate : option Z
}.

Definition default_social_metrics : obj R :=
  [("social_network", 11.08); ("trust", 11.08); ("reciprocity", 11.08);
   ("safety_wellbeing", 9.86); ("social_equity", 9.83); ("happiness", 22.6);
   ("stress_reduction", 39.4); ("quality_of_life", 35.3)].

Definition default_health_metrics : obj R :=
  [("hypertension_reduction", 6.77); ("heat_wave_temperature", 28);
   ("mortality_reduction", 15)].

Definition default_sdg_focus : list string :=
  ["Zero Hunger"; "Good Health and Well-being"; "Clean Water and Sanitation";
   "Affordable and Clean Energy"; "Decent Work and Economic Growth";
   "Climate Action"; "Life on Land"; "Partnerships for the Goals"].

Definition social_weights : obj num :=
  [("social_network", Fin 0.1); ("trust", Fin 0.1); ("reciprocity", Fin 0.1);
   ("safety_wellbeing", Fin 0.15); ("social_equity", Fin 0.15);
   ("happiness", Fin 0.15); ("stress_reduction", Fin 0.15);
   ("quality_of_life", Fin 0.1)].

(** The loop over [Object.entries(social_metrics)], returning the two
    accumulators.  When a metric is named like an inherited property its
    weight is a function: the product is NaN, and [total_weight += weight]
    concatenates strings, a value whose conversion to a number is NaN as
    well; the division that follows only sees that conversion. *)
Definition social_loop (social_metrics : obj R) : num * num :=
  fold_left
    (fun '(social_impact_score, total_weight) '(metric, value) =>
       let weight := or_else (get social_weights metric) (VNum (Fin 0.1)) in
       (add social_impact_score (mul (Fin value) (ToNumber weight)),
        add total_weight (ToNumber weight)))
    social_metrics (Fin 0, Fin 0).

(** calculateEnhancedEstimatedCost has the body of calculateEstimatedCost,
    with a table of its own holding the same factors. *)
Definition calculateEnhancedEstimatedCost
  (roof_area : num) (roof_division : obj R) : num :=
  fold_left
    (fun total_cost improvement =>
       let area_for_improvement :=
         mul roof_area
             (div (ToNumber (getR roof_division improvement)) (Fin 100)) in
       let cost_for_improvement :=
         mul area_for_improvement
             (ToNumber (or_else (get cost_factors improvement)
                                (VNum (Fin 100)))) in
       add total_cost cost_for_improvement)
    (keys roof_division) (Fin 0).

Definition calculateAnnualEconomicBenefit
  (solar_reduction heating_reduction water_collected
   social_impact_score health_impact_score : num) : num :=
  let co2_price_per_kg := Fin 0.05 in
  let electricity_price_per_kwh := Fin 0.25 in
  let water_price_per_m3 := Fin 2.5 in
  let productivity_value := Fin 50 in
  let health_cost_savings := Fin 100 in
  let electricity_savings := mul solar_reduction (Fin 0.5) in
  let carbon_benefit :=
    mul (add solar_reduction heating_reduction) co2_price_per_kg in
  let electricity_benefit :=
    mul electricity_savings electricity_price_per_kwh in
  let water_benefit := mul water_collected water_price_per_m3 in
  let employees := Fin 50 in
  let productivity_benefit :=
    div (mul (mul social_impact_score productivity_value) employees)
        (Fin 100) in
  let health_benefit :=
    div (mul (mul health_impact_score health_cost_savings) employees)
        (Fin 100) in
  add (add (add (add carbon_benefit electricity_benefit) water_benefit)
           productivity_benefit)
      health_benefit.

Record Result : Type := {
  initial_co2 : num;
  years_to_neutrality : num;
  solar_energy_savings_percentage : num;
  heating_reduction_percentage : num;
  water_reduction_percentage : num;
  total_annual_co2_reduction : num;
  social_impact_score : num;
  health_impact_score : num;
  heat_wave_resilience : string;
  sdg_alignment_score : num;
  sustainability_score : num;
  sustainability_rating : string;
  estimated_cost : num;
  annual_economic_benefit : num;
  simple_payback_years : num;
  roi_10yr : num;
  projection_years : list num;
  cumulative_co2_reduction : list num;
  cumulative_economic_benefit : list num
}.

(** [Array.from({length: years_to_calculate + 1}, ...)] takes a negative
    length as 0 and raises a RangeError for a length above [2^32 - 1]. *)
Definition performEnhancedCalculations (params : Params) : result Result :=
  let roof_area := Fin (default 2776 (roof_area params)) in
  let GWP_roof := Fin (default 3.33 (GWP_roof params)) in
  let roof_division := default default_roof_division (roof_division params) in
  let plant_absorption := Fin (default 1347.976 (plant_absorption params)) in
  let energy_emission := Fin (default 64095.68 (energy_emission params)) in
  let solar_reduction := Fin (default 12142.5 (solar_reduction params)) in
  let heating_original := Fin (default 16720 (heating_original params)) in
  let heating_reduced := Fin (default 12540 (heating_reduced params)) in
  let water_emission := Fin (default 6849.81 (water_emission params)) in
  let water_mitigated := Fin (default 1441.254 (water_mitigated params)) in
  let water_collected := Fin (default 427 (water_collected params)) in
  let social_metrics :=
    default default_social_metrics (social_metrics params) in
  let health_metrics :=
    default default_health_metrics (health_metrics params) in
  let sdg_focus := default default_sdg_focus (sdg_focus params) in
  let years_to_calculate := default 50%Z (years_to_calculate params) in
  guard leb roof_area (Fin 0) throws "Roof area must be positive" ;;
  guard leb GWP_roof (Fin 0) throws "GWP_roof must be positive" ;;
  let totalPercentage := Fin (sum_valuesR roof_division) in
  guard gtb (abs (sub totalPercentage (Fin 100))) (Fin 0.01)
    throws "Roof division percentages must sum to 100%" ;;
  let initial_co2 := mul GWP_roof roof_area in
  let years_to_neutrality := div initial_co2 plant_absorption in
  let solar_energy_savings_percentage :=
    mul (div solar_reduction energy_emission) (Fin 100) in
  let heating_reduction_percentage :=
    mul (div (sub heating_original heating_reduced) heating_original)
        (Fin 100) in
  let water_reduction_percentage :=
    mul (div water_mitigated water_emission) (Fin 100) in
  let total_annual_co2_reduction :=
    add (add (add plant_absorption solar_reduction)
             (sub heating_original heating_reduced))
        water_mitigated in
  let '(weighted_sum, total_weight) := social_loop social_metrics in
  let social_impact_score := div weighted_sum total_weight in
  let health_impact_score :=
    div (add (ToNumber (getR health_metrics "hypertension_reduction"))
             (ToNumber (getR health_metrics "mortality_reduction")))
        (Fin 2) in
  let sdg_alignment_score :=
    min (Fin 100)
        (mul (div (Fin (INR (List.length sdg_focus))) (Fin 17)) (Fin 100)) in
  let sustainability_score :=
    add (add (add (mul (div total_annual_co2_reduction
                            (mul initial_co2 (Fin 0.1)))
                       (Fin 0.4))
                  (mul social_impact_score (Fin 0.3)))
             (mul health_impact_score (Fin 0.2)))
        (mul sdg_alignment_score (Fin 0.1)) in
  let estimated_cost :=
    calculateEnhancedEstimatedCost roof_area roof_division in
  let annual_economic_benefit :=
    calculateAnnualEconomicBenefit solar_reduction
      (sub heating_original heating_reduced) water_collected
      social_impact_score health_impact_score in
  let simple_payback_years := div estimated_cost annual_economic_benefit in
  guard (max_array_length <? years_to_calculate + 1)%Z
    throws "Invalid array length" ;;
  let years :=
    map (fun i => Fin (INR i)) (seq 0 (Z.to_nat (years_to_calculate + 1))) in
  Return {|
    initial_co2 := initial_co2;
    years_to_neutrality := years_to_neutrality;
    solar_energy_savings_percentage := solar_energy_savings_percentage;
    heating_reduction_percentage := heating_reduction_percentage;
    water_reduction_percentage := water_reduction_percentage;
    total_annual_co2_reduction := total_annual_co2_reduction;
    social_impact_score := social_impact_score;
    health_impact_score := health_impact_score;
    heat_wave_resilience :=
      if gtb (ToNumber (getR health_metrics "heat_wave_temperature")) (Fin 25)
      then "Improved" else "Standard";
    sdg_alignment_score := sdg_alignment_score;
    sustainability_score := sustainability_score;
    sustainability_rating := getSustainabilityRating sustainability_score;
    estimated_cost := estimated_cost;
    annual_economic_benefit := annual_economic_benefit;
    simple_payback_years := simple_payback_years;
    roi_10yr :=
      mul (div (mul annual_economic_benefit (Fin 10)) estimated_cost)
          (Fin 100);
    projection_years := years;
    cumulative_co2_reduction := map (mul total_annual_co2_reduction) years;
    cumulative_economic_benefit := map (mul annual_economic_benefit) years
  |}.

End Enhanced.

(** ** The social routes *)

(** What a handler answers, before the report is stored: status 200 with a
    report, or status 400 with an error text. *)
Inductive response (A : Type) : Type :=
| Ok (report : A)
| BadRequest (error : string).
Arguments Ok {A} report.
Arguments BadRequest {A} error.

(** *** POST /sdg-report *)

Module SdgReport.

(** [sdg_focus] is [None] when the field is missing or is not an array. *)
Record Body : Type := {
  roof_division : option (obj R);
  sdg_focus : option (list string)
}.

(** Object.keys(sdgDescriptions); the description texts are not modelled. *)
Definition described_sdgs : list string :=
  ["Zero Hunger"; "Good Health and Well-being"; "Clean Water and Sanitation";
   "Affordable and Clean Energy"; "Decent Work and Economic Growth";
   "Climate Action"; "Life on Land"; "Partnerships for the Goals"].

Definition includes (l : list string) (s : string) : bool :=
  existsb (String.eqb s) l.

(** generateSdgRecommendations: the goals named by the suggestions. *)
Definition generateSdgRecommendations (addressed all : list string)
  : list string :=
  let notAddressed := filter (fun sdg => negb (includes addressed sdg)) all in
  if (0 <? List.length notAddressed)%nat
  then firstn 3 notAddressed
  else ["All SDGs"].

Record Report : Type := {
  sdgs_addressed : list string;
  sdg_alignment_score : num;
  alignment_rating : string;
  suggestions : list string
}.

Definition sdg_report (body : Body) : response Report :=
  match roof_division body, sdg_focus body with
  | Some _, Some sdg_focus =>
      let sdgAlignmentScore :=
        min (Fin 100)
            (mul (div (Fin (INR (List.length sdg_focus))) (Fin 17))
                 (Fin 100)) in
      Ok {|
        sdgs_addressed := sdg_focus;
        sdg_alignment_score := sdgAlignmentScore;
        alignment_rating := getSdgAlignmentRating sdgAlignmentScore;
        suggestions := generateSdgRecommendations sdg_focus described_sdgs
      |}
  | _, _ => BadRequest "Roof division and SDG focus array are required"
  end.

End SdgReport.

(** *** POST /health-impact *)

Module HealthImpact.

Record Body : Type := {
  roof_area : option R;
  roof_division : option (obj R);
  employees : option R;
  building_occupants : option R;
  green_view_percentage : option R
}.

Record Report : Type := {
  green_roof_area : num;
  stress_reduction_percentage : num;
  hypertension_reduction : num;
  mortality_reduction : num;
  productivity_increase : num;
  sick_days_reduction : num;
  health_impact_score : num;
  health_impact_rating : string;
  productivity_value_per_employee : num;
  sick_day_savings : num;
  total_economic_benefit : num;
  roi_percentage : num
}.

(** [!roof_area || !roof_division] holds when a field is missing and when
    the area is the number 0. *)
Definition health_impact (body : Body) : response Report :=
  let employees := Fin (default 50 (employees body)) in
  let green_view_percentage :=
    Fin (default 60 (green_view_percentage body)) in
  match roof_area body, roof_division body with
  | Some area, Some roof_division =>
      let roof_area := Fin area in
      if negb (truthy roof_area)
      then BadRequest "Roof area and roof division are required"
      else
        let green_roof_area :=
          div (mul roof_area
                   (ToNumber (or_else (getR roof_division "Green Areas")
                                      (VNum (Fin 0)))))
              (Fin 100) in
        let stress_reduction_percentage :=
          mul (mul (Fin 39.4) (div green_roof_area roof_area))
              (div green_view_percentage (Fin 100)) in
        let hypertension_reduction :=
          mul (mul (Fin 6.77) (div green_roof_area roof_area))
              (div green_view_percentage (Fin 100)) in
        let mortality_reduction :=
          mul (Fin 15) (div green_roof_area roof_area) in
        let productivity_increase :=
          mul (mul (Fin 22.6) (div green_roof_area roof_area))
              (div green_view_percentage (Fin 100)) in
        let sick_days_reduction :=
          mul (mul (Fin 12.3) (div green_roof_area roof_area))
              (div green_view_percentage (Fin 100)) in
        let avg_salary := Fin 50000 in
        let avg_sick_day_cost := Fin 200 in
        let productivity_value :=
          mul avg_salary (div productivity_increase (Fin 100)) in
        let sick_day_savings :=
          mul (mul avg_sick_day_cost (div sick_days_reduction (Fin 100)))
              employees in
        let total_economic_benefit :=
          add (mul productivity_value employees) sick_day_savings in
        let health_impact_score :=
          div (add (add (add (add stress_reduction_percentage
                                  hypertension_reduction)
                             mortality_reduction)
                        productivity_increase)
                   sick_days_reduction)
              (Fin 5) in
        Ok {|
          green_roof_area := green_roof_area;
          stress_reduction_percentage := stress_reduction_percentage;
          hypertension_reduction := hypertension_reduction;
          mortality_reduction := mortality_reduction;
          productivity_increase := productivity_increase;
          sick_days_reduction := sick_days_reduction;
          health_impact_score := health_impact_score;
          health_impact_rating := getHealthImpactRating health_impact_score;
          productivity_value_per_employee := productivity_value;
          sick_day_savings := sick_day_savings;
          total_economic_benefit := total_economic_benefit;
          roi_percentage :=
            mul (div total_economic_benefit (mul green_roof_area (Fin 120)))
                (Fin 100)
        |}
  | _, _ => BadRequest "Roof area and roof division are required"
  end.

End HealthImpact.

(** ** The calculation routes *)

(** The handlers of the calculation routes, up to the point where a result
    is stored: what they check, how they call performCalculations and what
    they put in the response.  An exception inside a handler is caught and
    answered with status 400 and the message of the exception. *)

Module Routes.

(** [Math.round]: the nearest integer, a tie going up. *)
Definition round (a : num) : num :=
  match a with
  | Fin x => Fin (IZR (Int_part (x + 1 / 2)))
  | _ => a
  end.

(** [parseFloat(a.toFixed(1))]: the nearest multiple of one tenth of the
    magnitude, a tie going away from zero; from 10^21 on, and for the
    special values, [toFixed] prints the number itself. *)
Definition toFixed1 (a : num) : num :=
  match a with
  | Fin x =>
      if Rle_dec (10 ^ 21) (Rabs x) then Fin x
      else if Rle_dec 0 x
      then Fin (IZR (Int_part (x * 10 + 1 / 2)) / 10)
      else Fin (- (IZR (Int_part (- x * 10 + 1 / 2)) / 10))
  | _ => a
  end.

(** [!s] for a string field: missing or empty. *)
Definition blank (s : option string) : bool :=
  match s with
  | Some s => String.eqb s ""
  | None => true
  end.

(** *** POST /simple-calculate *)

Record SimpleBody : Type := {
  simple_roof_area : option R;
  simple_roof_division : option (obj R)
}.

Record SimpleResults : Type := {
  simple_years_to_neutrality : value;
  simple_annual_savings : num;
  simple_ten_year_savings : num;
  simple_estimated_cost : num;
  simple_payback_years : value;
  simple_roi_10yr : num
}.

(** The parameters the handler passes on: the two fields of the request and
    three fixed values. *)
Definition simple_params (area : R) (division : obj R) : Params := {|
  roof_area := Some area;
  GWP_roof := Some 3.0;
  decline_rate := None;
  roof_division := Some division;
  full_savings := None;
  improvement_years := None;
  years_to_calculate := None;
  points := None;
  efficiency_degradation := Some 0.005;
  climate_zone := Some "temperate"
|}.

Definition simple_calculate (body : SimpleBody) : response SimpleResults :=
  match simple_roof_area body, simple_roof_division body with
  | Some area, Some division =>
      if negb (truthy (Fin area))
      then BadRequest "Roof area and roof division are required"
      else if leb (Fin area) (Fin 0)
      then BadRequest "Roof area must be positive"
      else
        let totalPercentage := Fin (sum_valuesR division) in
        if gtb (abs (sub totalPercentage (Fin 100))) (Fin 0.01)
        then BadRequest "Roof division percentages must sum to 100%"
        else
          match performCalculations (simple_params area division) with
          | Throw msg => BadRequest msg
          | Return results =>
              Ok {|
                simple_years_to_neutrality :=
                  neutrality_with_improvements results;
                simple_annual_savings := savings_annual results;
                simple_ten_year_savings := savings_ten_year results;
                simple_estimated_cost := economics_estimated_cost results;
                simple_payback_years :=
                  economics_simple_payback_years results;
                simple_roi_10yr := economics_roi_10yr results
              |}
          end
  | _, _ => BadRequest "Roof area and roof division are required"
  end.

(** *** POST /sales *)

Record SalesResults : Type := {
  sales_roof_area : R;
  sales_initial_co2_impact : num;
  sales_building_address : string;
  sales_company_id : string;
  sales_years_to_neutrality : value;
  sales_years_saved : value;
  sales_annual_co2_savings : num;
  sales_ten_year_co2_savings : num;
  sales_estimated_cost : num;
  sales_payback_years : num;
  sales_roi_10yr : num
}.

(** [s || 'Not specified'] *)
Definition or_not_specified (s : option string) : string :=
  match s with
  | Some s => if String.eqb s "" then "Not specified" else s
  | None => "Not specified"
  end.

Definition sales (params : Params) (building_address company_id : option string)
  : response SalesResults :=
  match performCalculations params with
  | Throw msg => BadRequest msg
  | Return fullResults =>
      let with_improvements := neutrality_with_improvements fullResults in
      let natural_decline := neutrality_natural_decline fullResults in
      Ok {|
        sales_roof_area := default 2776 (roof_area params);
        sales_initial_co2_impact := round (r_initial_co2 fullResults);
        sales_building_address := or_not_specified building_address;
        sales_company_id := or_not_specified company_id;
        sales_years_to_neutrality :=
          if ToBoolean with_improvements
          then VNum (toFixed1 (ToNumber with_improvements))
          else VNull;
        sales_years_saved :=
          if ToBoolean natural_decline && ToBoolean with_improvements
          then VNum (toFixed1 (sub (ToNumber natural_decline)
                                   (ToNumber with_improvements)))
          else VNull;
        sales_annual_co2_savings := round (savings_annual fullResults);
        sales_ten_year_co2_savings := round (savings_ten_year fullResults);
        sales_estimated_cost := round (economics_estimated_cost fullResults);
        sales_payback_years :=
          toFixed1 (ToNumber (economics_simple_payback_years fullResults));
        sales_roi_10yr := toFixed1 (economics_roi_10yr fullResults)
      |}
  end.

(** *** findBestScenario *)

(** The six fields of a comparison entry that serve as a metric. *)
Inductive Metric : Type :=
| neutrality_years
| annual_savings
| ten_year_savings
| estimated_cost
| payback_years
| roi_10yr.

(** An entry of the comparison: its name and, for each metric, a number or
    null. *)
Record Scenario : Type := {
  scenario_name : string;
  field : Metric -> value
}.

Record Best : Type := {
  best_name : string;
  best_value : value
}.

(** [v === null] *)
Definition is_null (v : value) : bool :=
  match v with VNull => true | _ => false end.

(** [a < b] for operands that are numbers, null or undefined. *)
Definition value_lt (a b : value) : bool := ltb (ToNumber a) (ToNumber b).

(** The test of the loop, for the type 'min' and for any other type. *)
Definition replaces (type : string) (candidate best : value) : bool :=
  if String.eqb type "min"
  then negb (is_null candidate)
       && (is_null best || value_lt candidate best)
  else negb (is_null candidate)
       && (is_null best || value_lt best candidate).

Definition findBestScenario
  (scenarios : list Scenario) (metric : Metric) (type : string)
  : option Best :=
  match scenarios with
  | [] => None
  | first :: rest =>
      let bestScenario :=
        fold_left
          (fun bestScenario scenario =>
             if replaces type (field scenario metric)
                         (field bestScenario metric)
             then scenario else bestScenario)
          rest first in
      Some {| best_name := scenario_name bestScenario;
              best_value := field bestScenario metric |}
  end.

(** *** POST /compare *)

Record ScenarioInput : Type := {
  name : option string;
  parameters : option Params
}.

Record BestScenarios : Type := {
  best_neutrality : option Best;
  best_annual_savings : option Best;
  best_ten_year_savings : option Best;
  best_cost : option Best;
  best_payback : option Best;
  best_roi : option Best
}.

Record Comparison : Type := {
  compared : list Scenario;
  best_scenarios : BestScenarios
}.

(** The entry pushed for one scenario. *)
Definition comparison_entry (scenario_name : string) (r : Result) : Scenario :=
  {| scenario_name := scenario_name;
     field := fun metric =>
       match metric with
       | neutrality_years => neutrality_with_improvements r
       | annual_savings => VNum (savings_annual r)
       | ten_year_savings => VNum (savings_ten_year r)
       | estimated_cost => VNum (economics_estimated_cost r)
       | payback_years => economics_simple_payback_years r
       | roi_10yr => VNum (economics_roi_10yr r)
       end |}.

(** The loop over the scenarios: the first scenario without a name or
    parameters, or whose calculation throws, ends the request. *)
Fixpoint compare_loop (scenarios : list ScenarioInput)
  : result (list Scenario) :=
  match scenarios with
  | [] => Return []
  | scenario :: rest =>
      match name scenario, parameters scenario with
      | Some scenario_name, Some params =>
          if blank (Some scenario_name)
          then Throw "Each scenario must have a name and parameters"
          else
            calculationResult <- performCalculations params ;;
            results <- compare_loop rest ;;
            Return (comparison_entry scenario_name calculationResult
                    :: results)
      | _, _ => Throw "Each scenario must have a name and parameters"
      end
  end.

(** [v.toFixed(1)] inside a template string: a TypeError unless [v] is a
    number. *)
Definition toFixed_of (v : value) : result unit :=
  match v with
  | VNum _ => Return tt
  | VNull => Throw "Cannot read properties of null (reading 'toFixed')"
  | VUndefined =>
      Throw "Cannot read properties of undefined (reading 'toFixed')"
  | VObject => Throw "toFixed is not a function"
  end.

(** [best.value] and [best.scenario_name] read a property of [best]: a
    TypeError when findBestScenario returned null. *)
Definition value_of (best : option Best) : result value :=
  match best with
  | Some b => Return (best_value b)
  | None => Throw "Cannot read properties of null (reading 'scenario_name')"
  end.

(** generateComparisonSummary: the exceptions its four template strings can
    raise, in the order of evaluation; the texts are not modelled. *)
Definition generateComparisonSummary (bestScenarios : BestScenarios)
  : result unit :=
  roi <- value_of (best_roi bestScenarios) ;;
  _ <- toFixed_of roi ;;
  neutrality <- value_of (best_neutrality bestScenarios) ;;
  _ <- (if is_null neutrality then Return tt else toFixed_of neutrality) ;;
  ten_year <- value_of (best_ten_year_savings bestScenarios) ;;
  _ <- toFixed_of ten_year ;;
  payback <- value_of (best_payback bestScenarios) ;;
  toFixed_of payback.

(** [scenarios] is [None] when the field is missing or is not an array. *)
Definition compare (scenarios : option (list ScenarioInput))
  : response Comparison :=
  match scenarios with
  | Some scenarios =>
      if (List.length scenarios <? 2)%nat
      then BadRequest "At least two scenarios are required for comparison"
      else
        match compare_loop scenarios with
        | Throw msg => BadRequest msg
        | Return results =>
            let bestScenarios := {|
              best_neutrality :=
                findBestScenario results neutrality_years "min";
              best_annual_savings :=
                findBestScenario results annual_savings "max";
              best_ten_year_savings :=
                findBestScenario results ten_year_savings "max";
              best_cost := findBestScenario results estimated_cost "min";
              best_payback := findBestScenario results payback_years "min";
              best_roi := findBestScenario results roi_10yr "max"
            |} in
            match generateComparisonSummary bestScenarios with
            | Throw msg => BadRequest msg
            | Return _ =>
                Ok {| compared := results;
                      best_scenarios := bestScenarios |}
            end
        end
  | None => BadRequest "At least two scenarios are required for comparison"
  end.

(** *** POST /batch *)

(** A building: its identifier and the calculation parameters it gives. *)
Record Building : Type := {
  building_id : option string;
  building_parameters : Params
}.

Definition override {A} (common building : option A) : option A :=
  match building with
  | Some a => Some a
  | None => common
  end.

(** [{ ...common_parameters, ...building }] *)
Definition merge (common building : Params) : Params := {|
  roof_area := override (roof_area common) (roof_area building);
  GWP_roof := override (GWP_roof common) (GWP_roof building);
  decline_rate := override (decline_rate common) (decline_rate building);
  roof_division := override (roof_division common) (roof_division building);
  full_savings := override (full_savings common) (full_savings building);
  improvement_years :=
    override (improvement_years common) (improvement_years building);
  years_to_calculate :=
    override (years_to_calculate common) (years_to_calculate building);
  points := override (points common) (points building);
  efficiency_degradation :=
    override (efficiency_degradation common) (efficiency_degradation building);
  climate_zone := override (climate_zone common) (climate_zone building)
|}.

(** The entry pushed for one building: its identifier and the result of its
    calculation, of which the response shows the neutrality, savings and
    economics parts. *)
Record BatchEntry : Type := {
  entry_building_id : string;
  entry_results : Result
}.

Record Batch : Type := {
  batch_size : nat;
  batch_results : list BatchEntry
}.

Fixpoint batch_loop (common : Params) (buildings : list Building)
  : result (list BatchEntry) :=
  match buildings with
  | [] => Return []
  | building :: rest =>
      match building_id building with
      | Some id =>
          if blank (Some id)
          then Throw "Each building must have a building_id"
          else
            calculationResult <-
              performCalculations
                (merge common (building_parameters building)) ;;
            results <- batch_loop common rest ;;
            Return ({| entry_building_id := id;
                       entry_results := calculationResult |} :: results)
      | None => Throw "Each building must have a building_id"
      end
  end.

Definition no_parameters : Params := {|
  roof_area := None; GWP_roof := None; decline_rate := None;
  roof_division := None; full_savings := None; improvement_years := None;
  years_to_calculate := None; points := None;
  efficiency_degradation := None; climate_zone := None
|}.

(** [buildings] is [None] when the field is missing or is not an array;
    [common_parameters] defaults to [{}]. *)
Definition batch
  (buildings : option (list Building)) (common_parameters : option Params)
  : response Batch :=
  let common := default no_parameters common_parameters in
  match buildings with
  | Some buildings =>
      if (List.length buildings =? 0)%nat
      then BadRequest "Buildings array is required and must not be empty"
      else
        match batch_loop common buildings with
        | Throw msg => BadRequest msg
        | Return results =>
            Ok {| batch_size := List.length buildings;
                  batch_results := results |}
        end
  | None => BadRequest "Buildings array is required and must not be empty"
  end.

End Routes.

(** ** The vocabulary of the properties *)

(** The parameters after the defaults of the destructuring pattern. *)
Definition cfg_roof_area (p : Params) : R := default 2776 (roof_area p).
Definition cfg_GWP_roof (p : Params) : R := default 3.33 (GWP_roof p).
Definition cfg_decline_rate (p : Params) : R := default 0.03 (decline_rate p).
Definition cfg_roof_division (p : Params) : obj R :=
  default default_roof_division (roof_division p).
Definition cfg_full_savings (p : Params) : obj R :=
  default default_full_savings (full_savings p).
Definition cfg_improvement_years (p : Params) : obj R :=
  default default_improvement_years (improvement_years p).
Definition cfg_years_to_calculate (p : Params) : R :=
  default 50 (years_to_calculate p).
Definition cfg_points (p : Params) : Z := default 1000%Z (points p).
Definition cfg_efficiency_degradation (p : Params) : R :=
  default 0.005 (efficiency_degradation p).
Definition cfg_climate_zone (p : Params) : string :=
  default "temperate" (climate_zone p).

Definition cfg_climate_factor (p : Params) : value :=
  or_else (get climateFactors (cfg_climate_zone p)) (VNum (Fin 1.0)).
Definition cfg_initial_co2 (p : Params) : num :=
  mul (Fin (cfg_GWP_roof p)) (Fin (cfg_roof_area p)).
Definition cfg_annual_savings (p : Params) : obj num :=
  annual_savings_of (cfg_roof_division p) (cfg_full_savings p).
Definition cfg_improved_step (p : Params) : num -> num -> num :=
  improved_step (cfg_improvement_years p) (cfg_annual_savings p)
    (Fin (cfg_decline_rate p)) (Fin (cfg_efficiency_degradation p))
    (Fin (IZR (cfg_points p))) (ToNumber (cfg_climate_factor p)).

(** The configurations performCalculations accepts: they pass its six
    checks, and the number of points is a length [new Array] takes. *)
Definition accepted (p : Params) : Prop :=
  0 < cfg_roof_area p /\
  0 < cfg_GWP_roof p /\
  0 <= cfg_decline_rate p < 1 /\
  0 < cfg_years_to_calculate p /\
  (0 < cfg_points p <= max_array_length)%Z /\
  Rabs (sum_valuesR (cfg_roof_division p) - 100) <= 0.01.

(** Consecutive entries differ by one and the same finite amount. *)
Definition evenly_spaced (g : list num) : Prop :=
  exists d : R, forall i x y,
    nth_error g i = Some x -> nth_error g (S i) = Some y -> sub y x = Fin d.

(** The year grid of the specification: [points] entries, evenly spaced,
    from 0 to the horizon. *)
Definition year_grid (points : Z) (horizonYears : R) (g : list num) : Prop :=
  List.length g = Z.to_nat points /\
  evenly_spaced g /\
  nth_error g 0 = Some (Fin 0) /\
  nth_error g (List.length g - 1) = Some (Fin horizonYears).

(** The neutrality analysis.  [first_crossing curve i0]: [i0] is the
    smallest index whose sample is [<= 0]. *)
Definition first_crossing (curve : list num) (i0 : nat) : Prop :=
  (exists c, nth_error curve i0 = Some c /\ leb c (Fin 0) = true) /\
  forall j c, (j < i0)%nat -> nth_error curve j = Some c ->
              leb c (Fin 0) = false.

Definition never_crosses (curve : list num) : Prop :=
  forall i c, nth_error curve i = Some c -> leb c (Fin 0) = false.

(** The reported year is the grid year at the first crossing, and it is
    null exactly when there is no crossing. *)
Definition neutrality_spec (years curve : list num) (reported : value)
  : Prop :=
  (forall i0, first_crossing curve i0 ->
              exists y, nth_error years i0 = Some y /\ reported = VNum y) /\
  (reported = VNull <-> never_crosses curve).

(** A sample that is a number [>= 0]. *)
Definition nonnegative (c : num) : Prop := geb c (Fin 0) = true.

(** The value the loop of performCalculations stores in [annual_savings]
    for one category. *)
Definition annual_saving (roof_division full_savings : obj R) (key : string)
  : num :=
  mul (ToNumber (getR full_savings key))
      (div (ToNumber (getR roof_division key)) (Fin 100)).

(** The floor invariant: every sample is a number [>= 0]. *)
Definition floor_invariant (curve : list num) : Prop :=
  forall c, In c curve -> nonnegative c.

(** The request that leaves every field out. *)
Definition default_params : Params := {|
  roof_area := None; GWP_roof := None; decline_rate := None;
  roof_division := None; full_savings := None; improvement_years := None;
  years_to_calculate := None; points := None;
  efficiency_degradation := None; climate_zone := None
|}.

(** A request with a category of its own, sampled at two points:
    [{ roof_division: { "Roof Garden": 100 }, points: 2 }]. *)
Definition roof_garden_params : Params := {|
  roof_area := None; GWP_roof := None; decline_rate := None;
  roof_division := Some [("Roof Garden", 100)];
  full_savings := None; improvement_years := None;
  years_to_calculate := None; points := Some 2%Z;
  efficiency_degradation := None; climate_zone := None
|}.

(** A request whose savings are all zero:
    [{ full_savings: { "Green Areas": 0, "Solar Power": 0,
                       "Water Management": 0, "Social Impact": 0 } }]. *)
Definition zero_savings_params : Params := {|
  roof_area := None; GWP_roof := None; decline_rate := None;
  roof_division := None;
  full_savings := Some [("Green Areas", 0); ("Solar Power", 0);
                        ("Water Management", 0); ("Social Impact", 0)];
  improvement_years := None;
  years_to_calculate := None; points := None;
  efficiency_degradation := None; climate_zone := None
|}.

(** A request whose only category is called [__proto__], as
    [JSON.parse] delivers it, an own property:
    [{ roof_division: { "__proto__": 100 } }]. *)
Definition proto_params : Params := {|
  roof_area := None; GWP_roof := None; decline_rate := None;
  roof_division := Some [("__proto__", 100)];
  full_savings := None; improvement_years := None;
  years_to_calculate := None; points := None;
  efficiency_degradation := None; climate_zone := None
|}.

(** A request small enough to run by hand: one category that saves 100 a
    year from year 0 on, no decline, two samples over one year. *)
Definition small_params : Params := {|
  roof_area := Some 1; GWP_roof := Some 1; decline_rate := Some 0;
  roof_division := Some [("A", 100)];
  full_savings := Some [("A", 100)];
  improvement_years := Some [("A", 0)];
  years_to_calculate := Some 1; points := Some 2%Z;
  efficiency_degradation := Some 0; climate_zone := None
|}.

(** Consecutive samples go strictly down. *)
Definition strictly_decreasing (curve : list num) : Prop :=
  forall i a b,
    nth_error curve i = Some a -> nth_error curve (S i) = Some b ->
    ltb b a = true.

(** Every category of [improvement_years] is a category of [roof_division]
    and of [full_savings], and none is called [__proto__]. *)
Definition covered (p : Params) : Prop :=
  forall k, In k (keys (cfg_improvement_years p)) ->
    k <> "__proto__" /\
    In k (keys (cfg_roof_division p)) /\
    In k (keys (cfg_full_savings p)).

(** The fields the checks of performCalculations read. *)
Definition same_checked_fields (p q : Params) : Prop :=
  cfg_roof_area p = cfg_roof_area q /\
  cfg_GWP_roof p = cfg_GWP_roof q /\
  cfg_decline_rate p = cfg_decline_rate q /\
  cfg_years_to_calculate p = cfg_years_to_calculate q /\
  cfg_points p = cfg_points q /\
  cfg_roof_division p = cfg_roof_division q.

Definition percentage_message : string :=
  "Roof division percentages must sum to 100%".

Definition validation_messages : list string :=
  ["Roof area must be positive"; "GWP_roof must be positive";
   "Decline rate must be between 0 and 1";
   "Years to calculate must be positive"; "Points must be positive";
   percentage_message].

(** The message of the first check that fails, in the order of the source. *)
Definition first_failed_check (p : Params) : option string :=
  if leb (Fin (cfg_roof_area p)) (Fin 0)
  then Some "Roof area must be positive"
  else if leb (Fin (cfg_GWP_roof p)) (Fin 0)
  then Some "GWP_roof must be positive"
  else if ltb (Fin (cfg_decline_rate p)) (Fin 0)
          || geb (Fin (cfg_decline_rate p)) (Fin 1)
  then Some "Decline rate must be between 0 and 1"
  else if leb (Fin (cfg_years_to_calculate p)) (Fin 0)
  then Some "Years to calculate must be positive"
  else if (cfg_points p <=? 0)%Z
  then Some "Points must be positive"
  else if gtb (abs (sub (Fin (sum_valuesR (cfg_roof_division p))) (Fin 100)))
              (Fin 0.01)
  then Some percentage_message
  else None.

(** The configurations that pass the six checks. *)
Definition passes_checks (p : Params) : Prop :=
  0 < cfg_roof_area p /\
  0 < cfg_GWP_roof p /\
  0 <= cfg_decline_rate p < 1 /\
  0 < cfg_years_to_calculate p /\
  (0 < cfg_points p)%Z /\
  Rabs (sum_valuesR (cfg_roof_division p) - 100) <= 0.01.

(** The message of the RangeError of [new Array]. *)
Definition range_error : string := "Invalid array length".

(** A request for more points than an array holds:
    [{ points: 4294967296 }]. *)
Definition too_many_points_params : Params := {|
  roof_area := None; GWP_roof := None; decline_rate := None;
  roof_division := None; full_savings := None; improvement_years := None;
  years_to_calculate := None; points := Some 4294967296%Z;
  efficiency_degradation := None; climate_zone := None
|}.

(** A request with a non-positive area and a division that sums to 50:
    [{ roof_area: 0, roof_division: { "Green Areas": 50 } }]. *)
Definition no_area_params : Params := {|
  roof_area := Some 0; GWP_roof := None; decline_rate := None;
  roof_division := Some [("Green Areas", 50)];
  full_savings := None; improvement_years := None;
  years_to_calculate := None; points := None;
  efficiency_degradation := None; climate_zone := None
|}.

(** The same division on the default area:
    [{ roof_division: { "Green Areas": 50 } }]. *)
Definition half_division_params : Params := {|
  roof_area := None; GWP_roof := None; decline_rate := None;
  roof_division := Some [("Green Areas", 50)];
  full_savings := None; improvement_years := None;
  years_to_calculate := None; points := None;
  efficiency_degradation := None; climate_zone := None
|}.

(** A request that names an inherited property as its climate zone:
    [{ climate_zone: "constructor" }]. *)
Definition constructor_zone_params : Params := {|
  roof_area := None; GWP_roof := None; decline_rate := None;
  roof_division := None; full_savings := None; improvement_years := None;
  years_to_calculate := None; points := None;
  efficiency_degradation := None; climate_zone := Some "constructor"
|}.

(** The five zones of the table. *)
Definition recognized_zones : list string :=
  ["temperate"; "tropical"; "arid"; "continental"; "polar"].

(** The configurations performEnhancedCalculations accepts: they pass its
    three checks, and the projection has a length [Array.from] takes. *)
Definition enhanced_accepted (p : Enhanced.Params) : Prop :=
  0 < default 2776 (Enhanced.roof_area p) /\
  0 < default 3.33 (Enhanced.GWP_roof p) /\
  Rabs (sum_valuesR (default default_roof_division (Enhanced.roof_division p))
        - 100) <= 0.01 /\
  (default 50 (Enhanced.years_to_calculate p) + 1 <= max_array_length)%Z.

(** An enhanced request with a projection longer than an array:
    [{ years_to_calculate: 4294967295 }]. *)
Definition long_projection_params : Enhanced.Params := {|
  Enhanced.roof_area := None; Enhanced.GWP_roof := None;
  Enhanced.roof_division := None; Enhanced.plant_absorption := None;
  Enhanced.energy_emission := None; Enhanced.solar_emission := None;
  Enhanced.solar_reduction := None; Enhanced.heating_original := None;
  Enhanced.heating_reduced := None; Enhanced.water_emission := None;
  Enhanced.water_mitigated := None; Enhanced.water_collected := None;
  Enhanced.social_metrics := None; Enhanced.health_metrics := None;
  Enhanced.sdg_focus := None;
  Enhanced.years_to_calculate := Some 4294967295%Z
|}.

(** The enhanced request that leaves every field out. *)
Definition enhanced_default_params : Enhanced.Params := {|
  Enhanced.roof_area := None; Enhanced.GWP_roof := None;
  Enhanced.roof_division := None; Enhanced.plant_absorption := None;
  Enhanced.energy_emission := None; Enhanced.solar_emission := None;
  Enhanced.solar_reduction := None; Enhanced.heating_original := None;
  Enhanced.heating_reduced := None; Enhanced.water_emission := None;
  Enhanced.water_mitigated := None; Enhanced.water_collected := None;
  Enhanced.social_metrics := None; Enhanced.health_metrics := None;
  Enhanced.sdg_focus := None; Enhanced.years_to_calculate := None
|}.

(** The request of the route documentation, with four goals. *)
Definition four_goals_body : SdgReport.Body := {|
  SdgReport.roof_division := Some default_roof_division;
  SdgReport.sdg_focus :=
    Some ["Zero Hunger"; "Good Health and Well-being";
          "Clean Water and Sanitation"; "Affordable and Clean Energy"]
|}.

(** The health-impact request of the specification's example. *)
Definition example_health_body : HealthImpact.Body := {|
  HealthImpact.roof_area := Some 2776;
  HealthImpact.roof_division := Some default_roof_division;
  HealthImpact.employees := None;
  HealthImpact.building_occupants := None;
  HealthImpact.green_view_percentage := Some 60
|}.

(** The two rating scales, as the specification words them.  A score that
    is NaN meets no threshold and takes the last tier. *)
Definition five_tier_scale (score : num) : string :=
  match score with
  | PInf => "Exceptional"
  | Fin x =>
      if Rle_dec 90 x then "Exceptional"
      else if Rle_dec 70 x then "Strong"
      else if Rle_dec 50 x then "Good"
      else if Rle_dec 30 x then "Moderate"
      else "Limited"
  | NInf | NaN => "Limited"
  end.

Definition seven_tier_scale (score : num) : string :=
  match score with
  | PInf => "Outstanding"
  | Fin x =>
      if Rle_dec 90 x then "Outstanding"
      else if Rle_dec 80 x then "Excellent"
      else if Rle_dec 70 x then "Very Good"
      else if Rle_dec 60 x then "Good"
      else if Rle_dec 50 x then "Satisfactory"
      else if Rle_dec 40 x then "Acceptable"
      else "Needs Improvement"
  | NInf | NaN => "Needs Improvement"
  end.

(** The default request without any improvement:
    [{ improvement_years: {} }]. *)
Definition no_improvement_params : Params := {|
  roof_area := None; GWP_roof := None; decline_rate := None;
  roof_division := None; full_savings := None;
  improvement_years := Some [];
  years_to_calculate := None; points := None;
  efficiency_degradation := None; climate_zone := None
|}.

(** Every value of an object of the request is [>= 0]. *)
Definition nonnegative_values (o : obj R) : Prop :=
  Forall (fun v => 0 <= v) (values o).


(** Every sample is above the one before it. *)
Definition strictly_increasing (g : list num) : Prop :=
  forall i a b,
    nth_error g i = Some a -> nth_error g (S i) = Some b -> ltb a b = true.

(** Every value of an object of the request lies between two bounds. *)
Definition values_between (lo hi : R) (o : obj R) : Prop :=
  Forall (fun v => lo <= v <= hi) (values o).

(** A metric value that can be compared: null, or a number other than
    NaN. *)
Definition comparable (v : value) : Prop :=
  v = VNull \/ exists n, v = VNum n /\ n <> NaN.

(** [m] is at least as good as [n]: not above it for the type 'min', not
    below it for any other type. *)
Definition at_least_as_good (type : string) (m n : num) : bool :=
  if String.eqb type "min" then leb m n else leb n m.

(** What findBestScenario promises about [best] over the entries
    [scenarios]: it is one of them; its value is null only if all are; and
    it is at least as good as every number among them. *)
Definition best_among
  (type : string) (metric : Routes.Metric)
  (scenarios : list Routes.Scenario) (best : Routes.Scenario) : Prop :=
  In best scenarios /\
  (Routes.field best metric = VNull ->
   forall s, In s scenarios -> Routes.field s metric = VNull) /\
  (forall s n, In s scenarios -> Routes.field s metric = VNum n ->
     exists m, Routes.field best metric = VNum m /\
               at_least_as_good type m n = true).

(** A scenario of a comparison that passes: it has a name and parameters,
    and the parameters are accepted by performCalculations. *)
Definition scenario_passes (s : Routes.ScenarioInput) : Prop :=
  Routes.blank (Routes.name s) = false /\
  exists p, Routes.parameters s = Some p /\ accepted p.

(** A building of a batch that passes: it has an identifier, and its
    parameters merged over the common ones are accepted. *)
Definition building_passes (common : Params) (b : Routes.Building) : Prop :=
  Routes.blank (Routes.building_id b) = false /\
  accepted (Routes.merge common (Routes.building_parameters b)).

(** Two scenarios on the default parameters. *)
Definition two_default_scenarios : list Routes.ScenarioInput :=
  [ {| Routes.name := Some "Base"; Routes.parameters := Some default_params |};
    {| Routes.name := Some "Same"; Routes.parameters := Some default_params |} ].

(** Two entries of a comparison, with a cost of 300 and of 200 and no
    neutrality. *)
Definition cost_entry (name : string) (cost : R) : Routes.Scenario :=
  {| Routes.scenario_name := name;
     Routes.field := fun metric =>
       match metric with
       | Routes.neutrality_years => VNull
       | _ => VNum (Fin cost)
       end |}.

Definition two_cost_entries : list Routes.Scenario :=
  [cost_entry "Base" 300; cost_entry "Solar" 200].

(** The tiers of the three rating scales, from the lowest to the highest,
    and the place of a label among them. *)
Definition sustainability_tiers : list string :=
  ["Needs Improvement"; "Acceptable"; "Satisfactory"; "Good"; "Very Good";
   "Excellent"; "Outstanding"].

Definition sdg_alignment_tiers : list string :=
  ["Limited"; "Moderate"; "Good"; "Strong"; "Exceptional"].

Definition health_impact_tiers : list string :=
  ["Minimal"; "Modest"; "Moderate"; "Significant"; "Transformative"].

Fixpoint place (label : string) (tiers : list string) : nat :=
  match tiers with
  | [] => 0
  | tier :: rest => if String.eqb tier label then 0 else S (place label rest)
  end.

(** ** Proof tools *)

Ltac decide_R :=
  repeat match goal with
  | |- context [Rlt_dec ?a ?b] => destruct (Rlt_dec a b); try (exfalso; lra)
  | |- context [Rle_dec ?a ?b] => destruct (Rle_dec a b); try (exfalso; lra)
  | |- context [Req_dec_T ?a ?b] =>
      destruct (Req_dec_T a b); try (exfalso; lra)
  | |- context [Rcase_abs ?a] => destruct (Rcase_abs a); try (exfalso; lra)
  end.

Ltac to_nat_eval :=
  repeat match goal with
  | |- context [Z.to_nat ?z] =>
      let n := eval vm_compute in (Z.to_nat z) in
      progress change (Z.to_nat z) with n
  end.

Ltac num_unfold :=
  unfold div, mul, add, sub, neg, max, min, abs, leb, ltb, geb, gtb, truthy,
    sign_of, inf_of, sign_mul, Rsign, Rabs, or_else, ToBoolean, ToNumber.

(** Arithmetic on lengths, with the bound of an array written out. *)
Ltac length_lia := unfold max_array_length in *; lia.

(** The cases of a score against the thresholds of the rating scales. *)
Ltac tier_cases :=
  unfold getSustainabilityRating, getSdgAlignmentRating,
    getHealthImpactRating, geb, leb;
  decide_R; vm_compute; lia.

(** Evaluation of a closed expression over numbers. *)
Ltac num_eval := to_nat_eval; repeat (cbn; num_unfold; decide_R).

Lemma throw_if_Return {A} (c : bool) (msg : string) (k : result A) (a : A) :
  throw_if c msg k = Return a -> c = false /\ k = Return a.
Proof. destruct c; simpl; [discriminate | auto]. Qed.

Lemma throw_if_false {A} (msg : string) (k : result A) :
  throw_if false msg k = k.
Proof. reflexivity. Qed.

Lemma leb_Fin_false (x y : R) : leb (Fin x) (Fin y) = false <-> y < x.
Proof. unfold leb. destruct (Rle_dec x y); split; intros; try lra; congruence. Qed.

Lemma leb_Fin_true (x y : R) : leb (Fin x) (Fin y) = true <-> x <= y.
Proof. unfold leb. destruct (Rle_dec x y); split; intros; try lra; congruence. Qed.

Lemma ltb_Fin_false (x y : R) : ltb (Fin x) (Fin y) = false <-> y <= x.
Proof. unfold ltb. destruct (Rlt_dec x y); split; intros; try lra; congruence. Qed.

Lemma ltb_Fin_true (x y : R) : ltb (Fin x) (Fin y) = true <-> x < y.
Proof. unfold ltb. destruct (Rlt_dec x y); split; intros; try lra; congruence. Qed.

Lemma div_Fin (x y : R) : y <> 0 -> div (Fin x) (Fin y) = Fin (x / y).
Proof.
  intros H. unfold div. destruct (Req_dec_T y 0); [contradiction | reflexivity].
Qed.

Lemma percentage_check (t : R) :
  gtb (abs (sub (Fin t) (Fin 100))) (Fin 0.01) = false <->
  Rabs (t - 100) <= 0.01.
Proof.
  unfold gtb, abs, sub, neg, add. rewrite ltb_Fin_false.
  replace (t + - 100) with (t - 100) by lra. tauto.
Qed.

(** *** The lengths linspace takes *)

Lemma linspace_Return (start end_ : num) (n : Z) :
  (0 <= n <= max_array_length)%Z ->
  linspace start end_ n =
  Return (map (fun i => add start
                          (mul (div (sub end_ start) (Fin (IZR (n - 1))))
                               (Fin (IZR (Z.of_nat i)))))
              (seq 0 (Z.to_nat n))).
Proof.
  intros Hn. unfold linspace.
  replace (n <? 0)%Z with false by (symmetry; apply Z.ltb_ge; lia).
  replace (max_array_length <? n)%Z with false
    by (symmetry; apply Z.ltb_ge; lia).
  reflexivity.
Qed.

Lemma linspace_Throw (start end_ : num) (n : Z) :
  (n < 0 \/ max_array_length < n)%Z ->
  linspace start end_ n = Throw "Invalid array length".
Proof.
  intros Hn. unfold linspace.
  replace ((n <? 0) || (max_array_length <? n))%Z with true; [reflexivity |].
  symmetry. apply orb_true_iff.
  destruct Hn as [Hn | Hn]; [left | right]; apply Z.ltb_lt; exact Hn.
Qed.

(** linspace returns exactly for the lengths an array can have. *)
Lemma linspace_Return_length (start end_ : num) (n : Z) (g : list num) :
  linspace start end_ n = Return g -> (0 <= n <= max_array_length)%Z.
Proof.
  intros H.
  destruct (Z_lt_dec n 0) as [Hneg | Hneg];
    [rewrite linspace_Throw in H by (left; exact Hneg); discriminate H |].
  destruct (Z_lt_dec max_array_length n) as [Hbig | Hbig];
    [rewrite linspace_Throw in H by (right; exact Hbig); discriminate H |].
  lia.
Qed.

(** *** The checks of performCalculations *)

Lemma performCalculations_accepted (p : Params) (r : Result) :
  performCalculations p = Return r -> accepted p.
Proof.
  unfold performCalculations. cbv zeta. intros H.
  repeat (apply throw_if_Return in H; destruct H as [? H]).
  assert (Hlen : (0 <= default 1000%Z (points p) <= max_array_length)%Z).
  { destruct (linspace _ _ _) as [g | msg] eqn:Hg; [| discriminate H].
    exact (linspace_Return_length _ _ _ _ Hg). }
  clear H.
  repeat match goal with
  | H : (_ || _)%bool = false |- _ => apply orb_false_iff in H; destruct H
  end.
  unfold geb in *.
  repeat match goal with
  | H : leb (Fin _) (Fin _) = false |- _ => apply leb_Fin_false in H
  | H : ltb (Fin _) (Fin _) = false |- _ => apply ltb_Fin_false in H
  | H : gtb _ _ = false |- _ => apply percentage_check in H
  | H : (_ <=? _)%Z = false |- _ => apply Z.leb_gt in H
  end.
  unfold accepted, cfg_roof_area, cfg_GWP_roof, cfg_decline_rate,
    cfg_years_to_calculate, cfg_points, cfg_roof_division.
  repeat split; try assumption; lia.
Qed.

(** What performCalculations returns, field by field. *)
Lemma performCalculations_timeline (p : Params) (r : Result) :
  performCalculations p = Return r ->
  linspace (Fin 0) (Fin (cfg_years_to_calculate p)) (cfg_points p)
    = Return (timeline_years r) /\
  timeline_co2_natural_decline r =
    map (natural_sample (cfg_initial_co2 p) (Fin (cfg_decline_rate p))
           (ToNumber (cfg_climate_factor p)))
        (timeline_years r) /\
  timeline_co2_with_improvements r =
    improved_curve (cfg_improved_step p) (cfg_initial_co2 p)
      (timeline_years r) /\
  neutrality_with_improvements r =
    years_to_neutrality (timeline_years r)
      (neutral_index (timeline_co2_with_improvements r)) /\
  neutrality_natural_decline r =
    years_to_neutrality (timeline_years r)
      (neutral_index (timeline_co2_natural_decline r)).
Proof.
  intros H. pose proof (performCalculations_accepted _ _ H) as Hacc.
  destruct Hacc as (_ & _ & _ & _ & Hpts & _).
  unfold performCalculations in H. cbv zeta in H.
  repeat (apply throw_if_Return in H; destruct H as [_ H]).
  fold (cfg_points p) in H. fold (cfg_years_to_calculate p) in H.
  rewrite linspace_Return in * by length_lia.
  cbn [bind] in H. injection H as <-. cbn.
  repeat split; reflexivity.
Qed.

Lemma performCalculations_economics (p : Params) (r : Result) :
  performCalculations p = Return r ->
  r_initial_co2 r = cfg_initial_co2 p /\
  r_climate_factor r = cfg_climate_factor p /\
  r_annual_savings r = cfg_annual_savings p /\
  savings_annual r = sum_values (cfg_annual_savings p) /\
  economics_estimated_cost r =
    calculateEstimatedCost (Fin (cfg_roof_area p)) (cfg_roof_division p) /\
  economics_simple_payback_years r =
    VNum (div (economics_estimated_cost r) (savings_annual r)).
Proof.
  intros H. pose proof (performCalculations_accepted _ _ H) as Hacc.
  destruct Hacc as (_ & _ & _ & _ & Hpts & _).
  unfold performCalculations in H. cbv zeta in H.
  repeat (apply throw_if_Return in H; destruct H as [_ H]).
  fold (cfg_points p) in H.
  rewrite linspace_Return in H by length_lia.
  cbn [bind] in H. injection H as <-. cbn.
  repeat split; reflexivity.
Qed.

(** An accepted configuration yields a result: no later step throws. *)
Lemma accepted_performCalculations (p : Params) :
  accepted p -> exists r, performCalculations p = Return r.
Proof.
  intros (Ha & Hg & [Hd0 Hd1] & Hy & Hpts & Hsum).
  unfold performCalculations. cbv zeta.
  fold (cfg_roof_area p) (cfg_GWP_roof p) (cfg_decline_rate p)
       (cfg_years_to_calculate p) (cfg_points p) (cfg_roof_division p).
  replace (leb (Fin (cfg_roof_area p)) (Fin 0)) with false
    by (symmetry; apply leb_Fin_false; lra).
  replace (leb (Fin (cfg_GWP_roof p)) (Fin 0)) with false
    by (symmetry; apply leb_Fin_false; lra).
  replace (ltb (Fin (cfg_decline_rate p)) (Fin 0)) with false
    by (symmetry; apply ltb_Fin_false; lra).
  replace (geb (Fin (cfg_decline_rate p)) (Fin 1)) with false
    by (symmetry; apply leb_Fin_false; lra).
  replace (leb (Fin (cfg_years_to_calculate p)) (Fin 0)) with false
    by (symmetry; apply leb_Fin_false; lra).
  replace (cfg_points p <=? 0)%Z with false
    by (symmetry; apply Z.leb_gt; lia).
  replace (gtb (abs (sub (Fin (sum_valuesR (cfg_roof_division p))) (Fin 100)))
               (Fin 0.01)) with false
    by (symmetry; apply percentage_check; exact Hsum).
  cbn [orb]. rewrite !throw_if_false.
  rewrite linspace_Return by length_lia. cbn [bind]. eexists. reflexivity.
Qed.

(** *** The examples of the specification *)

(** An area of 2000 with a GWP of 3.0 gives an initial CO2 of 6000. *)
Example initial_co2_example :
  cfg_initial_co2
    {| roof_area := Some 2000; GWP_roof := Some 3.0; decline_rate := None;
       roof_division := None; full_savings := None;
       improvement_years := None; years_to_calculate := None;
       points := None; efficiency_degradation := None;
       climate_zone := None |} = Fin 6000.
Proof. unfold cfg_initial_co2. cbn. f_equal. lra. Qed.

(** The default division and savings give the annual savings 336.995,
    3035.625, 360.3125 and 1045, which sum to 4777.9325. *)
Example annual_savings_example :
  exists a b c d,
    cfg_annual_savings default_params =
      [("Green Areas", Fin a); ("Solar Power", Fin b);
       ("Water Management", Fin c); ("Social Impact", Fin d)] /\
    a = 336.995 /\ b = 3035.625 /\ c = 360.3125 /\ d = 1045 /\
    sum_values (cfg_annual_savings default_params)
      = Fin (0 + a + b + c + d) /\
    0 + a + b + c + d = 4777.9325.
Proof.
  unfold cfg_annual_savings, annual_savings_of, sum_values.
  cbn [cfg_roof_division cfg_full_savings default_params default roof_division
       full_savings default_roof_division default_full_savings keys map fst
       fold_left].
  unfold getR. simpl (own_get _ _). cbn [option_map prop ToNumber].
  rewrite !div_Fin by lra. cbn [mul]. cbn.
  do 4 eexists. split; [reflexivity |]. cbn.
  repeat split; lra.
Qed.

(** ** The year grid *)

Lemma nth_error_map_seq {A} (f : nat -> A) (n i : nat) :
  (i < n)%nat -> nth_error (map f (seq 0 n)) i = Some (f i).
Proof.
  intros Hi. rewrite nth_error_map, nth_error_seq.
  destruct (Nat.ltb_spec i n); [reflexivity | lia].
Qed.

Lemma nth_error_map_seq_inv {A} (f : nat -> A) (n i : nat) (a : A) :
  nth_error (map f (seq 0 n)) i = Some a -> (i < n)%nat /\ a = f i.
Proof.
  intros H.
  assert (Hi : (i < n)%nat).
  { assert (Hn : nth_error (map f (seq 0 n)) i <> None) by congruence.
    apply nth_error_Some in Hn. now rewrite length_map, length_seq in Hn. }
  split; [exact Hi |]. rewrite nth_error_map_seq in H by exact Hi. congruence.
Qed.

(** With at least two points every entry of the grid is finite. *)
Lemma linspace_grid (horizonYears : R) (n : Z) :
  (2 <= n <= max_array_length)%Z ->
  linspace (Fin 0) (Fin horizonYears) n =
  Return (map (fun i => Fin (horizonYears * IZR (Z.of_nat i) / IZR (n - 1)))
              (seq 0 (Z.to_nat n))).
Proof.
  intros Hn. rewrite linspace_Return by length_lia. f_equal.
  apply map_ext. intros i.
  assert (Hd : IZR (n - 1) <> 0) by (apply not_0_IZR; lia).
  unfold sub, neg, add. rewrite div_Fin by exact Hd.
  unfold mul. f_equal. field. exact Hd.
Qed.

(** C5, as amended: for every integer [points] from 2 to [2^32 - 1] and
    every horizon [horizonYears > 0], [linspace(0, horizonYears, points)]
    returns exactly [points] entries, the entry at index [i] being
    [0 + step * i] for the step [(horizonYears - 0) / (points - 1)], so
    that the first entry is 0; in exact arithmetic, rounding aside, the
    entries are evenly spaced and the last one is [horizonYears]; and this
    is the grid performCalculations puts in [timeline.years]. *)
Theorem linspace_year_grid (points : Z) (horizonYears : R) :
  (2 <= points <= max_array_length)%Z -> 0 < horizonYears ->
  exists g,
    linspace (Fin 0) (Fin horizonYears) points = Return g /\
    (forall i, (i < Z.to_nat points)%nat ->
       nth_error g i
       = Some (add (Fin 0)
                   (mul (div (sub (Fin horizonYears) (Fin 0))
                             (Fin (IZR (points - 1))))
                        (Fin (IZR (Z.of_nat i)))))) /\
    year_grid points horizonYears g /\
    forall p r,
      cfg_points p = points -> cfg_years_to_calculate p = horizonYears ->
      performCalculations p = Return r -> timeline_years r = g.
Proof.
  intros Hn Hy. eexists. split; [apply linspace_grid; exact Hn |].
  assert (Hd : IZR (points - 1) <> 0) by (apply not_0_IZR; lia).
  split; [| split].
  - intros i Hi. rewrite nth_error_map_seq by exact Hi. f_equal.
    unfold sub, neg, add. rewrite div_Fin by exact Hd.
    unfold mul. f_equal. field. exact Hd.
  - unfold year_grid. rewrite length_map, length_seq.
    split; [reflexivity |]. split; [| split].
    + exists (horizonYears / IZR (points - 1)). intros i x y Hx Hy'.
      apply nth_error_map_seq_inv in Hx. destruct Hx as [_ ->].
      apply nth_error_map_seq_inv in Hy'. destruct Hy' as [_ ->].
      unfold sub, neg, add. f_equal.
      rewrite Nat2Z.inj_succ, succ_IZR. field. exact Hd.
    + rewrite nth_error_map_seq by lia. f_equal. f_equal.
      change (IZR (Z.of_nat 0)) with 0. field. exact Hd.
    + rewrite nth_error_map_seq by lia. f_equal. f_equal.
      replace (Z.of_nat (Z.to_nat points - 1)) with (points - 1)%Z by lia.
      field. exact Hd.
  - intros p r Hp Hh Hr.
    apply performCalculations_timeline in Hr. destruct Hr as [Hr _].
    rewrite Hp, Hh, linspace_grid in Hr by exact Hn. congruence.
Qed.

Lemma linspace_year_grid_witness :
  exists g,
    linspace (Fin 0) (Fin 50) 1000 = Return g /\
    (forall i, (i < Z.to_nat 1000)%nat ->
       nth_error g i
       = Some (add (Fin 0)
                   (mul (div (sub (Fin 50) (Fin 0)) (Fin (IZR (1000 - 1))))
                        (Fin (IZR (Z.of_nat i)))))) /\
    year_grid 1000 50 g /\
    forall p r,
      cfg_points p = 1000%Z -> cfg_years_to_calculate p = 50 ->
      performCalculations p = Return r -> timeline_years r = g.
Proof.
  apply (linspace_year_grid 1000 50); [unfold max_array_length; lia | lra].
Defined.

(** C5, as stated, fails at [points = 1]: the step is [50 / 0], Infinity,
    and the single entry [0 + Infinity * 0] is NaN, not 0. *)
Lemma linspace_one_point_counterexample :
  linspace (Fin 0) (Fin 50) 1 = Return [NaN] /\
  ~ (exists g, linspace (Fin 0) (Fin 50) 1 = Return g /\ year_grid 1 50 g).
Proof.
  assert (H : linspace (Fin 0) (Fin 50) 1 = Return [NaN]).
  { unfold linspace, throw_if. num_eval. reflexivity. }
  split; [exact H |].
  intros (g & Hg & _ & _ & Hfirst & _).
  rewrite H in Hg. injection Hg as <-. discriminate Hfirst.
Qed.

(** ** The climate factor *)

Lemma or_else_VObject (d : value) : or_else VObject d = VObject.
Proof. reflexivity. Qed.

Lemma or_else_VUndefined (d : value) : or_else VUndefined d = d.
Proof. reflexivity. Qed.

Lemma or_else_positive (c : R) (d : value) :
  0 < c -> or_else (VNum (Fin c)) d = VNum (Fin c).
Proof.
  intros Hc. unfold or_else, ToBoolean, truthy.
  destruct (Req_dec_T c 0); [lra | reflexivity].
Qed.

(** The factor is a positive number, or the inherited member of
    [Object.prototype] the zone happens to name. *)
Lemma climate_factor_cases (zone : string) :
  let f := or_else (get climateFactors zone) (VNum (Fin 1.0)) in
  (inherited zone = true /\ f = VObject) \/
  (exists c, 0 < c /\ f = VNum (Fin c)).
Proof.
  cbv zeta. unfold get, climateFactors, own_get.
  repeat match goal with
  | |- context [String.eqb zone ?s] => destruct (String.eqb zone s)
  end;
  try (right; eexists; split; [| unfold prop; apply or_else_positive]; lra).
  unfold prop. destruct (inherited zone).
  - left. split; reflexivity.
  - right. exists 1.0. split; [lra | reflexivity].
Qed.

Lemma climate_factor_number (zone : string) :
  inherited zone = false ->
  exists c, 0 < c /\
    or_else (get climateFactors zone) (VNum (Fin 1.0)) = VNum (Fin c).
Proof.
  intros Hz. destruct (climate_factor_cases zone) as [[H _] | H].
  - congruence.
  - exact H.
Qed.

(** ** The neutrality analysis *)

Lemma neutral_index_from_spec (curve : list num) (i : nat) :
  (neutral_index_from i curve = (-1)%Z /\ never_crosses curve) \/
  (exists k, neutral_index_from i curve = Z.of_nat (i + k) /\
             first_crossing curve k).
Proof.
  revert i. induction curve as [| c rest IH]; intros i; simpl.
  - left. split; [reflexivity |]. intros [| j] x Hx; discriminate Hx.
  - destruct (leb c (Fin 0)) eqn:Hc.
    + right. exists 0%nat. split; [f_equal; lia |]. split.
      * exists c. split; [reflexivity | exact Hc].
      * intros j x Hj. lia.
    + destruct (IH (S i)) as [[Hn Hnever] | (k & Hk & [Hat Hbefore])].
      * left. split; [exact Hn |]. intros [| j] x Hx.
        -- simpl in Hx. congruence.
        -- exact (Hnever j x Hx).
      * right. exists (S k). split; [rewrite Hk; f_equal; lia |]. split.
        -- exact Hat.
        -- intros [| j] x Hj Hx.
           ++ simpl in Hx. congruence.
           ++ apply (Hbefore j x); [lia | exact Hx].
Qed.

Lemma first_crossing_unique (curve : list num) (i j : nat) :
  first_crossing curve i -> first_crossing curve j -> i = j.
Proof.
  intros [(ci & Hci & Hi) Hbi] [(cj & Hcj & Hj) Hbj].
  destruct (Nat.lt_trichotomy i j) as [Hlt | [Heq | Hgt]]; [| exact Heq |].
  - specialize (Hbj i ci Hlt Hci). congruence.
  - specialize (Hbi j cj Hgt Hcj). congruence.
Qed.

(** The scan followed by the test [neutral_index > 0], on a curve as long
    as the grid whose first sample is not [<= 0]. *)
Lemma years_to_neutrality_spec (years curve : list num) (c0 : num) :
  List.length curve = List.length years ->
  nth_error curve 0 = Some c0 -> leb c0 (Fin 0) = false ->
  neutrality_spec years curve (years_to_neutrality years (neutral_index curve)).
Proof.
  intros Hlen H0 Hc0. unfold neutrality_spec, neutral_index.
  destruct (neutral_index_from_spec curve 0)
    as [[Hn Hnever] | (k & Hk & Hfirst)].
  - rewrite Hn. unfold years_to_neutrality. simpl. split.
    + intros i0 [(c & Hc & Hle) _]. specialize (Hnever i0 c Hc). congruence.
    + tauto.
  - rewrite Hk. simpl. unfold years_to_neutrality.
    assert (Hk0 : k <> 0%nat).
    { intros ->. destruct Hfirst as [(c & Hc & Hle) _]. congruence. }
    replace (0 <? Z.of_nat k)%Z with true by (symmetry; apply Z.ltb_lt; lia).
    rewrite Nat2Z.id. unfold at_index.
    destruct (nth_error years k) as [y |] eqn:Hy.
    + split.
      * intros i0 Hi0. rewrite (first_crossing_unique _ _ _ Hi0 Hfirst).
        exists y. split; [exact Hy | reflexivity].
      * split; [discriminate |]. intros Hnever.
        destruct Hfirst as [(c & Hc & Hle) _].
        specialize (Hnever k c Hc). congruence.
    + exfalso. destruct Hfirst as [(c & Hc & _) _].
      apply nth_error_None in Hy.
      assert (Hin : nth_error curve k <> None) by congruence.
      apply nth_error_Some in Hin. lia.
Qed.

Lemma linspace_length (start end_ : num) (n : Z) (g : list num) :
  linspace start end_ n = Return g -> List.length g = Z.to_nat n.
Proof.
  unfold linspace. intros H. apply throw_if_Return in H. destruct H as [_ H].
  injection H as <-. now rewrite length_map, length_seq.
Qed.

Lemma improved_from_length (step : num -> num -> num) (ys : list num) :
  forall previous, List.length (improved_from step previous ys) = List.length ys.
Proof. induction ys as [| y ys IH]; intros previous; simpl; [| rewrite IH]; reflexivity. Qed.

Lemma improved_curve_length
  (step : num -> num -> num) (initial : num) (ys : list num) :
  ys <> [] -> List.length (improved_curve step initial ys) = List.length ys.
Proof.
  intros Hys. unfold improved_curve. simpl. rewrite improved_from_length.
  destruct ys; [contradiction | reflexivity].
Qed.

Lemma initial_co2_positive (p : Params) :
  accepted p ->
  exists x, 0 < x /\ cfg_initial_co2 p = Fin x.
Proof.
  intros (Ha & Hg & _). exists (cfg_GWP_roof p * cfg_roof_area p).
  split; [| reflexivity]. apply Rmult_lt_0_compat; assumption.
Qed.

(** A sample of the natural curve is never [<= 0]: it is a positive number,
    or NaN when the year or the climate factor is. *)
Lemma natural_sample_not_crossing (x d : R) (cf year : num) :
  0 < x ->
  (cf = NaN \/ exists c, cf = Fin c) ->
  (year = NaN \/ exists y, year = Fin y) ->
  leb (natural_sample (Fin x) (Fin d) cf year) (Fin 0) = false.
Proof.
  intros Hx [-> | [c ->]] [-> | [y ->]]; unfold natural_sample; simpl;
    try reflexivity.
  apply leb_Fin_false. apply Rmult_lt_0_compat; [exact Hx | apply exp_pos].
Qed.

Lemma climate_factor_number_or_nan (p : Params) :
  ToNumber (cfg_climate_factor p) = NaN \/
  exists c, ToNumber (cfg_climate_factor p) = Fin c.
Proof.
  unfold cfg_climate_factor.
  destruct (climate_factor_cases (cfg_climate_zone p))
    as [[_ ->] | (c & _ & ->)].
  - left. reflexivity.
  - right. exists c. reflexivity.
Qed.

Lemma linspace_entries (horizonYears : R) (n : Z) (g : list num) :
  linspace (Fin 0) (Fin horizonYears) n = Return g ->
  0 < horizonYears ->
  forall i year, nth_error g i = Some year ->
                 year = NaN \/ exists y, year = Fin y.
Proof.
  intros Hg Hh i year Hi.
  pose proof (linspace_Return_length _ _ _ _ Hg) as Hlen.
  destruct (Z_lt_le_dec n 2) as [Hsmall | Hbig].
  - assert (Hn : n = 0%Z \/ n = 1%Z) by lia.
    rewrite linspace_Return in Hg by exact Hlen.
    destruct Hn as [-> | ->].
    + simpl in Hg. injection Hg as <-. destruct i; discriminate Hi.
    + left. revert Hg. num_eval.
      intros Hg. injection Hg as <-.
      destruct i as [| [| i]]; simpl in Hi; congruence.
  - right. rewrite linspace_grid in Hg by lia. injection Hg as <-.
    apply nth_error_map_seq_inv in Hi. destruct Hi as [_ ->]. eauto.
Qed.

(** The scan on any curve as long as the grid.  It reports the grid year at
    the first index whose sample is [<= 0] when that index is not 0, and
    null when no sample is [<= 0]; when sample 0 itself is [<= 0] it
    reports null as well, the test being [neutral_index > 0]. *)
Lemma years_to_neutrality_cases (years curve : list num) :
  List.length curve = List.length years ->
  (forall i0, first_crossing curve i0 -> (0 < i0)%nat ->
     exists y, nth_error years i0 = Some y /\
               years_to_neutrality years (neutral_index curve) = VNum y) /\
  (never_crosses curve ->
   years_to_neutrality years (neutral_index curve) = VNull) /\
  (first_crossing curve 0 ->
   years_to_neutrality years (neutral_index curve) = VNull).
Proof.
  intros Hlen. unfold neutral_index.
  destruct (neutral_index_from_spec curve 0)
    as [[Hn Hnever] | (k & Hk & Hfirst)].
  - rewrite Hn. unfold years_to_neutrality. simpl.
    split; [| split; reflexivity].
    intros i0 [(c & Hc & Hle) _] _. specialize (Hnever i0 c Hc). congruence.
  - rewrite Hk. simpl. unfold years_to_neutrality. split; [| split].
    + intros i0 Hi0 Hpos.
      rewrite <- (first_crossing_unique _ _ _ Hi0 Hfirst).
      replace (0 <? Z.of_nat i0)%Z with true
        by (symmetry; apply Z.ltb_lt; lia).
      rewrite Nat2Z.id. unfold at_index.
      destruct (nth_error years i0) as [y |] eqn:Hy.
      * exists y. split; reflexivity.
      * exfalso. destruct Hi0 as [(c & Hc & _) _].
        apply nth_error_None in Hy.
        assert (Hin : nth_error curve i0 <> None) by congruence.
        apply nth_error_Some in Hin. lia.
    + intros Hnever. destruct Hfirst as [(c & Hc & Hle) _].
      specialize (Hnever k c Hc). congruence.
    + intros H0. rewrite <- (first_crossing_unique _ _ _ H0 Hfirst).
      reflexivity.
Qed.

(** C3: both neutrality fields of a result are the scan of their curve
    followed by the test [neutral_index > 0].  For a first sample [<= 0]
    at an index other than 0 the scan reports the grid year at that index,
    and without such a sample it reports null, as the claim says; but when
    sample 0 itself is [<= 0] it reports null, where the claim says
    [years[0]]: [neutral_index] starts at -1, and the test [> 0] leaves
    out the index 0. *)
Theorem neutrality_scan_index_zero :
  (forall p r,
     performCalculations p = Return r ->
     neutrality_with_improvements r =
       years_to_neutrality (timeline_years r)
         (neutral_index (timeline_co2_with_improvements r)) /\
     neutrality_natural_decline r =
       years_to_neutrality (timeline_years r)
         (neutral_index (timeline_co2_natural_decline r))) /\
  (forall years curve,
     List.length curve = List.length years ->
     (forall i0, first_crossing curve i0 -> (0 < i0)%nat ->
        exists y, nth_error years i0 = Some y /\
                  years_to_neutrality years (neutral_index curve) = VNum y) /\
     (never_crosses curve ->
      years_to_neutrality years (neutral_index curve) = VNull)) /\
  (forall years curve c0,
     nth_error curve 0 = Some c0 -> leb c0 (Fin 0) = true ->
     first_crossing curve 0 /\
     years_to_neutrality years (neutral_index curve) = VNull).
Proof.
  split; [| split].
  - intros p r Hr.
    destruct (performCalculations_timeline p r Hr) as (_ & _ & _ & Hni & Hnn).
    split; assumption.
  - intros years curve Hlen.
    destruct (years_to_neutrality_cases years curve Hlen) as (H1 & H2 & _).
    split; assumption.
  - intros years curve c0 H0 Hle.
    assert (Hfirst : first_crossing curve 0).
    { split; [exists c0; split; assumption |]. intros j c Hj. lia. }
    split; [exact Hfirst |].
    destruct curve as [| c rest]; [discriminate H0 |].
    simpl in H0. injection H0 as ->.
    unfold neutral_index, years_to_neutrality. simpl. rewrite Hle.
    reflexivity.
Qed.

(** The curves of the request [{ roof_area: 1e-200, GWP_roof: 1e-200,
    years_to_calculate: 1, points: 2 }] in double precision, where the
    product of area and GWP underflows to 0: both are [0, 0] over the
    grid [0, 1], and the reported year is null. *)
Lemma neutrality_scan_index_zero_witness :
  first_crossing [Fin 0; Fin 0] 0 /\
  years_to_neutrality [Fin 0; Fin 1] (neutral_index [Fin 0; Fin 0]) = VNull.
Proof.
  apply (proj2 (proj2 neutrality_scan_index_zero)
           [Fin 0; Fin 1] [Fin 0; Fin 0] (Fin 0)).
  - reflexivity.
  - apply leb_Fin_true. lra.
Defined.

(** In exact arithmetic the first sample of either curve of an accepted
    configuration is never [<= 0]: it is the product of a positive area
    and a positive GWP, or that times an exponential, or NaN.  The
    reported neutrality year then is [years[i0]] for the smallest index
    [i0] whose sample is [<= 0], and null exactly when there is none. *)
Lemma neutrality_first_crossing (p : Params) :
  accepted p ->
  exists r,
    performCalculations p = Return r /\
    neutrality_spec (timeline_years r) (timeline_co2_with_improvements r)
      (neutrality_with_improvements r) /\
    neutrality_spec (timeline_years r) (timeline_co2_natural_decline r)
      (neutrality_natural_decline r).
Proof.
  intros Hacc. destruct (accepted_performCalculations p Hacc) as [r Hr].
  exists r. split; [exact Hr |].
  destruct (performCalculations_timeline p r Hr)
    as (Hgrid & Hnat & Himp & Hni & Hnn).
  destruct (initial_co2_positive p Hacc) as (x & Hx & Hinit).
  pose proof (linspace_length _ _ _ _ Hgrid) as Hlen.
  assert (Hpts : (0 < cfg_points p)%Z) by apply Hacc.
  assert (Hy : 0 < cfg_years_to_calculate p) by apply Hacc.
  assert (Hne : timeline_years r <> []).
  { intros E. rewrite E in Hlen. simpl in Hlen. lia. }
  split.
  - rewrite Hni. apply years_to_neutrality_spec with (c0 := cfg_initial_co2 p).
    + rewrite Himp. apply improved_curve_length. exact Hne.
    + rewrite Himp. reflexivity.
    + rewrite Hinit. apply leb_Fin_false. exact Hx.
  - rewrite Hnn.
    destruct (timeline_years r) as [| y0 ys] eqn:Eys; [contradiction |].
    apply years_to_neutrality_spec
      with (c0 := natural_sample (cfg_initial_co2 p) (Fin (cfg_decline_rate p))
                    (ToNumber (cfg_climate_factor p)) y0).
    + rewrite Hnat. now rewrite length_map.
    + rewrite Hnat. reflexivity.
    + rewrite Hinit. apply natural_sample_not_crossing.
      * exact Hx.
      * apply climate_factor_number_or_nan.
      * apply (linspace_entries _ _ _ Hgrid Hy 0%nat). reflexivity.
Qed.

Lemma accepted_default : accepted default_params.
Proof.
  unfold accepted, max_array_length, default_params, cfg_roof_area, cfg_GWP_roof,
    cfg_decline_rate, cfg_years_to_calculate, cfg_points, cfg_roof_division,
    sum_valuesR. cbn.
  repeat split; try lra; try lia.
  unfold Rabs. destruct (Rcase_abs _); lra.
Qed.

Lemma accepted_small : accepted small_params.
Proof.
  unfold accepted, max_array_length, sum_valuesR. cbn. repeat split; try lra; try lia.
  unfold Rabs. destruct (Rcase_abs _); lra.
Qed.

Lemma neutrality_first_crossing_witness :
  exists r,
    performCalculations small_params = Return r /\
    neutrality_spec (timeline_years r) (timeline_co2_with_improvements r)
      (neutrality_with_improvements r) /\
    neutrality_spec (timeline_years r) (timeline_co2_natural_decline r)
      (neutrality_natural_decline r).
Proof. exact (neutrality_first_crossing small_params accepted_small). Defined.

(** The run of [small_params]: the improved curve falls from 1 to the
    floor at the second sample, whose year is reported; the natural curve
    stays at 1 and its neutrality is null. *)
Example neutrality_example :
  exists r,
    performCalculations small_params = Return r /\
    timeline_years r = [Fin 0; Fin 1] /\
    timeline_co2_with_improvements r = [Fin 1; Fin 0] /\
    timeline_co2_natural_decline r = [Fin 1; Fin 1] /\
    neutrality_with_improvements r = VNum (Fin 1) /\
    neutrality_natural_decline r = VNull.
Proof.
  destruct (accepted_performCalculations _ accepted_small) as [r Hr].
  exists r. split; [exact Hr |].
  destruct (performCalculations_timeline _ r Hr)
    as (Hgrid & Hnat & Himp & Hni & Hnn).
  assert (Hyears : timeline_years r = [Fin 0; Fin 1]).
  { change (cfg_points small_params) with 2%Z in Hgrid.
    rewrite linspace_grid in Hgrid by length_lia. injection Hgrid as <-.
    cbn. repeat f_equal; lra. }
  assert (Hcf : cfg_climate_factor small_params = VNum (Fin 1.0)).
  { unfold cfg_climate_factor. num_eval. reflexivity. }
  assert (Hexp : forall x, x = 0 -> Rtrigo_def.exp x = 1).
  { intros x ->. apply exp_0. }
  assert (Hi : timeline_co2_with_improvements r = [Fin 1; Fin 0]).
  { rewrite Himp, Hyears. unfold cfg_improved_step. rewrite Hcf.
    unfold improved_curve, improved_step, apply_improvements,
      cfg_annual_savings, annual_savings_of, cfg_initial_co2.
    cbn. rewrite (Hexp (- 0 * 1.0)) by lra. num_eval.
    repeat f_equal; lra. }
  assert (Hn : timeline_co2_natural_decline r = [Fin 1; Fin 1]).
  { rewrite Hnat, Hyears, Hcf. unfold natural_sample, cfg_initial_co2. cbn.
    rewrite (Hexp (- 0 * 0 * 1.0)), (Hexp (- 0 * 1 * 1.0)) by lra.
    repeat f_equal; lra. }
  repeat split; try assumption.
  - rewrite Hni, Hi, Hyears. unfold neutral_index, years_to_neutrality.
    num_eval. reflexivity.
  - rewrite Hnn, Hn, Hyears. unfold neutral_index, years_to_neutrality.
    num_eval. reflexivity.
Qed.

(** ** The natural curve *)

(** C7: for an accepted configuration with [decline_rate > 0], a climate
    factor [> 0] and [points >= 2], the returned [co2_natural_decline] is
    strictly decreasing from each sample to the next. *)
Theorem natural_decline_strictly_decreasing (p : Params) :
  accepted p ->
  0 < cfg_decline_rate p ->
  gtb (ToNumber (cfg_climate_factor p)) (Fin 0) = true ->
  (2 <= cfg_points p)%Z ->
  exists r,
    performCalculations p = Return r /\
    strictly_decreasing (timeline_co2_natural_decline r).
Proof.
  intros Hacc Hd Hcf Hpts.
  destruct (accepted_performCalculations p Hacc) as [r Hr].
  exists r. split; [exact Hr |].
  destruct (performCalculations_timeline p r Hr) as (Hgrid & Hnat & _).
  destruct (initial_co2_positive p Hacc) as (x & Hx & Hinit).
  assert (Hy : 0 < cfg_years_to_calculate p) by apply Hacc.
  assert (Hc : exists c, 0 < c /\ ToNumber (cfg_climate_factor p) = Fin c).
  { destruct (climate_factor_number_or_nan p) as [E | [c E]];
      rewrite E in Hcf; [discriminate |].
    exists c. split; [| exact E]. apply ltb_Fin_true. exact Hcf. }
  destruct Hc as (c & Hc & Ec).
  rewrite linspace_grid in Hgrid
    by (pose proof (linspace_Return_length _ _ _ _ Hgrid); lia). injection Hgrid as Hgrid.
  rewrite Hnat, <- Hgrid, Hinit, Ec, map_map.
  assert (Hn : 0 < IZR (cfg_points p - 1)) by (apply IZR_lt; lia).
  intros i a b Ha Hb.
  apply nth_error_map_seq_inv in Ha. destruct Ha as [_ ->].
  apply nth_error_map_seq_inv in Hb. destruct Hb as [_ ->].
  unfold natural_sample, neg, mul, exp. apply ltb_Fin_true.
  apply Rmult_lt_compat_l; [exact Hx |]. apply exp_increasing.
  rewrite Nat2Z.inj_succ, succ_IZR.
  set (k := IZR (Z.of_nat i)).
  set (n := IZR (cfg_points p - 1)) in *.
  set (Y := cfg_years_to_calculate p) in *.
  set (d := cfg_decline_rate p) in *.
  assert (Hstep : 0 < d * (Y / n) * c).
  { apply Rmult_lt_0_compat; [apply Rmult_lt_0_compat |]; try assumption.
    apply Rdiv_lt_0_compat; assumption. }
  replace (- d * (Y * (k + 1) / n) * c)
    with (- d * (Y * k / n) * c - d * (Y / n) * c) by (field; lra).
  lra.
Qed.

Lemma natural_decline_strictly_decreasing_witness :
  exists r,
    performCalculations default_params = Return r /\
    strictly_decreasing (timeline_co2_natural_decline r).
Proof.
  apply (natural_decline_strictly_decreasing default_params).
  - exact accepted_default.
  - unfold cfg_decline_rate, default_params. cbn. lra.
  - unfold cfg_climate_factor, cfg_climate_zone, default_params. num_eval.
    reflexivity.
  - unfold cfg_points, default_params. cbn. lia.
Defined.

(** ** Objects *)

Lemma own_get_own_set {A} (o : obj A) (k k' : string) (v : A) :
  own_get (own_set o k v) k' =
  if String.eqb k' k then Some v else own_get o k'.
Proof.
  induction o as [| [k0 v0] o IH]; simpl.
  - reflexivity.
  - destruct (String.eqb k k0) eqn:E; simpl.
    + apply String.eqb_eq in E. subst k0.
      destruct (String.eqb k' k); reflexivity.
    + rewrite IH. destruct (String.eqb k' k0) eqn:E0; [| reflexivity].
      apply String.eqb_eq in E0. subst k0.
      destruct (String.eqb k' k) eqn:E1; [| reflexivity].
      apply String.eqb_eq in E1. subst k'. rewrite String.eqb_refl in E.
      discriminate E.
Qed.

Lemma own_get_set (o : obj num) (k k' : string) (v : num) :
  own_get (set o k v) k' =
  if negb (String.eqb k "__proto__") && String.eqb k' k
  then Some v else own_get o k'.
Proof.
  unfold set. destruct (String.eqb k "__proto__"); simpl.
  - reflexivity.
  - apply own_get_own_set.
Qed.

Lemma own_get_In {A} (o : obj A) (k : string) :
  In k (keys o) <-> exists v, own_get o k = Some v.
Proof.
  induction o as [| [k0 v0] o IH]; simpl.
  - split; [intros [] | intros [v H]; discriminate H].
  - destruct (String.eqb k k0) eqn:E.
    + apply String.eqb_eq in E. subst k0. split; eauto.
    + apply String.eqb_neq in E. rewrite <- IH. split.
      * intros [H | H]; [congruence | exact H].
      * auto.
Qed.

Lemma own_get_None {A} (o : obj A) (k : string) :
  ~ In k (keys o) <-> own_get o k = None.
Proof.
  rewrite own_get_In. destruct (own_get o k) as [v |].
  - split; [intros H; exfalso; apply H; eauto | discriminate].
  - split; [reflexivity | intros _ [v H]; discriminate H].
Qed.

(** The loop writes one entry per category, apart from [__proto__]. *)
Lemma own_get_annual_loop (rd fs : obj R) (ks : list string) (k : string) :
  forall acc,
    own_get (fold_left (fun annual_savings key =>
                          set annual_savings key (annual_saving rd fs key))
                       ks acc) k =
    if negb (String.eqb k "__proto__") && existsb (String.eqb k) ks
    then Some (annual_saving rd fs k) else own_get acc k.
Proof.
  induction ks as [| a ks IH]; intros acc; simpl.
  - now rewrite andb_false_r.
  - rewrite IH, own_get_set.
    destruct (String.eqb k a) eqn:E; simpl.
    + apply String.eqb_eq in E. subst a.
      destruct (String.eqb k "__proto__"); simpl; [reflexivity |].
      destruct (existsb (String.eqb k) ks); reflexivity.
    + rewrite andb_false_r. reflexivity.
Qed.

Lemma own_get_annual_savings (rd fs : obj R) (k : string) :
  own_get (annual_savings_of rd fs) k =
  if negb (String.eqb k "__proto__") && existsb (String.eqb k) (keys rd)
  then Some (annual_saving rd fs k) else None.
Proof. unfold annual_savings_of. apply own_get_annual_loop. Qed.

Lemma existsb_eqb_In (k : string) (ks : list string) :
  existsb (String.eqb k) ks = true <-> In k ks.
Proof.
  rewrite existsb_exists. split.
  - intros (x & Hx & E). apply String.eqb_eq in E. now subst.
  - intros H. exists k. split; [exact H | apply String.eqb_refl].
Qed.

Lemma getR_own (o : obj R) (k : string) (x : R) :
  own_get o k = Some x -> getR o k = VNum (Fin x).
Proof. intros H. unfold getR. rewrite H. reflexivity. Qed.

(** A category present in both objects has a finite annual saving. *)
Lemma annual_saving_finite (rd fs : obj R) (k : string) :
  k <> "__proto__" -> In k (keys rd) -> In k (keys fs) ->
  exists a, get (annual_savings_of rd fs) k = VNum (Fin a).
Proof.
  intros Hk Hrd Hfs.
  apply own_get_In in Hrd. destruct Hrd as [pct Hpct].
  apply own_get_In in Hfs. destruct Hfs as [f Hf].
  unfold get. rewrite own_get_annual_savings.
  replace (String.eqb k "__proto__") with false
    by (symmetry; apply String.eqb_neq; exact Hk).
  replace (existsb (String.eqb k) (keys rd)) with true
    by (symmetry; apply existsb_eqb_In, own_get_In; eauto).
  simpl. unfold annual_saving.
  rewrite (getR_own _ _ _ Hpct), (getR_own _ _ _ Hf). simpl ToNumber.
  rewrite div_Fin by lra. simpl. eauto.
Qed.

(** ** The improved curve *)

Lemma max_zero_cases (x : num) :
  max (Fin 0) x = NaN \/ nonnegative (max (Fin 0) x).
Proof.
  unfold nonnegative, geb.
  destruct x as [x | | |]; simpl.
  - destruct (Rle_dec 0 x); right; apply leb_Fin_true; lra.
  - right. reflexivity.
  - right. apply leb_Fin_true. lra.
  - left. reflexivity.
Qed.

Lemma max_zero_Fin (x : R) :
  exists y, 0 <= y /\ max (Fin 0) (Fin x) = Fin y.
Proof.
  simpl. destruct (Rle_dec 0 x); eexists; (split; [| reflexivity]); lra.
Qed.

Lemma improved_from_floor
  (iy : obj R) (annual : obj num) (d deg pts cf : num) (ys : list num) :
  forall previous c,
    In c (improved_from (improved_step iy annual d deg pts cf) previous ys) ->
    c = NaN \/ nonnegative c.
Proof.
  induction ys as [| y ys IH]; intros previous c Hc; simpl in Hc.
  - contradiction.
  - destruct Hc as [<- | Hc].
    + unfold improved_step. apply max_zero_cases.
    + exact (IH _ _ Hc).
Qed.

(** The loop on finite values: a finite climate factor, a non-zero number
    of points, and a finite annual saving for every category the inner loop
    visits. *)
Section FiniteSavings.

Variables (iy : obj R) (annual : obj num) (d deg n c : R).
Hypothesis points_nonzero : n <> 0.
Hypothesis annual_finite :
  forall k, In k (keys iy) -> exists a, get annual k = VNum (Fin a).

(** One turn of the inner loop. *)
Lemma improvement_term_finite (co2 s y a : R) :
  exists x,
    (if geb (Fin y) (Fin s) then
       sub (Fin co2)
           (mul (div (mul (Fin a)
                          (max (Fin 0)
                               (sub (Fin 1)
                                    (mul (Fin deg) (sub (Fin y) (Fin s))))))
                     (Fin n))
                (Fin c))
     else Fin co2) = Fin x.
Proof.
  destruct (geb (Fin y) (Fin s)); [| eauto].
  unfold sub. cbn [add neg mul].
  destruct (max_zero_Fin (1 + - (deg * (y + - s)))) as (e & _ & ->).
  cbn [mul]. rewrite div_Fin by exact points_nonzero.
  cbn [add neg mul]. eauto.
Qed.

(** The inner loop keeps a finite value finite. *)
Lemma apply_improvements_finite (year : num) :
  (year = NaN \/ exists y, year = Fin y) ->
  forall co2 : R,
    exists x,
      apply_improvements iy annual (Fin deg) (Fin n) (Fin c) year (Fin co2)
      = Fin x.
Proof.
  intros Hyear. unfold apply_improvements.
  assert (Hks : forall k, In k (keys iy) -> In k (keys iy)) by auto.
  revert Hks. generalize (keys iy) at 1 3. intros ks.
  induction ks as [| k ks IH]; intros Hks co2; cbn [fold_left].
  - eauto.
  - assert (Hk : In k (keys iy)) by (apply Hks; left; reflexivity).
    destruct (annual_finite k Hk) as [a Ha].
    apply own_get_In in Hk. destruct Hk as [s Hs].
    rewrite (getR_own _ _ _ Hs), Ha. cbn [ToNumber].
    assert (Hrest : forall k', In k' ks -> In k' (keys iy))
      by (intros k' Hk'; apply Hks; right; exact Hk').
    destruct Hyear as [-> | [y ->]].
    + cbn [geb leb]. apply IH. exact Hrest.
    + destruct (improvement_term_finite co2 s y a) as [x ->].
      apply IH. exact Hrest.
Qed.

(** Every sample the outer loop stores is then a number [>= 0]. *)
Lemma improved_from_finite (ys : list num) :
  (forall y, In y ys -> y = NaN \/ exists x, y = Fin x) ->
  forall (previous : R) (co2 : num),
    In co2 (improved_from
              (improved_step iy annual (Fin d) (Fin deg) (Fin n) (Fin c))
              (Fin previous) ys) ->
    nonnegative co2.
Proof.
  intros Hys. induction ys as [| y ys IH]; intros previous co2 Hin.
  - contradiction.
  - simpl in Hin.
    assert (Hstep : exists x, 0 <= x /\
              improved_step iy annual (Fin d) (Fin deg) (Fin n) (Fin c)
                (Fin previous) y = Fin x).
    { unfold improved_step. simpl exp. simpl mul.
      destruct (apply_improvements_finite y (Hys y (or_introl eq_refl))
                  (previous * Rtrigo_def.exp (- d * c))) as [x ->].
      apply max_zero_Fin. }
    destruct Hstep as (x & Hx & Ex). rewrite Ex in Hin.
    destruct Hin as [<- | Hin].
    + apply leb_Fin_true. exact Hx.
    + apply (IH (fun y' Hy' => Hys y' (or_intror Hy')) x co2 Hin).
Qed.

End FiniteSavings.

Lemma accepted_roof_garden : accepted roof_garden_params.
Proof.
  unfold accepted, max_array_length, roof_garden_params, cfg_roof_area, cfg_GWP_roof,
    cfg_decline_rate, cfg_years_to_calculate, cfg_points, cfg_roof_division,
    sum_valuesR. cbn.
  repeat split; try lra; try lia.
  unfold Rabs. destruct (Rcase_abs _); lra.
Qed.


(** C4, as amended: for every accepted configuration the first element of
    [co2_with_improvements] is [initial_co2 = GWP_roof * roof_area], and
    every element is a number [>= 0] or NaN, never a negative number. *)
Theorem improved_curve_floor (p : Params) :
  accepted p ->
  exists r,
    performCalculations p = Return r /\
    nth_error (timeline_co2_with_improvements r) 0
      = Some (mul (Fin (cfg_GWP_roof p)) (Fin (cfg_roof_area p))) /\
    (forall c, In c (timeline_co2_with_improvements r) ->
               c = NaN \/ nonnegative c).
Proof.
  intros Hacc. destruct (accepted_performCalculations p Hacc) as [r Hr].
  exists r. split; [exact Hr |].
  destruct (performCalculations_timeline p r Hr) as (Hgrid & _ & Himp & _).
  destruct (initial_co2_positive p Hacc) as (x & Hx & Hinit).
  rewrite Himp. unfold improved_curve. split; [reflexivity |].
  intros c [<- | Hc].
  - right. rewrite Hinit. apply leb_Fin_true. lra.
  - unfold cfg_improved_step in Hc.
    exact (improved_from_floor _ _ _ _ _ _ _ _ _ Hc).
Qed.

Lemma improved_curve_floor_witness :
  exists r,
    performCalculations default_params = Return r /\
    nth_error (timeline_co2_with_improvements r) 0
      = Some (mul (Fin (cfg_GWP_roof default_params))
                  (Fin (cfg_roof_area default_params))) /\
    (forall c, In c (timeline_co2_with_improvements r) ->
               c = NaN \/ nonnegative c).
Proof. exact (improved_curve_floor default_params accepted_default). Defined.

(** In exact arithmetic every element is a number [>= 0] when moreover the
    climate zone does not name a member of [Object.prototype] and each
    category of [improvement_years] is a category of [roof_division] and of
    [full_savings]. *)
Lemma improved_curve_nonnegative (p : Params) (r : Result) :
  performCalculations p = Return r ->
  inherited (cfg_climate_zone p) = false -> covered p ->
  floor_invariant (timeline_co2_with_improvements r).
Proof.
  intros Hr Hzone Hcov.
  pose proof (performCalculations_accepted p r Hr) as Hacc.
  destruct (performCalculations_timeline p r Hr) as (Hgrid & _ & Himp & _).
  destruct (initial_co2_positive p Hacc) as (x & Hx & Hinit).
  assert (Hy : 0 < cfg_years_to_calculate p) by apply Hacc.
  assert (Hpts : (0 < cfg_points p)%Z) by apply Hacc.
  rewrite Himp. unfold improved_curve.
  intros c [<- | Hc].
  - rewrite Hinit. apply leb_Fin_true. lra.
  - unfold cfg_improved_step, cfg_climate_factor in Hc.
    destruct (climate_factor_number _ Hzone) as (cf & _ & Ecf).
    rewrite Ecf, Hinit in Hc. cbn [ToNumber] in Hc.
    refine (improved_from_finite _ _ _ _ _ _ _ _ _ _ _ _ Hc).
    + apply not_0_IZR. lia.
    + intros k Hk. destruct (Hcov k Hk) as (Hproto & Hrd & Hfs).
      apply annual_saving_finite; assumption.
    + intros y Hyin. apply In_nth_error in Hyin. destruct Hyin as [i Hi].
      apply (linspace_entries _ _ _ Hgrid Hy (S i)).
      destruct (timeline_years r); [destruct i; discriminate Hi | exact Hi].
Qed.

(** C4, as stated, fails: the request [roof_garden_params] is accepted, and
    the categories of the default [improvement_years] have no entry in
    [annual_savings], so the sample at index 1 is NaN, which is not
    [>= 0]. *)
Lemma improved_curve_floor_counterexample :
  accepted roof_garden_params /\
  exists r,
    performCalculations roof_garden_params = Return r /\
    nth_error (timeline_co2_with_improvements r) 1 = Some NaN /\
    ~ floor_invariant (timeline_co2_with_improvements r).
Proof.
  split; [exact accepted_roof_garden |].
  destruct (accepted_performCalculations _ accepted_roof_garden) as [r Hr].
  exists r. split; [exact Hr |].
  destruct (performCalculations_timeline _ r Hr) as (Hgrid & _ & Himp & _).
  change (cfg_points roof_garden_params) with 2%Z in Hgrid.
  rewrite linspace_grid in Hgrid by length_lia. injection Hgrid as Hgrid.
  assert (H1 : nth_error (timeline_co2_with_improvements r) 1 = Some NaN).
  { rewrite Himp, <- Hgrid. unfold cfg_improved_step, improved_step,
      apply_improvements, cfg_annual_savings, annual_savings_of, cfg_initial_co2,
      cfg_climate_factor.
    cbn. num_eval. reflexivity. }
  split; [exact H1 |].
  intros Hfloor. apply nth_error_In in H1. specialize (Hfloor NaN H1).
  discriminate Hfloor.
Qed.

(** ** Savings and payback *)

Lemma add_NaN_r (a : num) : add a NaN = NaN.
Proof. destruct a; reflexivity. Qed.

Lemma div_NaN_r (a : num) : div a NaN = NaN.
Proof. destruct a; reflexivity. Qed.

Lemma fold_add_NaN (l : list num) : fold_left add l NaN = NaN.
Proof. induction l as [| x l IH]; simpl; [reflexivity | exact IH]. Qed.

Lemma fold_add_In_NaN (l : list num) :
  In NaN l -> forall a, fold_left add l a = NaN.
Proof.
  induction l as [| x l IH]; intros Hin a; simpl.
  - contradiction.
  - destruct Hin as [-> | Hin].
    + rewrite add_NaN_r. apply fold_add_NaN.
    + apply IH. exact Hin.
Qed.

Lemma own_get_values {A} (o : obj A) (k : string) (v : A) :
  own_get o k = Some v -> In v (values o).
Proof.
  induction o as [| [k0 v0] o IH]; simpl; [discriminate |].
  destruct (String.eqb k k0); intros H.
  - left. congruence.
  - right. exact (IH H).
Qed.

(** Dividing by zero never gives a finite number. *)
Lemma div_zero_cases (a : num) :
  div a (Fin 0) = PInf \/ div a (Fin 0) = NInf \/ div a (Fin 0) = NaN.
Proof.
  destruct a as [x | | |]; simpl.
  - destruct (Req_dec_T 0 0) as [_ | H]; [| exfalso; apply H; reflexivity].
    unfold Rsign. destruct (Rlt_dec 0 x); [| destruct (Rlt_dec x 0)]; auto.
  - destruct (Rlt_dec 0 0); auto.
  - destruct (Rlt_dec 0 0); auto.
  - auto.
Qed.

Lemma div_positive_zero (c : R) : 0 < c -> div (Fin c) (Fin 0) = PInf.
Proof. intros Hc. num_eval. reflexivity. Qed.

(** C1, as amended: for every accepted configuration whose total annual
    savings equal 0, [economics.simple_payback_years] is the quotient
    [estimated_cost / 0] itself: it is never null and never a finite number,
    but Infinity, -Infinity or NaN, and Infinity when the estimated cost is
    positive. *)
Theorem payback_on_zero_savings (p : Params) :
  accepted p ->
  sum_values (cfg_annual_savings p) = Fin 0 ->
  exists r,
    performCalculations p = Return r /\
    savings_annual r = Fin 0 /\
    economics_simple_payback_years r
      = VNum (div (economics_estimated_cost r) (Fin 0)) /\
    economics_simple_payback_years r <> VNull /\
    (economics_simple_payback_years r = VNum PInf \/
     economics_simple_payback_years r = VNum NInf \/
     economics_simple_payback_years r = VNum NaN) /\
    (forall c, economics_estimated_cost r = Fin c -> 0 < c ->
               economics_simple_payback_years r = VNum PInf).
Proof.
  intros Hacc Hzero. destruct (accepted_performCalculations p Hacc) as [r Hr].
  exists r. split; [exact Hr |].
  destruct (performCalculations_economics p r Hr)
    as (_ & _ & _ & Hsum & _ & Hpay).
  rewrite Hzero in Hsum. rewrite Hsum in Hpay. rewrite Hpay.
  split; [exact Hsum |]. split; [reflexivity |]. split; [discriminate |].
  split.
  - destruct (div_zero_cases (economics_estimated_cost r)) as [-> | [-> | ->]];
      auto.
  - intros c -> Hc. rewrite div_positive_zero by exact Hc. reflexivity.
Qed.

Lemma zero_savings_facts :
  accepted zero_savings_params /\
  sum_values (cfg_annual_savings zero_savings_params) = Fin 0 /\
  exists c, 0 < c /\
    calculateEstimatedCost (Fin (cfg_roof_area zero_savings_params))
      (cfg_roof_division zero_savings_params) = Fin c.
Proof.
  split; [| split].
  - exact accepted_default.
  - unfold sum_values, cfg_annual_savings, annual_savings_of. num_eval.
    f_equal. lra.
  - unfold calculateEstimatedCost. num_eval. eexists. split; [| reflexivity].
    lra.
Qed.

Lemma payback_on_zero_savings_witness :
  exists r,
    performCalculations zero_savings_params = Return r /\
    savings_annual r = Fin 0 /\
    economics_simple_payback_years r = VNum PInf.
Proof.
  destruct (payback_on_zero_savings zero_savings_params
              (proj1 zero_savings_facts) (proj1 (proj2 zero_savings_facts)))
    as (r & Hr & Hsum & _ & _ & _ & Hinf).
  exists r. split; [exact Hr |]. split; [exact Hsum |].
  destruct (proj2 (proj2 zero_savings_facts)) as (c & Hc & Ec).
  apply (Hinf c); [| exact Hc].
  destruct (performCalculations_economics _ r Hr) as (_ & _ & _ & _ & E & _).
  rewrite E. exact Ec.
Defined.

(** C1, as stated, fails: with every saving at zero the request is
    accepted, the total is 0, and the payback is Infinity, not null. *)
Lemma payback_on_zero_savings_counterexample :
  accepted zero_savings_params /\
  exists r,
    performCalculations zero_savings_params = Return r /\
    savings_annual r = Fin 0 /\
    economics_simple_payback_years r = VNum PInf /\
    economics_simple_payback_years r <> VNull.
Proof.
  destruct zero_savings_facts as (Hacc & Hzero & c & Hc & Ec).
  split; [exact Hacc |].
  destruct (accepted_performCalculations _ Hacc) as [r Hr].
  exists r. split; [exact Hr |].
  destruct (performCalculations_economics _ r Hr)
    as (_ & _ & _ & Hsum & Hcost & Hpay).
  rewrite Hzero in Hsum. rewrite Hcost, Ec, Hsum in Hpay.
  rewrite div_positive_zero in Hpay by exact Hc.
  split; [exact Hsum |]. split; [exact Hpay |]. rewrite Hpay. discriminate.
Qed.

(** ** A category without an entry in full_savings *)

Lemma getR_missing_number (o : obj R) (k : string) :
  ~ In k (keys o) -> ToNumber (getR o k) = NaN.
Proof.
  intros H. apply own_get_None in H. unfold getR. rewrite H. simpl.
  destruct (inherited k); reflexivity.
Qed.

(** C9, as amended: performCalculations raises no error when some key of
    [roof_division], other than [__proto__], has no entry in [full_savings]:
    for such an accepted configuration [annual_savings[key]] is NaN, and so
    are the total annual savings and [simple_payback_years]. *)
Theorem missing_saving_gives_nan (p : Params) (key : string) :
  accepted p ->
  In key (keys (cfg_roof_division p)) ->
  key <> "__proto__" ->
  ~ In key (keys (cfg_full_savings p)) ->
  exists r,
    performCalculations p = Return r /\
    get (r_annual_savings r) key = VNum NaN /\
    savings_annual r = NaN /\
    economics_simple_payback_years r = VNum NaN.
Proof.
  intros Hacc Hrd Hproto Hfs.
  destruct (accepted_performCalculations p Hacc) as [r Hr].
  exists r. split; [exact Hr |].
  destruct (performCalculations_economics p r Hr)
    as (_ & _ & Hann & Hsum & _ & Hpay).
  assert (Hown : own_get (cfg_annual_savings p) key = Some NaN).
  { unfold cfg_annual_savings. rewrite own_get_annual_savings.
    replace (String.eqb key "__proto__") with false
      by (symmetry; apply String.eqb_neq; exact Hproto).
    replace (existsb (String.eqb key) (keys (cfg_roof_division p))) with true
      by (symmetry; apply existsb_eqb_In; exact Hrd).
    simpl. unfold annual_saving.
    rewrite (getR_missing_number _ _ Hfs). reflexivity. }
  assert (Htotal : savings_annual r = NaN).
  { rewrite Hsum. unfold sum_values. apply fold_add_In_NaN.
    exact (own_get_values _ _ _ Hown). }
  split; [| split].
  - rewrite Hann. unfold get. rewrite Hown. reflexivity.
  - exact Htotal.
  - rewrite Hpay, Htotal, div_NaN_r. reflexivity.
Qed.

Lemma missing_saving_gives_nan_witness :
  exists r,
    performCalculations roof_garden_params = Return r /\
    get (r_annual_savings r) "Roof Garden" = VNum NaN /\
    savings_annual r = NaN /\
    economics_simple_payback_years r = VNum NaN.
Proof.
  apply (missing_saving_gives_nan roof_garden_params "Roof Garden").
  - exact accepted_roof_garden.
  - cbn. tauto.
  - discriminate.
  - cbn. intros H. repeat destruct H as [H | H]; try discriminate H. exact H.
Defined.

Lemma accepted_proto : accepted proto_params.
Proof. exact accepted_roof_garden. Qed.

(** C9, as stated, fails for the key [__proto__]: the request
    [proto_params] is accepted and [full_savings] has no such entry, yet the
    assignment to [annual_savings["__proto__"]] creates no property, so that
    reading it back gives the prototype object and the total annual savings
    are 0, not NaN. *)
Lemma missing_saving_proto_counterexample :
  accepted proto_params /\
  In "__proto__" (keys (cfg_roof_division proto_params)) /\
  ~ In "__proto__" (keys (cfg_full_savings proto_params)) /\
  exists r,
    performCalculations proto_params = Return r /\
    get (r_annual_savings r) "__proto__" = VObject /\
    savings_annual r = Fin 0 /\
    savings_annual r <> NaN.
Proof.
  split; [exact accepted_proto |]. split; [cbn; tauto |]. split.
  { cbn. intros H. repeat destruct H as [H | H]; try discriminate H. exact H. }
  destruct (accepted_performCalculations _ accepted_proto) as [r Hr].
  exists r. split; [exact Hr |].
  destruct (performCalculations_economics _ r Hr)
    as (_ & _ & Hann & Hsum & _).
  assert (E : cfg_annual_savings proto_params = []) by reflexivity.
  rewrite E in Hann, Hsum. rewrite Hann, Hsum.
  split; [reflexivity |]. split; [reflexivity | discriminate].
Qed.

(** ** Rejections *)

(** performCalculations throws the message of the first check that fails;
    when none does it throws the RangeError of [new Array] for a number of
    points above [2^32 - 1], and returns otherwise. *)
Lemma performCalculations_checks (p : Params) :
  match first_failed_check p with
  | Some msg => performCalculations p = Throw msg
  | None =>
      if (max_array_length <? cfg_points p)%Z
      then performCalculations p = Throw "Invalid array length"
      else exists r, performCalculations p = Return r
  end.
Proof.
  unfold first_failed_check, performCalculations. cbv zeta.
  fold (cfg_roof_area p) (cfg_GWP_roof p) (cfg_decline_rate p)
       (cfg_years_to_calculate p) (cfg_points p) (cfg_roof_division p).
  destruct (leb (Fin (cfg_roof_area p)) (Fin 0)); [reflexivity |].
  destruct (leb (Fin (cfg_GWP_roof p)) (Fin 0)); [reflexivity |].
  destruct (ltb (Fin (cfg_decline_rate p)) (Fin 0)
            || geb (Fin (cfg_decline_rate p)) (Fin 1)); [reflexivity |].
  destruct (leb (Fin (cfg_years_to_calculate p)) (Fin 0)); [reflexivity |].
  destruct (cfg_points p <=? 0)%Z eqn:Hpts; [reflexivity |].
  destruct (gtb (abs (sub (Fin (sum_valuesR (cfg_roof_division p))) (Fin 100)))
                (Fin 0.01)); [reflexivity |].
  rewrite !throw_if_false. apply Z.leb_gt in Hpts.
  destruct (max_array_length <? cfg_points p)%Z eqn:Hbig.
  - apply Z.ltb_lt in Hbig.
    rewrite linspace_Throw by (right; exact Hbig). reflexivity.
  - apply Z.ltb_ge in Hbig.
    rewrite linspace_Return by lia. cbn [bind]. eexists. reflexivity.
Qed.

Lemma first_failed_check_message (p : Params) (msg : string) :
  first_failed_check p = Some msg -> In msg validation_messages.
Proof.
  unfold first_failed_check, validation_messages.
  repeat match goal with
  | |- context [if ?c then _ else _] => destruct c
  end; intros H; inversion H; subst; simpl; tauto.
Qed.

Lemma first_failed_check_fields (p q : Params) :
  same_checked_fields p q -> first_failed_check p = first_failed_check q.
Proof.
  intros (Ha & Hg & Hd & Hy & Hn & Hrd). unfold first_failed_check.
  now rewrite Ha, Hg, Hd, Hy, Hn, Hrd.
Qed.

Lemma percentage_check_fails (t : R) :
  0.01 < Rabs (t - 100) ->
  gtb (abs (sub (Fin t) (Fin 100))) (Fin 0.01) = true.
Proof.
  intros H. unfold gtb, abs, sub, neg, add. apply ltb_Fin_true.
  replace (t + - 100) with (t - 100) by lra. exact H.
Qed.

(** C6, as amended: whenever the sum of the [roof_division] values differs
    from 100 by more than 0.01, performCalculations throws one of its
    validation errors and returns no result; the error is 'Roof division
    percentages must sum to 100%' when the checks that come first (area,
    GWP, decline rate, years, points) pass; and the rejection is decided by
    the checked fields alone, whatever the fields the simulation reads. *)
Theorem percentage_rejection (p : Params) :
  0.01 < Rabs (sum_valuesR (cfg_roof_division p) - 100) ->
  (exists msg, In msg validation_messages /\
               performCalculations p = Throw msg /\
               forall q, same_checked_fields p q ->
                         performCalculations q = Throw msg) /\
  (0 < cfg_roof_area p -> 0 < cfg_GWP_roof p ->
   0 <= cfg_decline_rate p < 1 -> 0 < cfg_years_to_calculate p ->
   (0 < cfg_points p)%Z ->
   performCalculations p = Throw percentage_message).
Proof.
  intros Hsum. apply percentage_check_fails in Hsum.
  assert (Hsome : exists msg, first_failed_check p = Some msg).
  { unfold first_failed_check. rewrite Hsum.
    repeat match goal with
    | |- context [if ?c then _ else _] => destruct c
    end; eauto. }
  split.
  - destruct Hsome as [msg Hmsg]. exists msg.
    split; [exact (first_failed_check_message p msg Hmsg) |]. split.
    + pose proof (performCalculations_checks p) as H.
      rewrite Hmsg in H. exact H.
    + intros q Hq. pose proof (performCalculations_checks q) as H.
      rewrite <- (first_failed_check_fields p q Hq), Hmsg in H. exact H.
  - intros Ha Hg [Hd0 Hd1] Hy Hn.
    pose proof (performCalculations_checks p) as H.
    unfold first_failed_check in H. rewrite Hsum in H.
    replace (leb (Fin (cfg_roof_area p)) (Fin 0)) with false in H
      by (symmetry; apply leb_Fin_false; lra).
    replace (leb (Fin (cfg_GWP_roof p)) (Fin 0)) with false in H
      by (symmetry; apply leb_Fin_false; lra).
    replace (ltb (Fin (cfg_decline_rate p)) (Fin 0)) with false in H
      by (symmetry; apply ltb_Fin_false; lra).
    replace (geb (Fin (cfg_decline_rate p)) (Fin 1)) with false in H
      by (symmetry; apply leb_Fin_false; lra).
    replace (leb (Fin (cfg_years_to_calculate p)) (Fin 0)) with false in H
      by (symmetry; apply leb_Fin_false; lra).
    replace (cfg_points p <=? 0)%Z with false in H
      by (symmetry; apply Z.leb_gt; lia).
    exact H.
Qed.

Lemma half_division_off : 
  0.01 < Rabs (sum_valuesR (cfg_roof_division half_division_params) - 100).
Proof.
  unfold sum_valuesR. cbn. unfold Rabs. destruct (Rcase_abs _); lra.
Qed.

Lemma percentage_rejection_witness :
  performCalculations half_division_params = Throw percentage_message.
Proof.
  apply (percentage_rejection half_division_params).
  - exact half_division_off.
  - cbn. lra.
  - cbn. lra.
  - cbn. lra.
  - cbn. lra.
  - cbn. lia.
Defined.

(** C6, as stated, fails: the division of [no_area_params] sums to 50, and
    the error thrown is the one of the area check, which comes first. *)
Lemma percentage_rejection_counterexample :
  0.01 < Rabs (sum_valuesR (cfg_roof_division no_area_params) - 100) /\
  performCalculations no_area_params = Throw "Roof area must be positive" /\
  performCalculations no_area_params <> Throw percentage_message.
Proof.
  split; [exact half_division_off |].
  assert (H : performCalculations no_area_params
              = Throw "Roof area must be positive").
  { pose proof (performCalculations_checks no_area_params) as H.
    unfold first_failed_check in H. revert H.
    replace (leb (Fin (cfg_roof_area no_area_params)) (Fin 0)) with true
      by (symmetry; apply leb_Fin_true; cbn; lra).
    auto. }
  split; [exact H |]. rewrite H. discriminate.
Qed.

(** With at least two points the grid of a result holds a finite year at
    every index. *)
Lemma timeline_entry (p : Params) (r : Result) (i : nat) :
  performCalculations p = Return r ->
  (2 <= cfg_points p)%Z -> (i < Z.to_nat (cfg_points p))%nat ->
  exists y, nth_error (timeline_years r) i = Some (Fin y).
Proof.
  intros Hr Hpts Hi.
  destruct (performCalculations_timeline p r Hr) as (Hgrid & _).
  rewrite linspace_grid in Hgrid
    by (pose proof (linspace_Return_length _ _ _ _ Hgrid); lia). injection Hgrid as Hgrid.
  rewrite <- Hgrid, nth_error_map_seq by exact Hi. eauto.
Qed.

(** ** Climate zones *)

(** A zone that is neither in the table nor the name of a member of
    [Object.prototype] takes the factor 1.0, the factor of 'temperate'. *)
Lemma unknown_zone_factor (zone : string) :
  ~ In zone recognized_zones -> inherited zone = false ->
  or_else (get climateFactors zone) (VNum (Fin 1.0)) = VNum (Fin 1.0) /\
  or_else (get climateFactors "temperate") (VNum (Fin 1.0)) = VNum (Fin 1.0).
Proof.
  intros Hzone Hinh. split.
  - assert (Hown : own_get climateFactors zone = None).
    { apply own_get_None. exact Hzone. }
    unfold get. rewrite Hown. simpl. rewrite Hinh. reflexivity.
  - num_eval. reflexivity.
Qed.

(** C10 at the zone 'constructor', which is none of the five: the request
    is accepted, but the lookup finds the function [Object.prototype]
    lends under that name, which is truthy, so the factor is not 1.0 as it
    is for 'temperate', and the samples computed from it are NaN. *)
Theorem constructor_zone_factor :
  ~ In "constructor" recognized_zones /\
  cfg_climate_factor default_params = VNum (Fin 1.0) /\
  exists r,
    performCalculations constructor_zone_params = Return r /\
    r_climate_factor r = VObject /\
    r_climate_factor r <> VNum (Fin 1.0) /\
    nth_error (timeline_co2_natural_decline r) 1 = Some NaN /\
    nth_error (timeline_co2_with_improvements r) 1 = Some NaN.
Proof.
  split.
  { cbn. intros H. repeat destruct H as [H | H]; try discriminate H. exact H. }
  split.
  { unfold cfg_climate_factor. num_eval. reflexivity. }
  assert (Hacc : accepted constructor_zone_params) by exact accepted_default.
  destruct (accepted_performCalculations _ Hacc) as [r Hr].
  exists r. split; [exact Hr |].
  destruct (performCalculations_economics _ r Hr) as (_ & Hcf & _).
  destruct (performCalculations_timeline _ r Hr) as (Hgrid & Hnat & Himp & _).
  assert (E : cfg_climate_factor constructor_zone_params = VObject)
    by reflexivity.
  rewrite Hcf, E. split; [reflexivity |]. split; [discriminate |].
  destruct (timeline_entry _ r 1%nat Hr) as [y1 Hy1];
    [cbn; lia | cbn; lia |]. clear Hgrid.
  split.
  - rewrite Hnat, nth_error_map, Hy1, E. reflexivity.
  - rewrite Himp. unfold improved_curve. cbn [nth_error].
    destruct (timeline_years r) as [| y0 [| y1' ys]]; try discriminate Hy1.
    cbn [tl improved_from nth_error]. unfold cfg_improved_step. rewrite E.
    unfold improved_step.
    assert (Hnan : forall iy annual deg pts year,
              apply_improvements iy annual deg pts NaN year NaN = NaN).
    { intros iy annual deg pts year. unfold apply_improvements.
      induction (keys iy) as [| k ks IH]; cbn [fold_left]; [reflexivity |].
      destruct (geb year (ToNumber (getR iy k))); [| exact IH].
      assert (Hm : forall a, mul a NaN = NaN) by (intros []; reflexivity).
      rewrite Hm. exact IH. }
    assert (Hm : forall a, mul a NaN = NaN) by (intros []; reflexivity).
    cbn [ToNumber].
    replace (mul (neg (Fin (cfg_decline_rate constructor_zone_params))) NaN)
      with NaN by reflexivity.
    change (Num.exp NaN) with NaN. rewrite Hm, Hnan. reflexivity.
Qed.

(** ** The rating scales and their call sites *)

Lemma getSustainabilityRating_seven_tier (score : num) :
  getSustainabilityRating score = seven_tier_scale score.
Proof.
  destruct score as [x | | |]; try reflexivity.
  unfold getSustainabilityRating, seven_tier_scale, geb, leb.
  decide_R; reflexivity.
Qed.

Lemma getSdgAlignmentRating_five_tier (score : num) :
  getSdgAlignmentRating score = five_tier_scale score.
Proof.
  destruct score as [x | | |]; try reflexivity.
  unfold getSdgAlignmentRating, five_tier_scale, geb, leb.
  decide_R; reflexivity.
Qed.

(** Below 60 and from 70 on, the two scales give different ratings. *)
Lemma scales_differ (x : R) :
  x < 60 \/ 70 <= x -> seven_tier_scale (Fin x) <> five_tier_scale (Fin x).
Proof.
  intros Hx. unfold seven_tier_scale, five_tier_scale.
  decide_R; discriminate.
Qed.

(** What performEnhancedCalculations returns for the score and its
    rating. *)
Lemma performEnhancedCalculations_rating
  (p : Enhanced.Params) (r : Enhanced.Result) :
  Enhanced.performEnhancedCalculations p = Return r ->
  Enhanced.sustainability_rating r
    = getSustainabilityRating (Enhanced.sustainability_score r).
Proof.
  unfold Enhanced.performEnhancedCalculations. cbv zeta. intros H.
  repeat (apply throw_if_Return in H; destruct H as [_ H]).
  destruct (Enhanced.social_loop _) as [ws tw].
  apply throw_if_Return in H. destruct H as [_ H].
  injection H as <-. reflexivity.
Qed.

Lemma enhanced_accepted_Return (p : Enhanced.Params) :
  enhanced_accepted p ->
  exists r, Enhanced.performEnhancedCalculations p = Return r.
Proof.
  intros (Ha & Hg & Hsum & Hlen). unfold Enhanced.performEnhancedCalculations.
  cbv zeta.
  replace (leb (Fin (default 2776 (Enhanced.roof_area p))) (Fin 0)) with false
    by (symmetry; apply leb_Fin_false; lra).
  replace (leb (Fin (default 3.33 (Enhanced.GWP_roof p))) (Fin 0)) with false
    by (symmetry; apply leb_Fin_false; lra).
  rewrite (proj2 (percentage_check _) Hsum).
  rewrite !throw_if_false.
  destruct (Enhanced.social_loop _) as [ws tw].
  replace (max_array_length <? default 50 (Enhanced.years_to_calculate p) + 1)%Z
    with false by (symmetry; apply Z.ltb_ge; exact Hlen).
  eexists. reflexivity.
Qed.

Lemma sdg_report_rating (body : SdgReport.Body) (rep : SdgReport.Report) :
  SdgReport.sdg_report body = Ok rep ->
  SdgReport.alignment_rating rep
    = getSdgAlignmentRating (SdgReport.sdg_alignment_score rep).
Proof.
  unfold SdgReport.sdg_report. intros H.
  destruct (SdgReport.roof_division body); [| discriminate H].
  destruct (SdgReport.sdg_focus body); [| discriminate H].
  injection H as <-. reflexivity.
Qed.

(** C2, as amended: the rating attached by performEnhancedCalculations is
    computed from the sustainability score with the 7-tier scale
    (Outstanding >= 90, Excellent >= 80, Very Good >= 70, Good >= 60,
    Satisfactory >= 50, Acceptable >= 40, else Needs Improvement), and the
    rating attached to the alignment score of the standalone SDG report is
    computed with the 5-tier scale (Exceptional >= 90, Strong >= 70,
    Good >= 50, Moderate >= 30, else Limited). *)
Theorem rating_scale_per_call_site
  (p : Enhanced.Params) (body : SdgReport.Body)
  (division : obj R) (focus : list string) :
  enhanced_accepted p ->
  SdgReport.roof_division body = Some division ->
  SdgReport.sdg_focus body = Some focus ->
  (exists r,
     Enhanced.performEnhancedCalculations p = Return r /\
     Enhanced.sustainability_rating r
       = seven_tier_scale (Enhanced.sustainability_score r)) /\
  (exists rep,
     SdgReport.sdg_report body = Ok rep /\
     SdgReport.sdg_alignment_score rep
       = min (Fin 100)
             (mul (div (Fin (INR (List.length focus))) (Fin 17)) (Fin 100)) /\
     SdgReport.alignment_rating rep
       = five_tier_scale (SdgReport.sdg_alignment_score rep)).
Proof.
  intros Hacc Hdiv Hfocus. split.
  - destruct (enhanced_accepted_Return p Hacc) as [r Hr].
    exists r. split; [exact Hr |].
    rewrite (performEnhancedCalculations_rating p r Hr).
    apply getSustainabilityRating_seven_tier.
  - unfold SdgReport.sdg_report. rewrite Hdiv, Hfocus.
    eexists. split; [reflexivity |]. split; [reflexivity |].
    apply getSdgAlignmentRating_five_tier.
Qed.

Lemma social_loop_default :
  exists ws tw,
    Enhanced.social_loop Enhanced.default_social_metrics = (Fin ws, Fin tw) /\
    tw = 1 /\ 15 < ws < 20.
Proof.
  unfold Enhanced.social_loop, Enhanced.default_social_metrics.
  cbn [fold_left]. unfold get. simpl (own_get _ _). cbn [prop].
  rewrite !or_else_positive by lra. cbn [ToNumber add mul].
  eexists. eexists. split; [reflexivity |]. split; lra.
Qed.

Lemma accepted_enhanced_default : enhanced_accepted enhanced_default_params.
Proof.
  unfold enhanced_accepted, enhanced_default_params, sum_valuesR. cbn.
  repeat split; try lra; [| unfold max_array_length; lia].
  unfold Rabs. destruct (Rcase_abs _); lra.
Qed.

(** The score of the default enhanced request is below 30. *)
Lemma enhanced_default_score (r : Enhanced.Result) :
  Enhanced.performEnhancedCalculations enhanced_default_params = Return r ->
  exists s, Enhanced.sustainability_score r = Fin s /\ s < 30.
Proof.
  intros H.
  unfold Enhanced.performEnhancedCalculations in H. cbv zeta in H.
  do 3 (apply throw_if_Return in H; destruct H as [_ H]).
  cbn [default enhanced_default_params Enhanced.roof_area Enhanced.GWP_roof
       Enhanced.roof_division Enhanced.plant_absorption
       Enhanced.energy_emission Enhanced.solar_reduction
       Enhanced.heating_original Enhanced.heating_reduced
       Enhanced.water_emission Enhanced.water_mitigated
       Enhanced.water_collected Enhanced.social_metrics
       Enhanced.health_metrics Enhanced.sdg_focus
       Enhanced.years_to_calculate] in H.
  destruct social_loop_default as (ws & tw & -> & Htw & Hws) in H.
  apply throw_if_Return in H. destruct H as [_ H].
  injection H as <-. cbn [Enhanced.sustainability_score].
  simpl (List.length _). simpl (INR _).
  decide_R. cbn [mul add].
  unfold min, leb. decide_R. cbn [mul add].
  eexists. split; [reflexivity |].
  subst tw. lra.
Qed.

(** The score of the report on four goals is below 30. *)
Lemma four_goals_score :
  exists s,
    min (Fin 100) (mul (div (Fin (INR 4)) (Fin 17)) (Fin 100)) = Fin s /\
    s < 30.
Proof.
  simpl (INR _). rewrite div_Fin by lra. cbn [mul].
  unfold min, leb. decide_R. eexists. split; [reflexivity | lra].
Qed.

Lemma low_score_ratings (s : R) :
  s < 30 ->
  seven_tier_scale (Fin s) = "Needs Improvement" /\
  five_tier_scale (Fin s) = "Limited".
Proof.
  intros Hs. unfold seven_tier_scale, five_tier_scale.
  decide_R. split; reflexivity.
Qed.

Lemma rating_scale_per_call_site_witness :
  (exists r,
     Enhanced.performEnhancedCalculations enhanced_default_params = Return r /\
     Enhanced.sustainability_rating r
       = seven_tier_scale (Enhanced.sustainability_score r)) /\
  (exists rep,
     SdgReport.sdg_report four_goals_body = Ok rep /\
     SdgReport.sdg_alignment_score rep
       = min (Fin 100) (mul (div (Fin (INR 4)) (Fin 17)) (Fin 100)) /\
     SdgReport.alignment_rating rep
       = five_tier_scale (SdgReport.sdg_alignment_score rep)).
Proof.
  apply (rating_scale_per_call_site enhanced_default_params four_goals_body
           default_roof_division
           ["Zero Hunger"; "Good Health and Well-being";
            "Clean Water and Sanitation"; "Affordable and Clean Energy"]).
  - exact accepted_enhanced_default.
  - reflexivity.
  - reflexivity.
Defined.

(** C2, as stated, fails at both call sites: the default enhanced request
    scores below 30 and is rated 'Needs Improvement', a tier of the 7-tier
    scale, where the 5-tier scale says 'Limited'; the SDG report on four
    goals scores below 30 and is rated 'Limited', a tier of the 5-tier
    scale, where the 7-tier scale says 'Needs Improvement'. *)
Lemma rating_scale_counterexample :
  (exists r,
     Enhanced.performEnhancedCalculations enhanced_default_params = Return r /\
     Enhanced.sustainability_rating r = "Needs Improvement" /\
     five_tier_scale (Enhanced.sustainability_score r) = "Limited" /\
     Enhanced.sustainability_rating r
       <> five_tier_scale (Enhanced.sustainability_score r)) /\
  (exists rep,
     SdgReport.sdg_report four_goals_body = Ok rep /\
     SdgReport.alignment_rating rep = "Limited" /\
     seven_tier_scale (SdgReport.sdg_alignment_score rep)
       = "Needs Improvement" /\
     SdgReport.alignment_rating rep
       <> seven_tier_scale (SdgReport.sdg_alignment_score rep)).
Proof.
  split.
  - destruct (enhanced_accepted_Return _ accepted_enhanced_default) as [r Hr].
    exists r. split; [exact Hr |].
    destruct (enhanced_default_score r Hr) as (s & Hs & Hlow).
    rewrite (performEnhancedCalculations_rating _ r Hr),
      getSustainabilityRating_seven_tier, Hs.
    destruct (low_score_ratings s Hlow) as [-> ->].
    repeat split; try reflexivity. discriminate.
  - eexists. split; [reflexivity |].
    cbn [SdgReport.alignment_rating SdgReport.sdg_alignment_score].
    change (List.length _) with 4%nat.
    destruct four_goals_score as (s & -> & Hlow).
    rewrite getSdgAlignmentRating_five_tier.
    destruct (low_score_ratings s Hlow) as [-> ->].
    repeat split; try reflexivity. discriminate.
Qed.

(** ** The health impact *)

Lemma green_share_number (g : R) :
  ToNumber (or_else (VNum (Fin g)) (VNum (Fin 0))) = Fin g.
Proof.
  unfold or_else, ToBoolean, truthy.
  destruct (Req_dec_T g 0) as [-> |]; reflexivity.
Qed.

(** C8: in the health-impact calculation, with
    [greenArea = roof_area * roof_division["Green Areas"] / 100], the five
    impact values are the constants 39.4, 6.77, 15, 22.6 and 12.3, each
    multiplied by [greenArea / roof_area], and all but the constant 15
    multiplied by [green_view_percentage / 100] as well; the health impact
    score is the unweighted mean of the five values. *)
Theorem health_impact_values
  (body : HealthImpact.Body) (area g view : R) (division : obj R) :
  HealthImpact.roof_area body = Some area ->
  area <> 0 ->
  HealthImpact.roof_division body = Some division ->
  own_get division "Green Areas" = Some g ->
  default 60 (HealthImpact.green_view_percentage body) = view ->
  exists rep,
    HealthImpact.health_impact body = Ok rep /\
    let greenArea := area * g / 100 in
    let stress := 39.4 * (greenArea / area) * (view / 100) in
    let hypertension := 6.77 * (greenArea / area) * (view / 100) in
    let mortality := 15 * (greenArea / area) in
    let productivity := 22.6 * (greenArea / area) * (view / 100) in
    let sick_days := 12.3 * (greenArea / area) * (view / 100) in
    HealthImpact.green_roof_area rep = Fin greenArea /\
    HealthImpact.stress_reduction_percentage rep = Fin stress /\
    HealthImpact.hypertension_reduction rep = Fin hypertension /\
    HealthImpact.mortality_reduction rep = Fin mortality /\
    HealthImpact.productivity_increase rep = Fin productivity /\
    HealthImpact.sick_days_reduction rep = Fin sick_days /\
    HealthImpact.health_impact_score rep
      = Fin ((stress + hypertension + mortality + productivity + sick_days)
             / 5).
Proof.
  intros Harea Hnz Hdiv Hg Hview.
  unfold HealthImpact.health_impact. rewrite Harea, Hdiv, Hview. cbv zeta.
  replace (truthy (Fin area)) with true
    by (unfold truthy; destruct (Req_dec_T area 0); [contradiction | reflexivity]).
  cbn [negb]. rewrite (getR_own _ _ _ Hg), green_share_number.
  cbn [mul]. rewrite (div_Fin (area * g) 100) by lra.
  rewrite (div_Fin (area * g / 100) area) by exact Hnz.
  rewrite (div_Fin view 100) by lra. cbn [mul add].
  rewrite (div_Fin _ 5) by lra.
  eexists. split; [reflexivity |]. cbn. repeat split; reflexivity.
Qed.

(** The example of the specification: area 2776, 25 percent of green areas
    and a view share of 60 give a green area of 694 and a stress reduction
    of 5.91. *)
Lemma health_impact_values_witness :
  exists rep,
    HealthImpact.health_impact example_health_body = Ok rep /\
    HealthImpact.green_roof_area rep = Fin 694 /\
    exists stress,
      HealthImpact.stress_reduction_percentage rep = Fin stress /\
      Rabs (stress - 5.91) < 0.005.
Proof.
  destruct (health_impact_values example_health_body 2776 25 60
              default_roof_division)
    as (rep & Hrep & Hgreen & Hstress & _).
  - reflexivity.
  - lra.
  - reflexivity.
  - reflexivity.
  - reflexivity.
  - exists rep. split; [exact Hrep |]. split.
    + rewrite Hgreen. f_equal. lra.
    + eexists. split; [exact Hstress |].
      unfold Rabs. destruct (Rcase_abs _); lra.
Defined.

(** * Further properties of the engine *)

(** ** Acceptance *)

Lemma first_failed_check_None (p : Params) :
  first_failed_check p = None <-> passes_checks p.
Proof.
  unfold first_failed_check, passes_checks, geb.
  destruct (leb (Fin (cfg_roof_area p)) (Fin 0)) eqn:Ha;
    [apply leb_Fin_true in Ha; split; [discriminate | intros H; lra] |].
  apply leb_Fin_false in Ha.
  destruct (leb (Fin (cfg_GWP_roof p)) (Fin 0)) eqn:Hg;
    [apply leb_Fin_true in Hg; split; [discriminate | intros H; lra] |].
  apply leb_Fin_false in Hg.
  destruct (ltb (Fin (cfg_decline_rate p)) (Fin 0)) eqn:Hd0;
    [apply ltb_Fin_true in Hd0; split; [discriminate | intros H; lra] |].
  apply ltb_Fin_false in Hd0.
  destruct (leb (Fin 1) (Fin (cfg_decline_rate p))) eqn:Hd1;
    [apply leb_Fin_true in Hd1; split; [discriminate | intros H; lra] |].
  apply leb_Fin_false in Hd1. cbn [orb].
  destruct (leb (Fin (cfg_years_to_calculate p)) (Fin 0)) eqn:Hy;
    [apply leb_Fin_true in Hy; split; [discriminate | intros H; lra] |].
  apply leb_Fin_false in Hy.
  destruct (cfg_points p <=? 0)%Z eqn:Hn;
    [apply Z.leb_le in Hn; split; [discriminate | intros H; lia] |].
  apply Z.leb_gt in Hn.
  destruct (gtb (abs (sub (Fin (sum_valuesR (cfg_roof_division p))) (Fin 100)))
                (Fin 0.01)) eqn:Hs.
  - split; [discriminate |]. intros (_ & _ & _ & _ & _ & Hsum).
    apply percentage_check in Hsum. congruence.
  - apply percentage_check in Hs. split; [| reflexivity]. intros _.
    repeat split; (lra || lia || assumption).
Qed.

Lemma range_error_no_validation_message :
  ~ In range_error validation_messages.
Proof.
  unfold validation_messages, percentage_message, range_error.
  intros H. repeat (destruct H as [H | H]; [discriminate H |]). exact H.
Qed.

(** What performCalculations does, by the checks and the number of
    points. *)
Lemma performCalculations_cases (p : Params) :
  (~ passes_checks p /\
   exists msg, In msg validation_messages /\
               performCalculations p = Throw msg) \/
  (passes_checks p /\ (max_array_length < cfg_points p)%Z /\
   performCalculations p = Throw range_error) \/
  (passes_checks p /\ (cfg_points p <= max_array_length)%Z /\
   exists r, performCalculations p = Return r).
Proof.
  pose proof (performCalculations_checks p) as H.
  pose proof (first_failed_check_None p) as Hnone.
  destruct (first_failed_check p) as [msg |] eqn:E.
  - left. split.
    + intros Hp. apply Hnone in Hp. discriminate Hp.
    + exists msg. split; [exact (first_failed_check_message p msg E) | exact H].
  - right. assert (Hp : passes_checks p) by (apply Hnone; reflexivity).
    destruct (max_array_length <? cfg_points p)%Z eqn:Hbig.
    + left. apply Z.ltb_lt in Hbig. auto.
    + right. apply Z.ltb_ge in Hbig. auto.
Qed.

Lemma performCalculations_rejected (p : Params) :
  ~ accepted p ->
  exists msg,
    In msg (range_error :: validation_messages) /\
    performCalculations p = Throw msg.
Proof.
  intros Hnot.
  destruct (performCalculations_cases p)
    as [(_ & msg & Hin & Hmsg) | [(_ & _ & Hmsg) | (_ & _ & r & Hr)]].
  - exists msg. split; [right; exact Hin | exact Hmsg].
  - exists range_error. split; [left; reflexivity | exact Hmsg].
  - exfalso. apply Hnot. exact (performCalculations_accepted p r Hr).
Qed.

(** performCalculations returns a result exactly for the configurations
    that pass its six checks (a positive area, a positive GWP, a decline
    rate in [0, 1), a positive horizon, a positive number of points and a
    division that sums to 100 within 0.01) and ask for at most [2^32 - 1]
    points; it throws one of its six messages exactly when a check fails,
    and the RangeError 'Invalid array length' of [new Array] exactly when
    the checks pass and the points are more.  Nothing else is checked: not
    the savings, the start years, the efficiency degradation or the climate
    zone. *)
Theorem performCalculations_returns_iff_accepted (p : Params) :
  ((exists r, performCalculations p = Return r) <->
   passes_checks p /\ (cfg_points p <= max_array_length)%Z) /\
  ((exists msg, In msg validation_messages /\
                performCalculations p = Throw msg) <-> ~ passes_checks p) /\
  (performCalculations p = Throw "Invalid array length" <->
   passes_checks p /\ (max_array_length < cfg_points p)%Z).
Proof.
  pose proof range_error_no_validation_message as Hrange.
  unfold range_error in Hrange.
  destruct (performCalculations_cases p)
    as [(Hnot & msg & Hin & Hmsg) | [(Hp & Hbig & Hmsg) | (Hp & Hfit & r & Hr)]].
  - split; [| split]; split.
    + intros [r Hr]. congruence.
    + intros [Hp _]. contradiction.
    + intros _. exact Hnot.
    + intros _. exists msg. auto.
    + intros E. exfalso. apply Hrange. congruence.
    + intros [Hp _]. contradiction.
  - unfold range_error in Hmsg. split; [| split]; split.
    + intros [r Hr]. congruence.
    + intros [_ Hfit]. lia.
    + intros (msg & Hin & Hthrow) _. apply Hrange. congruence.
    + intros Hnot. contradiction.
    + intros _. auto.
    + intros _. exact Hmsg.
  - split; [| split]; split.
    + intros _. auto.
    + intros _. exists r. exact Hr.
    + intros (msg & _ & Hthrow). congruence.
    + intros Hnot. contradiction.
    + intros E. congruence.
    + intros [_ Hbig]. lia.
Qed.

Lemma performCalculations_returns_iff_accepted_witness :
  (exists r, performCalculations default_params = Return r) /\
  performCalculations too_many_points_params = Throw "Invalid array length".
Proof.
  split.
  - apply (proj1 (performCalculations_returns_iff_accepted default_params)).
    destruct accepted_default as (Ha & Hg & [Hd0 Hd1] & Hy & Hn & Hs).
    repeat split; try assumption; lia.
  - apply (proj2 (proj2 (performCalculations_returns_iff_accepted
                           too_many_points_params))).
    destruct accepted_default as (Ha & Hg & [Hd0 Hd1] & Hy & Hn & Hs).
    split; [| unfold max_array_length; cbn; lia].
    repeat split; try assumption; cbn; lia.
Defined.

(** ** The natural curve never reaches neutrality *)

Lemma natural_decline_never_neutral (p : Params) (r : Result) :
  accepted p ->
  performCalculations p = Return r ->
  never_crosses (timeline_co2_natural_decline r) /\
  neutrality_natural_decline r = VNull.
Proof.
  intros Hacc Hr.
  destruct (performCalculations_timeline p r Hr)
    as (Hgrid & Hnat & _ & _ & Hnn).
  destruct (initial_co2_positive p Hacc) as (x & Hx & Hinit).
  assert (Hy : 0 < cfg_years_to_calculate p) by apply Hacc.
  assert (Hnever : never_crosses (timeline_co2_natural_decline r)).
  { intros i c Hc. rewrite Hnat, nth_error_map in Hc.
    destruct (nth_error (timeline_years r) i) as [year |] eqn:Ey;
      [| discriminate Hc].
    cbn [option_map] in Hc.
    assert (Ec : c = natural_sample (cfg_initial_co2 p)
                       (Fin (cfg_decline_rate p))
                       (ToNumber (cfg_climate_factor p)) year)
      by congruence.
    rewrite Ec, Hinit. apply natural_sample_not_crossing.
    - exact Hx.
    - apply climate_factor_number_or_nan.
    - exact (linspace_entries _ _ _ Hgrid Hy i year Ey). }
  split; [exact Hnever |].
  rewrite Hnn. unfold neutral_index.
  destruct (neutral_index_from_spec (timeline_co2_natural_decline r) 0)
    as [[-> _] | (k & _ & (c & Hc & Hle) & _)].
  - reflexivity.
  - specialize (Hnever k c Hc). congruence.
Qed.

(** In exact arithmetic no sample of [co2_natural_decline] is [<= 0], so
    [neutrality.natural_decline] is null for every accepted
    configuration. *)
Theorem natural_neutrality_is_null (p : Params) :
  accepted p ->
  exists r,
    performCalculations p = Return r /\
    never_crosses (timeline_co2_natural_decline r) /\
    neutrality_natural_decline r = VNull.
Proof.
  intros Hacc. destruct (accepted_performCalculations p Hacc) as [r Hr].
  exists r. split; [exact Hr |].
  exact (natural_decline_never_neutral p r Hacc Hr).
Qed.

Lemma natural_neutrality_is_null_witness :
  exists r,
    performCalculations default_params = Return r /\
    never_crosses (timeline_co2_natural_decline r) /\
    neutrality_natural_decline r = VNull.
Proof. exact (natural_neutrality_is_null default_params accepted_default). Defined.

(** ** The ten-year figures *)

Lemma performCalculations_ten_year (p : Params) (r : Result) :
  performCalculations p = Return r ->
  let ten_year_index :=
    floor (mul (div (Fin (IZR (cfg_points p)))
                    (Fin (cfg_years_to_calculate p)))
               (Fin 10)) in
  savings_ten_year r =
    sub (ToNumber (index (timeline_co2_natural_decline r) ten_year_index))
        (ToNumber (index (timeline_co2_with_improvements r) ten_year_index)) /\
  economics_roi_10yr r =
    mul (div (savings_ten_year r) (economics_estimated_cost r)) (Fin 100) /\
  intensity_reduction_per_euro r =
    div (savings_ten_year r) (economics_estimated_cost r) /\
  intensity_carbon_per_sqm r =
    div (cfg_initial_co2 p) (Fin (cfg_roof_area p)).
Proof.
  intros H. pose proof (performCalculations_accepted _ _ H) as Hacc.
  destruct Hacc as (_ & _ & _ & _ & Hpts & _).
  unfold performCalculations in H. cbv zeta in H.
  repeat (apply throw_if_Return in H; destruct H as [_ H]).
  fold (cfg_points p) in H.
  rewrite linspace_Return in H by length_lia.
  cbn [bind] in H. injection H as <-. cbn.
  repeat split; reflexivity.
Qed.

Lemma Int_part_IZR (z : Z) : Int_part (IZR z) = z.
Proof.
  destruct (base_Int_part (IZR z)) as [Hle Hgt].
  assert (H1 : (Int_part (IZR z) <= z)%Z) by (apply le_IZR; exact Hle).
  assert (H2 : (z - 1 < Int_part (IZR z))%Z).
  { apply lt_IZR. rewrite minus_IZR. lra. }
  lia.
Qed.

Lemma Int_part_lower (x : R) (z : Z) : IZR z <= x -> (z <= Int_part x)%Z.
Proof.
  intros Hx. destruct (base_Int_part x) as [_ Hgt].
  assert (H : (z - 1 < Int_part x)%Z).
  { apply lt_IZR. rewrite minus_IZR. lra. }
  lia.
Qed.

(** Reading an array at an integer index at or past its end gives
    undefined. *)
Lemma index_past_end (a : list num) (z : Z) :
  (Z.of_nat (List.length a) <= z)%Z -> index a (Fin (IZR z)) = VUndefined.
Proof.
  intros Hz. unfold index. rewrite Int_part_IZR.
  destruct (Req_dec_T (IZR z) (IZR z)) as [_ | Hn]; [| contradiction].
  replace (0 <=? z)%Z with true by (symmetry; apply Z.leb_le; lia).
  replace (nth_error a (Z.to_nat z)) with (@None num); [reflexivity |].
  symmetry. apply nth_error_None. lia.
Qed.

(** With a horizon of ten years or less the sample read for year 10,
    at index [floor(points / years_to_calculate * 10)], lies past the end
    of both curves: [savings.ten_year], [economics.roi_10yr] and
    [intensity.reduction_per_euro] are NaN. *)
Theorem short_horizon_ten_year_nan (p : Params) :
  accepted p ->
  cfg_years_to_calculate p <= 10 ->
  exists r,
    performCalculations p = Return r /\
    savings_ten_year r = NaN /\
    economics_roi_10yr r = NaN /\
    intensity_reduction_per_euro r = NaN.
Proof.
  intros Hacc Hshort. destruct (accepted_performCalculations p Hacc) as [r Hr].
  exists r. split; [exact Hr |].
  destruct (performCalculations_ten_year p r Hr) as (Hten & Hroi & Hred & _).
  destruct (performCalculations_timeline p r Hr) as (Hgrid & Hnat & Himp & _).
  pose proof (linspace_length _ _ _ _ Hgrid) as Hlen.
  assert (Hy : 0 < cfg_years_to_calculate p) by apply Hacc.
  assert (Hpts : (0 < cfg_points p)%Z) by apply Hacc.
  assert (Hne : timeline_years r <> []).
  { intros E. rewrite E in Hlen. simpl in Hlen. lia. }
  assert (Hten' : savings_ten_year r = NaN).
  { rewrite Hten. rewrite div_Fin by lra. cbn [mul floor].
    set (z := Int_part (IZR (cfg_points p) / cfg_years_to_calculate p * 10)).
    assert (Hz : (cfg_points p <= z)%Z).
    { apply Int_part_lower.
      assert (Hn : 0 < IZR (cfg_points p)) by (apply IZR_lt; lia).
      assert (Hq : 1 <= 10 / cfg_years_to_calculate p).
      { apply Rmult_le_reg_r with (cfg_years_to_calculate p); [exact Hy |].
        unfold Rdiv. rewrite Rmult_assoc, Rinv_l by lra. lra. }
      replace (IZR (cfg_points p) / cfg_years_to_calculate p * 10)
        with (IZR (cfg_points p) * (10 / cfg_years_to_calculate p))
        by (field; lra).
      nra. }
    rewrite !index_past_end.
    - reflexivity.
    - rewrite Himp, improved_curve_length, Hlen by exact Hne. lia.
    - rewrite Hnat, length_map, Hlen. lia. }
  split; [exact Hten' |]. rewrite Hroi, Hred, Hten'. split; reflexivity.
Qed.

(** The default configuration with a horizon of ten years. *)
Lemma short_horizon_ten_year_nan_witness :
  exists r,
    performCalculations
      {| roof_area := None; GWP_roof := None; decline_rate := None;
         roof_division := None; full_savings := None;
         improvement_years := None; years_to_calculate := Some 10;
         points := None; efficiency_degradation := None;
         climate_zone := None |} = Return r /\
    savings_ten_year r = NaN /\
    economics_roi_10yr r = NaN /\
    intensity_reduction_per_euro r = NaN.
Proof.
  apply short_horizon_ten_year_nan.
  - unfold accepted, max_array_length, sum_valuesR. cbn. repeat split; try lra; try lia.
    unfold Rabs. destruct (Rcase_abs _); lra.
  - cbn. lra.
Defined.

(** ** The decay of the improved curve *)

(** Without improvements the loop multiplies by [exp(-decline_rate *
    climate_factor)] at every sample and never reads the year. *)
Lemma improved_from_no_improvement
  (annual : obj num) (d deg n c : R) (ys : list num) :
  forall (x : R) (j : nat) (v : num),
    0 <= x ->
    nth_error (improved_from
                 (improved_step [] annual (Fin d) (Fin deg) (Fin n) (Fin c))
                 (Fin x) ys) j = Some v ->
    v = Fin (x * Rtrigo_def.exp (- d * INR (S j) * c)).
Proof.
  induction ys as [| y ys IH]; intros x j v Hx Hv.
  - destruct j; discriminate Hv.
  - cbn [improved_from] in Hv.
    assert (Hstep : improved_step [] annual (Fin d) (Fin deg) (Fin n) (Fin c)
                      (Fin x) y = Fin (x * Rtrigo_def.exp (- d * c))).
    { unfold improved_step, apply_improvements. cbn [keys map fold_left].
      cbn [neg mul Num.exp].
      assert (Hpos : 0 <= x * Rtrigo_def.exp (- d * c)).
      { apply Rmult_le_pos; [exact Hx | left; apply exp_pos]. }
      unfold max, leb. destruct (Rle_dec 0 (x * Rtrigo_def.exp (- d * c)));
        [reflexivity | contradiction]. }
    rewrite Hstep in Hv. destruct j as [| j].
    + cbn [nth_error] in Hv. injection Hv as <-. f_equal. f_equal. f_equal.
      simpl INR. ring.
    + cbn [nth_error] in Hv.
      apply IH in Hv;
        [| apply Rmult_le_pos; [exact Hx | left; apply exp_pos]].
      rewrite Hv. f_equal. rewrite Rmult_assoc, <- exp_plus. f_equal. f_equal.
      rewrite (S_INR (S j)). ring.
Qed.

Lemma unimproved_samples (p : Params) (r : Result) :
  performCalculations p = Return r ->
  cfg_improvement_years p = [] ->
  inherited (cfg_climate_zone p) = false ->
  forall i, (i < Z.to_nat (cfg_points p))%nat ->
    nth_error (timeline_co2_with_improvements r) i
    = Some (natural_sample (cfg_initial_co2 p) (Fin (cfg_decline_rate p))
              (ToNumber (cfg_climate_factor p)) (Fin (INR i))).
Proof.
  intros Hr Hempty Hzone.
  pose proof (performCalculations_accepted p r Hr) as Hacc.
  destruct (performCalculations_timeline p r Hr) as (Hgrid & _ & Himp & _).
  destruct (initial_co2_positive p Hacc) as (x & Hx & Hinit).
  pose proof (linspace_length _ _ _ _ Hgrid) as Hlen.
  destruct (climate_factor_number _ Hzone) as (c & _ & Ec).
  fold (cfg_climate_factor p) in Ec.
  intros i Hi. rewrite Himp, Hinit, Ec. unfold cfg_improved_step.
  rewrite Hempty, Ec. cbn [ToNumber]. unfold improved_curve.
  unfold natural_sample. cbn [neg mul Num.exp].
  destruct i as [| i].
  - cbn [nth_error]. f_equal. f_equal.
    replace (- cfg_decline_rate p * INR 0 * c) with 0 by (simpl; ring).
    rewrite exp_0. ring.
  - cbn [nth_error].
    destruct (nth_error
                (improved_from
                   (improved_step [] (cfg_annual_savings p)
                      (Fin (cfg_decline_rate p))
                      (Fin (cfg_efficiency_degradation p))
                      (Fin (IZR (cfg_points p))) (Fin c))
                   (Fin x) (tl (timeline_years r))) i) as [v |] eqn:Ev.
    + apply improved_from_no_improvement in Ev; [| lra]. now rewrite Ev.
    + exfalso. apply nth_error_None in Ev.
      rewrite improved_from_length in Ev.
      destruct (timeline_years r); simpl in *; lia.
Qed.

(** With an empty [improvement_years] the sample of [co2_with_improvements]
    at index [i] is the natural decay after [i] years, whatever year the
    grid holds at that index: the loop applies the decay of one full year
    between two samples. *)
Theorem unimproved_curve_decays_per_sample (p : Params) :
  accepted p ->
  cfg_improvement_years p = [] ->
  inherited (cfg_climate_zone p) = false ->
  exists r,
    performCalculations p = Return r /\
    forall i, (i < Z.to_nat (cfg_points p))%nat ->
      nth_error (timeline_co2_with_improvements r) i
      = Some (natural_sample (cfg_initial_co2 p) (Fin (cfg_decline_rate p))
                (ToNumber (cfg_climate_factor p)) (Fin (INR i))).
Proof.
  intros Hacc Hempty Hzone.
  destruct (accepted_performCalculations p Hacc) as [r Hr].
  exists r. split; [exact Hr |].
  exact (unimproved_samples p r Hr Hempty Hzone).
Qed.

Lemma unimproved_curve_decays_per_sample_witness :
  exists r,
    performCalculations no_improvement_params = Return r /\
    forall i, (i < Z.to_nat (cfg_points no_improvement_params))%nat ->
      nth_error (timeline_co2_with_improvements r) i
      = Some (natural_sample (cfg_initial_co2 no_improvement_params)
                (Fin (cfg_decline_rate no_improvement_params))
                (ToNumber (cfg_climate_factor no_improvement_params))
                (Fin (INR i))).
Proof.
  apply (unimproved_curve_decays_per_sample no_improvement_params).
  - exact accepted_default.
  - reflexivity.
  - reflexivity.
Defined.



(** ** The improved curve never rises *)

Section NonNegativeSavings.

Variables (iy : obj R) (annual : obj num) (d deg n c : R).
Hypothesis decline_nonnegative : 0 <= d.
Hypothesis points_positive : 0 < n.
Hypothesis factor_positive : 0 < c.
Hypothesis annual_nonnegative :
  forall k, In k (keys iy) ->
    exists a, 0 <= a /\ get annual k = VNum (Fin a).





End NonNegativeSavings.




Lemma default_values_nonnegative :
  nonnegative_values (cfg_roof_division default_params) /\
  nonnegative_values (cfg_full_savings default_params).
Proof.
  split; unfold nonnegative_values; cbn; repeat constructor; lra.
Qed.


(** ** The estimated cost *)

Lemma mul_NaN_r (a : num) : mul a NaN = NaN.
Proof. destruct a; reflexivity. Qed.

(** The cost factor of a category: one of the four of the table, 100 for
    another name, and the inherited member for a name of
    [Object.prototype]. *)
Lemma cost_factor_cases (k : string) :
  let f := or_else (get cost_factors k) (VNum (Fin 100)) in
  (inherited k = true /\ f = VObject) \/
  (exists x, 80 <= x <= 350 /\ f = VNum (Fin x)).
Proof.
  cbv zeta. unfold get, cost_factors, own_get.
  repeat match goal with
  | |- context [String.eqb k ?s] => destruct (String.eqb k s)
  end;
  try (right; eexists; split; [| unfold prop; apply or_else_positive]; lra).
  unfold prop. destruct (inherited k).
  - left. split; reflexivity.
  - right. exists 100. split; [lra | reflexivity].
Qed.

Lemma cost_loop_NaN (area : num) (rd : obj R) (ks : list string) :
  fold_left
    (fun total_cost improvement =>
       add total_cost
           (mul (mul area (div (ToNumber (getR rd improvement)) (Fin 100)))
                (ToNumber (or_else (get cost_factors improvement)
                                   (VNum (Fin 100))))))
    ks NaN = NaN.
Proof. induction ks as [| k ks IH]; cbn [fold_left]; [reflexivity | exact IH]. Qed.

(** A category of the division that is called like a member of
    [Object.prototype] and is not one of the four categories of the cost
    table makes the estimated cost NaN. *)
Lemma estimated_cost_inherited (area : num) (rd : obj R) (k : string) :
  In k (keys rd) -> inherited k = true ->
  own_get cost_factors k = None ->
  calculateEstimatedCost area rd = NaN.
Proof.
  intros Hk Hinh Hown. unfold calculateEstimatedCost.
  assert (Hfactor : ToNumber (or_else (get cost_factors k) (VNum (Fin 100)))
                    = NaN).
  { unfold get. rewrite Hown. unfold prop. rewrite Hinh. reflexivity. }
  generalize (Fin 0). induction (keys rd) as [| k0 ks IH]; intros acc.
  - contradiction.
  - cbn [fold_left]. destruct Hk as [-> | Hk].
    + rewrite Hfactor, mul_NaN_r, add_NaN_r. apply cost_loop_NaN.
    + apply IH. exact Hk.
Qed.

(** An accepted request with a category called like a member of
    [Object.prototype] ('constructor', 'toString', ...) gets an estimated
    cost of NaN, and so a payback of NaN, instead of the 100 per square
    metre of an unknown category. *)
Theorem inherited_category_cost_nan (p : Params) (k : string) :
  accepted p ->
  In k (keys (cfg_roof_division p)) ->
  inherited k = true ->
  exists r,
    performCalculations p = Return r /\
    economics_estimated_cost r = NaN /\
    economics_simple_payback_years r = VNum NaN.
Proof.
  intros Hacc Hk Hinh. destruct (accepted_performCalculations p Hacc) as [r Hr].
  exists r. split; [exact Hr |].
  destruct (performCalculations_economics p r Hr)
    as (_ & _ & _ & _ & Hcost & Hpay).
  assert (Hown : own_get cost_factors k = None).
  { unfold cost_factors, own_get.
    repeat match goal with
    | |- context [String.eqb k ?s] =>
        let E := fresh "E" in
        destruct (String.eqb k s) eqn:E;
        [apply String.eqb_eq in E; subst k; discriminate Hinh |]
    end. reflexivity. }
  assert (Hnan : economics_estimated_cost r = NaN).
  { rewrite Hcost. exact (estimated_cost_inherited _ _ k Hk Hinh Hown). }
  split; [exact Hnan |]. rewrite Hpay, Hnan. reflexivity.
Qed.

Lemma inherited_category_cost_nan_witness :
  exists r,
    performCalculations
      {| roof_area := None; GWP_roof := None; decline_rate := None;
         roof_division := Some [("Green Areas", 50); ("toString", 50)];
         full_savings := None; improvement_years := None;
         years_to_calculate := None; points := None;
         efficiency_degradation := None; climate_zone := None |} = Return r /\
    economics_estimated_cost r = NaN /\
    economics_simple_payback_years r = VNum NaN.
Proof.
  apply inherited_category_cost_nan with (k := "toString").
  - unfold accepted, max_array_length, sum_valuesR. cbn. repeat split; try lra; try lia.
    unfold Rabs. destruct (Rcase_abs _); lra.
  - cbn. tauto.
  - reflexivity.
Defined.

Lemma own_get_NoDup {A} (o : obj A) (k : string) (v : A) :
  NoDup (keys o) -> In (k, v) o -> own_get o k = Some v.
Proof.
  induction o as [| [k0 v0] o IH]; intros Hnd Hin; [contradiction |].
  simpl in Hnd. inversion Hnd as [| ? ? Hnotin Hnd']; subst.
  simpl. destruct Hin as [Heq | Hin].
  - injection Heq as -> ->. now rewrite String.eqb_refl.
  - destruct (String.eqb k k0) eqn:E.
    + apply String.eqb_eq in E. subst k0. exfalso. apply Hnotin.
      unfold keys. apply in_map_iff. exists (k, v). split; [reflexivity | exact Hin].
    + apply IH; assumption.
Qed.

Lemma fold_Rplus_shift (l : list R) (a : R) :
  fold_left Rplus l a = a + fold_left Rplus l 0.
Proof.
  revert a. induction l as [| x l IH]; intros a; simpl; [lra |].
  rewrite (IH (a + x)), (IH (0 + x)). lra.
Qed.

(** The loop of calculateEstimatedCost over a part of the division. *)
Lemma cost_loop_bounds (area : R) (rd l : obj R) :
  0 <= area ->
  (forall k v, In (k, v) l ->
     own_get rd k = Some v /\ 0 <= v /\ inherited k = false) ->
  forall a : R,
    exists c,
      fold_left
        (fun total_cost improvement =>
           add total_cost
               (mul (mul (Fin area)
                         (div (ToNumber (getR rd improvement)) (Fin 100)))
                    (ToNumber (or_else (get cost_factors improvement)
                                       (VNum (Fin 100))))))
        (keys l) (Fin a) = Fin c /\
      a + 80 * area * sum_valuesR l / 100 <= c
        <= a + 350 * area * sum_valuesR l / 100.
Proof.
  intros Harea. induction l as [| [k v] l IH]; intros Hl a.
  - exists a. split; [reflexivity |]. unfold sum_valuesR. simpl. lra.
  - destruct (Hl k v (or_introl eq_refl)) as (Hown & Hv & Hinh).
    cbn [keys map fst fold_left].
    rewrite (getR_own _ _ _ Hown). cbn [ToNumber].
    destruct (cost_factor_cases k) as [[Hk _] | (x & Hx & ->)];
      [congruence |].
    cbn [ToNumber]. rewrite div_Fin by lra. cbn [mul add].
    destruct (IH (fun k' v' H => Hl k' v' (or_intror H))
                 (a + area * (v / 100) * x)) as (c & Hc & Hlo & Hhi).
    exists c. split; [exact Hc |].
    unfold sum_valuesR in *. cbn [values map snd fold_left].
    rewrite (fold_Rplus_shift _ (0 + v)).
    assert (Hav : 0 <= area * v) by (apply Rmult_le_pos; assumption).
    assert (H80 : 0 <= area * v * (x - 80)) by (apply Rmult_le_pos; lra).
    assert (H350 : 0 <= area * v * (350 - x)) by (apply Rmult_le_pos; lra).
    unfold values in *. set (S := fold_left Rplus (map snd l) 0) in *.
    split; nra.
Qed.

(** In exact arithmetic (no overflow or rounding): for a non-negative area
    and a division with non-negative percentages whose categories are not
    called like members of [Object.prototype], the estimated cost is a
    number between 80 and 350 per square metre of the allocated area,
    [roof_area * sum / 100]. *)
Theorem estimated_cost_bounds (area : R) (rd : obj R) :
  0 <= area ->
  NoDup (keys rd) ->
  nonnegative_values rd ->
  (forall k, In k (keys rd) -> inherited k = false) ->
  exists c,
    calculateEstimatedCost (Fin area) rd = Fin c /\
    80 * area * sum_valuesR rd / 100 <= c
      <= 350 * area * sum_valuesR rd / 100.
Proof.
  intros Harea Hnd Hpos Hinh.
  destruct (cost_loop_bounds area rd rd Harea) with (a := 0)
    as (c & Hc & Hlo & Hhi).
  - intros k v Hin. split; [exact (own_get_NoDup rd k v Hnd Hin) |]. split.
    + unfold nonnegative_values in Hpos. rewrite Forall_forall in Hpos.
      apply Hpos. unfold values. apply in_map_iff.
      exists (k, v). split; [reflexivity | exact Hin].
    + apply Hinh. unfold keys. apply in_map_iff.
      exists (k, v). split; [reflexivity | exact Hin].
  - exists c. split; [exact Hc |]. lra.
Qed.

Lemma estimated_cost_bounds_witness :
  exists c,
    calculateEstimatedCost (Fin 2776) default_roof_division = Fin c /\
    80 * 2776 * sum_valuesR default_roof_division / 100 <= c
      <= 350 * 2776 * sum_valuesR default_roof_division / 100.
Proof.
  apply estimated_cost_bounds.
  - lra.
  - cbn. repeat constructor; cbn; intros H;
      repeat destruct H as [H | H]; try discriminate H; exact H.
  - apply default_values_nonnegative.
  - intros k Hk. cbn in Hk.
    repeat destruct Hk as [<- | Hk]; try reflexivity. contradiction.
Defined.

(** ** linspace for any bounds *)

Lemma linspace_finite (start end_ : R) (n : Z) :
  (2 <= n <= max_array_length)%Z ->
  linspace (Fin start) (Fin end_) n =
  Return (map (fun i => Fin (start + (end_ - start) / IZR (n - 1)
                                     * IZR (Z.of_nat i)))
              (seq 0 (Z.to_nat n))).
Proof.
  intros Hn. rewrite linspace_Return by lia. f_equal.
  apply map_ext. intros i.
  assert (Hd : IZR (n - 1) <> 0) by (apply not_0_IZR; lia).
  unfold sub, neg. cbn [add]. rewrite div_Fin by exact Hd.
  cbn [mul add]. reflexivity.
Qed.

(** In exact arithmetic, for finite bounds [start < end] and a number of
    points from 2 to [2^32 - 1], linspace returns [n] finite entries that
    go strictly up from [start] to [end].  (In double precision rounding
    can make the last entry miss [end] and let neighbouring entries
    coincide.) *)
Theorem linspace_strictly_increasing (start end_ : R) (n : Z) :
  start < end_ -> (2 <= n <= max_array_length)%Z ->
  exists g,
    linspace (Fin start) (Fin end_) n = Return g /\
    List.length g = Z.to_nat n /\
    nth_error g 0 = Some (Fin start) /\
    nth_error g (Z.to_nat n - 1) = Some (Fin end_) /\
    strictly_increasing g.
Proof.
  intros Hlt Hn. eexists. split; [apply linspace_finite; exact Hn |].
  assert (Hd : 0 < IZR (n - 1)) by (apply IZR_lt; lia).
  rewrite length_map, length_seq. split; [reflexivity |].
  split; [| split].
  - rewrite nth_error_map_seq by lia. f_equal. f_equal.
    change (IZR (Z.of_nat 0)) with 0. lra.
  - rewrite nth_error_map_seq by lia. f_equal. f_equal.
    replace (Z.of_nat (Z.to_nat n - 1)) with (n - 1)%Z by lia.
    field. lra.
  - intros i a b Ha Hb.
    apply nth_error_map_seq_inv in Ha. destruct Ha as [_ ->].
    apply nth_error_map_seq_inv in Hb. destruct Hb as [_ ->].
    apply ltb_Fin_true. rewrite Nat2Z.inj_succ, succ_IZR.
    assert (Hstep : 0 < (end_ - start) / IZR (n - 1))
      by (apply Rdiv_lt_0_compat; lra).
    nra.
Qed.

Lemma linspace_strictly_increasing_witness :
  exists g,
    linspace (Fin (-5)) (Fin 5) 11 = Return g /\
    List.length g = Z.to_nat 11 /\
    nth_error g 0 = Some (Fin (-5)) /\
    nth_error g (Z.to_nat 11 - 1) = Some (Fin 5) /\
    strictly_increasing g.
Proof.
  apply linspace_strictly_increasing; [lra | unfold max_array_length; lia].
Defined.

(** The small lengths: a negative length throws the RangeError of
    [new Array], length 0 gives the empty array, and length 1 gives [NaN]
    for all finite bounds, the step being a division by zero. *)
Theorem linspace_small_lengths (start end_ : R) :
  (forall n, (n < 0)%Z ->
     linspace (Fin start) (Fin end_) n = Throw "Invalid array length") /\
  linspace (Fin start) (Fin end_) 0 = Return [] /\
  linspace (Fin start) (Fin end_) 1 = Return [NaN].
Proof.
  split; [| split].
  - intros n Hn. apply linspace_Throw. left. exact Hn.
  - reflexivity.
  - rewrite linspace_Return by length_lia. change (Z.to_nat 1) with 1%nat.
    cbn [seq map]. change (IZR (1 - 1)) with 0.
    change (IZR (Z.of_nat 0)) with 0.
    assert (Hzero : Rsign 0 = Zero).
    { unfold Rsign. destruct (Rlt_dec 0 0); [lra | reflexivity]. }
    assert (Hstep : forall x, mul (div (Fin x) (Fin 0)) (Fin 0) = NaN).
    { intros x. unfold div.
      destruct (Req_dec_T 0 0) as [_ | H]; [| contradiction].
      destruct (Rsign x); cbn; rewrite ?Hzero; reflexivity. }
    unfold sub, neg. cbn [add]. rewrite Hstep. reflexivity.
Qed.

Lemma linspace_small_lengths_witness :
  linspace (Fin 0) (Fin 50) (-1) = Throw "Invalid array length".
Proof. apply (proj1 (linspace_small_lengths 0 50)). lia. Defined.

(** * Further properties of the enhanced pipeline *)

Lemma performEnhancedCalculations_cases (p : Enhanced.Params) :
  let passes :=
    0 < default 2776 (Enhanced.roof_area p) /\
    0 < default 3.33 (Enhanced.GWP_roof p) /\
    Rabs (sum_valuesR
            (default default_roof_division (Enhanced.roof_division p))
          - 100) <= 0.01 in
  let length := (default 50 (Enhanced.years_to_calculate p) + 1)%Z in
  (~ passes /\
   exists msg,
     In msg ["Roof area must be positive"; "GWP_roof must be positive";
             percentage_message] /\
     Enhanced.performEnhancedCalculations p = Throw msg) \/
  (passes /\ (max_array_length < length)%Z /\
   Enhanced.performEnhancedCalculations p = Throw range_error) \/
  (passes /\ (length <= max_array_length)%Z /\
   exists r, Enhanced.performEnhancedCalculations p = Return r).
Proof.
  cbv zeta. unfold Enhanced.performEnhancedCalculations. cbv zeta.
  destruct (leb (Fin (default 2776 (Enhanced.roof_area p))) (Fin 0)) eqn:Ha.
  { apply leb_Fin_true in Ha. left. split; [intros (H & _); lra |].
    eexists. split; [| reflexivity]. simpl. auto. }
  apply leb_Fin_false in Ha.
  destruct (leb (Fin (default 3.33 (Enhanced.GWP_roof p))) (Fin 0)) eqn:Hg.
  { apply leb_Fin_true in Hg. left. split; [intros (_ & H & _); lra |].
    eexists. split; [| reflexivity]. simpl. auto. }
  apply leb_Fin_false in Hg.
  destruct (gtb (abs (sub (Fin (sum_valuesR
                                 (default default_roof_division
                                    (Enhanced.roof_division p))))
                          (Fin 100)))
                (Fin 0.01)) eqn:Hs.
  { left. split.
    - intros (_ & _ & H). apply percentage_check in H. congruence.
    - eexists. split; [| reflexivity]. simpl. auto. }
  apply percentage_check in Hs. rewrite !throw_if_false.
  destruct (Enhanced.social_loop _) as [ws tw].
  right.
  destruct (max_array_length <? default 50 (Enhanced.years_to_calculate p) + 1)%Z
    eqn:Hlen.
  - left. apply Z.ltb_lt in Hlen. repeat split; try assumption.
  - right. apply Z.ltb_ge in Hlen. repeat split; try assumption.
    eexists. reflexivity.
Qed.

Lemma performEnhancedCalculations_accepted
  (p : Enhanced.Params) (r : Enhanced.Result) :
  Enhanced.performEnhancedCalculations p = Return r -> enhanced_accepted p.
Proof.
  intros Hr. pose proof (performEnhancedCalculations_cases p) as H.
  cbv zeta in H.
  destruct H as [(_ & msg & _ & Hmsg) | [(_ & _ & Hmsg) | (Hp & Hlen & _)]];
    try congruence.
  destruct Hp as (Ha & Hg & Hs). repeat split; assumption.
Qed.

(** performEnhancedCalculations returns a result exactly when the area and
    the GWP are positive, the division sums to 100 within 0.01 and the
    projection, of [years_to_calculate + 1] entries, is no longer than
    [2^32 - 1]; when the three checks pass and the projection is longer it
    throws the RangeError 'Invalid array length' of [Array.from].  It
    checks none of its other inputs. *)
Theorem performEnhancedCalculations_returns_iff_accepted
  (p : Enhanced.Params) :
  ((exists r, Enhanced.performEnhancedCalculations p = Return r) <->
   0 < default 2776 (Enhanced.roof_area p) /\
   0 < default 3.33 (Enhanced.GWP_roof p) /\
   Rabs (sum_valuesR
           (default default_roof_division (Enhanced.roof_division p))
         - 100) <= 0.01 /\
   (default 50 (Enhanced.years_to_calculate p) + 1 <= max_array_length)%Z) /\
  (Enhanced.performEnhancedCalculations p = Throw "Invalid array length" <->
   0 < default 2776 (Enhanced.roof_area p) /\
   0 < default 3.33 (Enhanced.GWP_roof p) /\
   Rabs (sum_valuesR
           (default default_roof_division (Enhanced.roof_division p))
         - 100) <= 0.01 /\
   (max_array_length < default 50 (Enhanced.years_to_calculate p) + 1)%Z).
Proof.
  pose proof (performEnhancedCalculations_cases p) as H. cbv zeta in H.
  unfold range_error in H.
  destruct H as [(Hnot & msg & Hin & Hmsg)
                | [(Hp & Hlen & Hmsg) | (Hp & Hlen & r & Hr)]].
  - split; split.
    + intros [r Hr]. congruence.
    + intros (Ha & Hg & Hs & _). exfalso. apply Hnot. auto.
    + intros E. rewrite E in Hmsg. injection Hmsg as <-.
      unfold percentage_message in Hin. simpl in Hin.
      repeat (destruct Hin as [Hin | Hin]; [discriminate Hin |]).
      contradiction.
    + intros (Ha & Hg & Hs & _). exfalso. apply Hnot. auto.
  - split; split.
    + intros [r Hr]. congruence.
    + intros (_ & _ & _ & Hfit). lia.
    + intros _. destruct Hp as (Ha & Hg & Hs). auto.
    + intros _. exact Hmsg.
  - split; split.
    + intros _. destruct Hp as (Ha & Hg & Hs). auto.
    + intros _. exists r. exact Hr.
    + intros E. congruence.
    + intros (_ & _ & _ & Hbig). lia.
Qed.

Lemma performEnhancedCalculations_returns_iff_accepted_witness :
  (exists r,
     Enhanced.performEnhancedCalculations enhanced_default_params = Return r) /\
  Enhanced.performEnhancedCalculations long_projection_params
  = Throw "Invalid array length".
Proof.
  destruct accepted_enhanced_default as (Ha & Hg & Hs & Hlen).
  split.
  - apply (proj1 (performEnhancedCalculations_returns_iff_accepted
                    enhanced_default_params)).
    auto.
  - apply (proj2 (performEnhancedCalculations_returns_iff_accepted
                    long_projection_params)).
    split; [exact Ha |]. split; [exact Hg |]. split; [exact Hs |].
    unfold max_array_length. cbn. lia.
Defined.

Lemma performEnhancedCalculations_scores
  (p : Enhanced.Params) (r : Enhanced.Result) :
  Enhanced.performEnhancedCalculations p = Return r ->
  let loop :=
    Enhanced.social_loop
      (default Enhanced.default_social_metrics (Enhanced.social_metrics p)) in
  Enhanced.social_impact_score r = div (fst loop) (snd loop) /\
  exists environmental health sdg,
    Enhanced.sustainability_score r =
      add (add (add environmental
                    (mul (Enhanced.social_impact_score r) (Fin 0.3)))
               health)
          sdg.
Proof.
  unfold Enhanced.performEnhancedCalculations. cbv zeta. intros H.
  repeat (apply throw_if_Return in H; destruct H as [_ H]).
  destruct (Enhanced.social_loop _) as [ws tw].
  apply throw_if_Return in H. destruct H as [_ H].
  injection H as <-. cbn [Enhanced.social_impact_score
    Enhanced.sustainability_score fst snd].
  split; [reflexivity |]. do 3 eexists. reflexivity.
Qed.

(** With an empty [social_metrics] the weighted mean is 0/0: the social
    impact score and the sustainability score are NaN, and the rating is
    'Needs Improvement' whatever the other inputs. *)
Theorem empty_social_metrics_nan (p : Enhanced.Params) :
  enhanced_accepted p ->
  Enhanced.social_metrics p = Some [] ->
  exists r,
    Enhanced.performEnhancedCalculations p = Return r /\
    Enhanced.social_impact_score r = NaN /\
    Enhanced.sustainability_score r = NaN /\
    Enhanced.sustainability_rating r = "Needs Improvement".
Proof.
  intros Hacc Hempty. destruct (enhanced_accepted_Return p Hacc) as [r Hr].
  exists r. split; [exact Hr |].
  destruct (performEnhancedCalculations_scores p r Hr)
    as (Hsocial & e & h & g & Hscore).
  rewrite Hempty in Hsocial. cbn in Hsocial.
  assert (Hnan : Enhanced.social_impact_score r = NaN).
  { rewrite Hsocial. unfold div.
    destruct (Req_dec_T 0 0) as [_ | H]; [| contradiction].
    unfold Rsign. destruct (Rlt_dec 0 0); [lra | reflexivity]. }
  assert (Hs : Enhanced.sustainability_score r = NaN).
  { rewrite Hscore, Hnan. cbn [mul]. rewrite add_NaN_r. reflexivity. }
  split; [exact Hnan |]. split; [exact Hs |].
  rewrite (performEnhancedCalculations_rating p r Hr), Hs. reflexivity.
Qed.

Lemma empty_social_metrics_nan_witness :
  exists r,
    Enhanced.performEnhancedCalculations
      {| Enhanced.roof_area := None; Enhanced.GWP_roof := None;
         Enhanced.roof_division := None; Enhanced.plant_absorption := None;
         Enhanced.energy_emission := None; Enhanced.solar_emission := None;
         Enhanced.solar_reduction := None; Enhanced.heating_original := None;
         Enhanced.heating_reduced := None; Enhanced.water_emission := None;
         Enhanced.water_mitigated := None; Enhanced.water_collected := None;
         Enhanced.social_metrics := Some []; Enhanced.health_metrics := None;
         Enhanced.sdg_focus := None; Enhanced.years_to_calculate := None |}
      = Return r /\
    Enhanced.social_impact_score r = NaN /\
    Enhanced.sustainability_score r = NaN /\
    Enhanced.sustainability_rating r = "Needs Improvement".
Proof.
  apply empty_social_metrics_nan.
  - exact accepted_enhanced_default.
  - reflexivity.
Defined.

(** ** The social impact score is a weighted mean *)

(** The weight of a metric: a positive number, unless the metric is called
    like a member of [Object.prototype]. *)
Lemma social_weight_positive (metric : string) :
  inherited metric = false ->
  exists w, 0 < w /\
    or_else (get Enhanced.social_weights metric) (VNum (Fin 0.1))
    = VNum (Fin w).
Proof.
  intros Hinh. unfold get, Enhanced.social_weights, own_get.
  repeat match goal with
  | |- context [String.eqb metric ?s] => destruct (String.eqb metric s)
  end;
  try (eexists; split; [| unfold prop; apply or_else_positive]; lra).
  unfold prop. rewrite Hinh. exists 0.1. split; [lra | reflexivity].
Qed.

Lemma social_loop_bounds (lo hi : R) (metrics : obj R) :
  values_between lo hi metrics ->
  (forall k, In k (keys metrics) -> inherited k = false) ->
  forall ws tw : R,
    0 <= tw -> lo * tw <= ws <= hi * tw ->
    exists ws' tw',
      fold_left
        (fun '(social_impact_score, total_weight) '(metric, value) =>
           let weight :=
             or_else (get Enhanced.social_weights metric) (VNum (Fin 0.1)) in
           (add social_impact_score (mul (Fin value) (ToNumber weight)),
            add total_weight (ToNumber weight)))
        metrics (Fin ws, Fin tw) = (Fin ws', Fin tw') /\
      tw <= tw' /\ (metrics <> [] -> 0 < tw') /\
      lo * tw' <= ws' <= hi * tw'.
Proof.
  induction metrics as [| [k v] metrics IH]; intros Hval Hinh ws tw Htw Hws.
  - exists ws, tw. repeat split; try lra. intros H. contradiction.
  - cbn [fold_left]. cbv zeta.
    destruct (social_weight_positive k) as (w & Hw & ->).
    { apply Hinh. left. reflexivity. }
    cbn [ToNumber mul add].
    unfold values_between in Hval. cbn [values map snd] in Hval.
    inversion Hval as [| ? ? Hv Hrest]; subst.
    destruct (IH Hrest (fun k' H => Hinh k' (or_intror H))
                 (ws + v * w) (tw + w)) as (ws' & tw' & E & Hle & _ & Hb).
    + lra.
    + nra.
    + exists ws', tw'. split; [exact E |]. repeat split; try lra.
Qed.

(** In exact arithmetic (no rounding): when [social_metrics] is not empty
    and no metric is called like a member of [Object.prototype], the
    social impact score is a number between the smallest and the largest
    metric value. *)
Theorem social_impact_score_between (p : Enhanced.Params) (lo hi : R) :
  enhanced_accepted p ->
  let metrics :=
    default Enhanced.default_social_metrics (Enhanced.social_metrics p) in
  metrics <> [] ->
  (forall k, In k (keys metrics) -> inherited k = false) ->
  values_between lo hi metrics ->
  exists r s,
    Enhanced.performEnhancedCalculations p = Return r /\
    Enhanced.social_impact_score r = Fin s /\
    lo <= s <= hi.
Proof.
  cbv zeta. intros Hacc Hne Hinh Hval.
  destruct (enhanced_accepted_Return p Hacc) as [r Hr]. exists r.
  destruct (performEnhancedCalculations_scores p r Hr) as (Hsocial & _).
  destruct (social_loop_bounds lo hi _ Hval Hinh 0 0)
    as (ws & tw & E & _ & Hpos & Hb); try lra.
  change (Enhanced.social_loop
            (default Enhanced.default_social_metrics
               (Enhanced.social_metrics p)) = (Fin ws, Fin tw)) in E.
  rewrite E in Hsocial. cbn [fst snd] in Hsocial.
  specialize (Hpos Hne). rewrite div_Fin in Hsocial by lra.
  exists (ws / tw). split; [exact Hr |]. split; [exact Hsocial |].
  assert (Hinv : 0 < / tw) by (apply Rinv_0_lt_compat; exact Hpos).
  unfold Rdiv. split.
  - apply Rmult_le_reg_r with tw; [exact Hpos |].
    rewrite Rmult_assoc, Rinv_l by lra. lra.
  - apply Rmult_le_reg_r with tw; [exact Hpos |].
    rewrite Rmult_assoc, Rinv_l by lra. lra.
Qed.

(** The default metrics lie between 9.83 and 39.4. *)
Lemma social_impact_score_between_witness :
  exists r s,
    Enhanced.performEnhancedCalculations enhanced_default_params = Return r /\
    Enhanced.social_impact_score r = Fin s /\
    9.83 <= s <= 39.4.
Proof.
  apply (social_impact_score_between enhanced_default_params 9.83 39.4).
  - exact accepted_enhanced_default.
  - discriminate.
  - intros k Hk. cbn in Hk.
    repeat destruct Hk as [<- | Hk]; try reflexivity. contradiction.
  - unfold values_between. cbn. repeat constructor; lra.
Defined.

(** * Further properties of the social routes *)

(** ** The alignment rating by the number of goals *)

Lemma alignment_score_value (n : nat) :
  exists s,
    min (Fin 100) (mul (div (Fin (INR n)) (Fin 17)) (Fin 100)) = Fin s /\
    0 <= s <= 100 /\
    ((n <= 17)%nat -> s = INR n / 17 * 100) /\
    ((17 <= n)%nat -> s = 100).
Proof.
  rewrite div_Fin by lra. cbn [mul].
  assert (H0 : 0 <= INR n) by apply pos_INR.
  assert (H17 : INR 17 = 17) by (simpl; lra).
  unfold min, leb. destruct (Rle_dec 100 (INR n / 17 * 100)) as [Hbig | Hsmall].
  - exists 100. split; [reflexivity |]. split; [lra |]. split.
    + intros Hn. apply le_INR in Hn. rewrite H17 in Hn. lra.
    + reflexivity.
  - eexists. split; [reflexivity |]. split; [lra |]. split.
    + reflexivity.
    + intros Hn. apply le_INR in Hn. rewrite H17 in Hn. lra.
Qed.

(** The SDG report scores the number [n] of entries of [sdg_focus],
    repeated or unknown names included: the score is computed as
    [min(100, n / 17 * 100)], which is [n / 17 * 100] up to 17 entries and
    100 from there on, and the rating is 'Exceptional' from 16 entries,
    'Strong' from 12, 'Good' from 9, 'Moderate' from 6 and 'Limited'
    below. *)
Theorem sdg_rating_by_count
  (body : SdgReport.Body) (division : obj R) (focus : list string) :
  SdgReport.roof_division body = Some division ->
  SdgReport.sdg_focus body = Some focus ->
  let n := List.length focus in
  exists rep s,
    SdgReport.sdg_report body = Ok rep /\
    SdgReport.sdg_alignment_score rep
      = min (Fin 100) (mul (div (Fin (INR n)) (Fin 17)) (Fin 100)) /\
    SdgReport.sdg_alignment_score rep = Fin s /\
    0 <= s <= 100 /\
    ((n <= 17)%nat -> s = INR n / 17 * 100) /\
    ((17 <= n)%nat -> s = 100) /\
    ((16 <= n)%nat -> SdgReport.alignment_rating rep = "Exceptional") /\
    ((12 <= n <= 15)%nat -> SdgReport.alignment_rating rep = "Strong") /\
    ((9 <= n <= 11)%nat -> SdgReport.alignment_rating rep = "Good") /\
    ((6 <= n <= 8)%nat -> SdgReport.alignment_rating rep = "Moderate") /\
    ((n <= 5)%nat -> SdgReport.alignment_rating rep = "Limited").
Proof.
  intros Hdiv Hfocus n.
  unfold SdgReport.sdg_report. rewrite Hdiv, Hfocus. fold n.
  destruct (alignment_score_value n) as (s & Es & Hs & Hsmall & Hbig).
  eexists. exists s. split; [reflexivity |].
  cbn [SdgReport.sdg_alignment_score SdgReport.alignment_rating].
  split; [reflexivity |].
  rewrite Es, getSdgAlignmentRating_five_tier.
  split; [reflexivity |]. split; [exact Hs |]. split; [exact Hsmall |].
  split; [exact Hbig |].
  assert (Hcast : forall m : nat, INR m = IZR (Z.of_nat m))
    by (intros m; apply INR_IZR_INZ).
  assert (Hval : (n <= 17)%nat -> s = IZR (Z.of_nat n) / 17 * 100)
    by (intros H; rewrite <- Hcast; exact (Hsmall H)).
  unfold five_tier_scale.
  repeat split; intros Hn.
  - destruct (Nat.le_gt_cases 17 n) as [H17 | H17].
    + rewrite (Hbig H17). decide_R. reflexivity.
    + rewrite Hval by lia.
      assert (16 <= IZR (Z.of_nat n)) by (apply IZR_le; lia).
      decide_R. reflexivity.
  - rewrite Hval by lia.
    assert (12 <= IZR (Z.of_nat n) <= 15) by (split; apply IZR_le; lia).
    decide_R. reflexivity.
  - rewrite Hval by lia.
    assert (9 <= IZR (Z.of_nat n) <= 11) by (split; apply IZR_le; lia).
    decide_R. reflexivity.
  - rewrite Hval by lia.
    assert (6 <= IZR (Z.of_nat n) <= 8) by (split; apply IZR_le; lia).
    decide_R. reflexivity.
  - rewrite Hval by lia.
    assert (0 <= IZR (Z.of_nat n) <= 5) by (split; apply IZR_le; lia).
    decide_R. reflexivity.
Qed.

Lemma sdg_rating_by_count_witness :
  exists rep s,
    SdgReport.sdg_report four_goals_body = Ok rep /\
    SdgReport.sdg_alignment_score rep = Fin s /\
    0 <= s <= 100 /\
    SdgReport.alignment_rating rep = "Limited".
Proof.
  destruct (sdg_rating_by_count four_goals_body default_roof_division
              ["Zero Hunger"; "Good Health and Well-being";
               "Clean Water and Sanitation"; "Affordable and Clean Energy"]
              eq_refl eq_refl)
    as (rep & s & Hrep & _ & Hs & Hb & _ & _ & _ & _ & _ & _ & Hlimited).
  exists rep, s. repeat split; try assumption; try apply Hb.
  apply Hlimited. cbn. lia.
Defined.

(** ** The goals the SDG report suggests *)

Lemma includes_In (l : list string) (s : string) :
  SdgReport.includes l s = true <-> In s l.
Proof. unfold SdgReport.includes. apply existsb_eqb_In. Qed.

Lemma In_firstn_In {A} (n : nat) (l : list A) (x : A) :
  In x (firstn n l) -> In x l.
Proof.
  intros H. rewrite <- (firstn_skipn n l). apply in_or_app. left. exact H.
Qed.

(** The report always makes between one and three suggestions.  When every
    goal that has a description is among the addressed ones the only
    suggestion is 'All SDGs'; otherwise every suggested goal has a
    description and is not among the addressed ones. *)
Theorem sdg_suggestions
  (body : SdgReport.Body) (division : obj R) (focus : list string) :
  SdgReport.roof_division body = Some division ->
  SdgReport.sdg_focus body = Some focus ->
  exists rep,
    SdgReport.sdg_report body = Ok rep /\
    (1 <= List.length (SdgReport.suggestions rep) <= 3)%nat /\
    ((forall g, In g SdgReport.described_sdgs -> In g focus) ->
     SdgReport.suggestions rep = ["All SDGs"]) /\
    (~ (forall g, In g SdgReport.described_sdgs -> In g focus) ->
     forall g, In g (SdgReport.suggestions rep) ->
       In g SdgReport.described_sdgs /\ ~ In g focus).
Proof.
  intros Hdiv Hfocus. unfold SdgReport.sdg_report. rewrite Hdiv, Hfocus.
  eexists. split; [reflexivity |]. cbn [SdgReport.suggestions].
  unfold SdgReport.generateSdgRecommendations.
  set (notAddressed :=
         filter (fun sdg => negb (SdgReport.includes focus sdg))
                SdgReport.described_sdgs).
  assert (Hmem : forall g, In g notAddressed <->
                           In g SdgReport.described_sdgs /\ ~ In g focus).
  { intros g. unfold notAddressed. rewrite filter_In.
    split; intros [H1 H2]; (split; [exact H1 |]).
    - intros Hin. apply includes_In in Hin. rewrite Hin in H2.
      discriminate H2.
    - destruct (SdgReport.includes focus g) eqn:Ei; [| reflexivity].
      apply includes_In in Ei. contradiction. }
  destruct notAddressed as [| g0 rest] eqn:E.
  - cbn. split; [lia |]. split; [reflexivity |].
    intros Hnot. exfalso. apply Hnot. intros g Hg.
    destruct (in_dec string_dec g focus) as [Hin | Hout]; [exact Hin |].
    exfalso. apply (proj2 (Hmem g)). split; assumption.
  - replace (0 <? List.length (g0 :: rest))%nat with true by reflexivity.
    split; [| split].
    + split; [cbn; lia | apply firstn_le_length].
    + intros Hall. exfalso.
      destruct (proj1 (Hmem g0) (or_introl eq_refl)) as [Hd Hnf].
      exact (Hnf (Hall g0 Hd)).
    + intros _ g Hg. apply Hmem. exact (In_firstn_In 3 _ g Hg).
Qed.

(** The request of the route documentation: four of the eight described
    goals are addressed, three of the others are suggested. *)
Lemma sdg_suggestions_witness :
  exists rep,
    SdgReport.sdg_report four_goals_body = Ok rep /\
    SdgReport.suggestions rep
      = ["Decent Work and Economic Growth"; "Climate Action"; "Life on Land"] /\
    forall g, In g (SdgReport.suggestions rep) ->
      In g SdgReport.described_sdgs /\
      ~ In g ["Zero Hunger"; "Good Health and Well-being";
              "Clean Water and Sanitation"; "Affordable and Clean Energy"].
Proof.
  destruct (sdg_suggestions four_goals_body default_roof_division
              ["Zero Hunger"; "Good Health and Well-being";
               "Clean Water and Sanitation"; "Affordable and Clean Energy"]
              eq_refl eq_refl)
    as (rep & Hrep & _ & _ & Hsome).
  exists rep. split; [exact Hrep |]. split.
  - cbn in Hrep. injection Hrep as <-. reflexivity.
  - apply Hsome. intros Hall.
    specialize (Hall "Climate Action").
    cbn in Hall. assert (H : False \/ False).
    { destruct Hall as [H | [H | [H | [H | H]]]];
        try discriminate H; try tauto. }
    tauto.
Defined.

(** ** The health impact report *)

(** The share of green areas the handler reads: the entry of the division,
    or 0 when there is none. *)
Lemma green_share_cases (division : obj R) :
  exists share,
    ToNumber (or_else (getR division "Green Areas") (VNum (Fin 0)))
    = Fin share /\
    (forall g, own_get division "Green Areas" = Some g -> share = g) /\
    (own_get division "Green Areas" = None -> share = 0).
Proof.
  unfold getR. destruct (own_get division "Green Areas") as [g |].
  - exists g. cbn [option_map prop]. rewrite green_share_number.
    split; [reflexivity |]. split; [congruence | discriminate].
  - exists 0. cbn. split; [reflexivity |]. split; [discriminate | reflexivity].
Qed.

(** The report in closed form: every impact is the share of green areas
    times a constant, and the area cancels. *)
Lemma health_impact_report
  (body : HealthImpact.Body) (area share : R) (division : obj R) :
  HealthImpact.roof_area body = Some area ->
  area <> 0 ->
  HealthImpact.roof_division body = Some division ->
  ToNumber (or_else (getR division "Green Areas") (VNum (Fin 0)))
    = Fin share ->
  let view := default 60 (HealthImpact.green_view_percentage body) in
  exists rep score benefit,
    HealthImpact.health_impact body = Ok rep /\
    HealthImpact.green_roof_area rep = Fin (area * share / 100) /\
    HealthImpact.health_impact_score rep = Fin score /\
    score = share / 100 * ((39.4 + 6.77 + 22.6 + 12.3) * (view / 100) + 15)
            / 5 /\
    HealthImpact.health_impact_rating rep
      = getHealthImpactRating (Fin score) /\
    HealthImpact.total_economic_benefit rep = Fin benefit /\
    (share = 0 -> benefit = 0) /\
    HealthImpact.roi_percentage rep
      = mul (div (Fin benefit) (Fin (area * share / 100 * 120))) (Fin 100).
Proof.
  intros Harea Hnz Hdiv Hshare view.
  unfold HealthImpact.health_impact. rewrite Harea, Hdiv. cbv zeta.
  fold view.
  replace (truthy (Fin area)) with true
    by (unfold truthy; destruct (Req_dec_T area 0); [contradiction | reflexivity]).
  cbn [negb]. rewrite Hshare.
  cbn [mul]. rewrite (div_Fin (area * share) 100) by lra.
  rewrite (div_Fin (area * share / 100) area) by exact Hnz.
  rewrite (div_Fin view 100) by lra. cbn [mul add].
  rewrite !(div_Fin _ 100) by lra. cbn [mul add].
  rewrite (div_Fin _ 5) by lra.
  do 3 eexists. split; [reflexivity |].
  cbn [HealthImpact.green_roof_area HealthImpact.health_impact_score
       HealthImpact.health_impact_rating HealthImpact.total_economic_benefit
       HealthImpact.roi_percentage].
  split; [reflexivity |]. split; [reflexivity |]. split; [field; exact Hnz |].
  split; [reflexivity |]. split; [reflexivity |]. split; [| reflexivity].
  intros ->. field. exact Hnz.
Qed.



(** Without a 'Green Areas' entry in the division, or with an entry of 0,
    the request is still answered: the green area, the score and the
    economic benefit are 0, the rating is 'Minimal', and the return on
    investment is 0/0, NaN. *)
Theorem health_impact_without_green
  (body : HealthImpact.Body) (area : R) (division : obj R) :
  HealthImpact.roof_area body = Some area ->
  area <> 0 ->
  HealthImpact.roof_division body = Some division ->
  (own_get division "Green Areas" = None \/
   own_get division "Green Areas" = Some 0) ->
  exists rep,
    HealthImpact.health_impact body = Ok rep /\
    HealthImpact.green_roof_area rep = Fin 0 /\
    HealthImpact.health_impact_score rep = Fin 0 /\
    HealthImpact.health_impact_rating rep = "Minimal" /\
    HealthImpact.total_economic_benefit rep = Fin 0 /\
    HealthImpact.roi_percentage rep = NaN.
Proof.
  intros Harea Hnz Hdiv Hgreen.
  destruct (green_share_cases division) as (share & Hshare & Hsome & Hnone).
  assert (Hs : share = 0).
  { destruct Hgreen as [E | E]; [exact (Hnone E) | exact (Hsome 0 E)]. }
  subst share.
  destruct (health_impact_report body area 0 division Harea Hnz Hdiv Hshare)
    as (rep & score & benefit & Hrep & Hg & Hscore & Eq & Hrating & Hben
        & Hzero & Hroi).
  exists rep. split; [exact Hrep |].
  assert (Es : score = 0) by (rewrite Eq; field).
  assert (Eb : benefit = 0) by (apply Hzero; reflexivity).
  clear Eq Hzero. rewrite Es in Hscore, Hrating. rewrite Eb in Hben, Hroi.
  split; [rewrite Hg; f_equal; field |]. split; [exact Hscore |].
  split; [| split; [exact Hben |]].
  - rewrite Hrating. unfold getHealthImpactRating, geb, leb.
    decide_R. reflexivity.
  - rewrite Hroi. unfold div.
    destruct (Req_dec_T (area * 0 / 100 * 120) 0) as [_ | H];
      [| exfalso; apply H; field].
    unfold Rsign. destruct (Rlt_dec 0 0); [lra | reflexivity].
Qed.

(** A division without green areas: [{ "Solar Power": 100 }]. *)
Lemma health_impact_without_green_witness :
  exists rep,
    HealthImpact.health_impact
      {| HealthImpact.roof_area := Some 2776;
         HealthImpact.roof_division := Some [("Solar Power", 100)];
         HealthImpact.employees := None;
         HealthImpact.building_occupants := None;
         HealthImpact.green_view_percentage := None |} = Ok rep /\
    HealthImpact.green_roof_area rep = Fin 0 /\
    HealthImpact.health_impact_score rep = Fin 0 /\
    HealthImpact.health_impact_rating rep = "Minimal" /\
    HealthImpact.total_economic_benefit rep = Fin 0 /\
    HealthImpact.roi_percentage rep = NaN.
Proof.
  apply health_impact_without_green
    with (area := 2776) (division := [("Solar Power", 100)]).
  - reflexivity.
  - lra.
  - reflexivity.
  - left. reflexivity.
Defined.

(** * Properties of the calculation routes *)

(** ** findBestScenario *)

Lemma leb_refl_number (a : num) : a <> NaN -> leb a a = true.
Proof.
  destruct a as [x | | |]; intros H; try reflexivity; try contradiction.
  apply leb_Fin_true. lra.
Qed.

Lemma leb_trans (a b c : num) :
  leb a b = true -> leb b c = true -> leb a c = true.
Proof.
  destruct a as [x | | |], b as [y | | |], c as [z | | |];
    simpl; try discriminate; try reflexivity.
  destruct (Rle_dec x y), (Rle_dec y z), (Rle_dec x z);
    try discriminate; try reflexivity. lra.
Qed.

Lemma ltb_leb (a b : num) : ltb a b = true -> leb a b = true.
Proof.
  destruct a as [x | | |], b as [y | | |]; simpl;
    try discriminate; try reflexivity.
  destruct (Rlt_dec x y), (Rle_dec x y); try discriminate; try reflexivity.
  lra.
Qed.

Lemma not_ltb_leb (a b : num) :
  a <> NaN -> b <> NaN -> ltb a b = false -> leb b a = true.
Proof.
  destruct a as [x | | |], b as [y | | |]; simpl; intros Ha Hb;
    try discriminate; try reflexivity; try contradiction.
  destruct (Rlt_dec x y), (Rle_dec y x); try discriminate; try reflexivity.
  lra.
Qed.

Section BestScenario.

Variables (type : string) (metric : Routes.Metric).

Let step (bestScenario scenario : Routes.Scenario) : Routes.Scenario :=
  if Routes.replaces type (Routes.field scenario metric)
                     (Routes.field bestScenario metric)
  then scenario else bestScenario.

Lemma good_refl (a : num) : a <> NaN -> at_least_as_good type a a = true.
Proof.
  intros H. unfold at_least_as_good.
  destruct (String.eqb type "min"); apply leb_refl_number; exact H.
Qed.

Lemma good_trans (a b c : num) :
  at_least_as_good type a b = true -> at_least_as_good type b c = true ->
  at_least_as_good type a c = true.
Proof.
  unfold at_least_as_good. destruct (String.eqb type "min"); intros H1 H2.
  - exact (leb_trans a b c H1 H2).
  - exact (leb_trans c b a H2 H1).
Qed.

(** The test of the loop on two numbers: the candidate replaces the best
    exactly when it is strictly better, and otherwise the best is at least
    as good as the candidate. *)
Lemma replaces_numbers (c b : num) :
  c <> NaN -> b <> NaN ->
  if Routes.replaces type (VNum c) (VNum b)
  then at_least_as_good type c b = true
  else at_least_as_good type b c = true.
Proof.
  intros Hc Hb. unfold Routes.replaces, at_least_as_good, Routes.value_lt.
  cbn [Routes.is_null negb andb orb ToNumber].
  destruct (String.eqb type "min").
  - destruct (ltb c b) eqn:E.
    + exact (ltb_leb c b E).
    + exact (not_ltb_leb c b Hc Hb E).
  - destruct (ltb b c) eqn:E.
    + exact (ltb_leb b c E).
    + exact (not_ltb_leb b c Hb Hc E).
Qed.

Lemma replaces_null_candidate (b : value) :
  Routes.replaces type VNull b = false.
Proof. unfold Routes.replaces. destruct (String.eqb type "min"); reflexivity. Qed.

Lemma replaces_null_best (c : num) :
  Routes.replaces type (VNum c) VNull = true.
Proof. unfold Routes.replaces. destruct (String.eqb type "min"); reflexivity. Qed.

Lemma best_step (seen : list Routes.Scenario) (best s : Routes.Scenario) :
  (forall s', In s' seen -> comparable (Routes.field s' metric)) ->
  comparable (Routes.field s metric) ->
  best_among type metric seen best ->
  best_among type metric (seen ++ [s]) (step best s).
Proof.
  intros Hseen Hs (Hin & Hnull & Hnum). unfold step.
  assert (Hbest : comparable (Routes.field best metric)) by (apply Hseen; exact Hin).
  destruct Hs as [Es | (c & Es & Hc)]; rewrite Es.
  - rewrite replaces_null_candidate. split; [| split].
    + apply in_or_app. left. exact Hin.
    + intros Hb s' Hs'. apply in_app_or in Hs'. destruct Hs' as [Hs' | [<- | []]].
      * exact (Hnull Hb s' Hs').
      * exact Es.
    + intros s' n Hs' En. apply in_app_or in Hs'. destruct Hs' as [Hs' | [<- | []]].
      * exact (Hnum s' n Hs' En).
      * congruence.
  - destruct Hbest as [Eb | (b & Eb & Hb)]; rewrite Eb.
    + rewrite replaces_null_best. split; [| split].
      * apply in_or_app. right. left. reflexivity.
      * intros H. congruence.
      * intros s' n Hs' En. apply in_app_or in Hs'.
        destruct Hs' as [Hs' | [<- | []]].
        -- specialize (Hnull Eb s' Hs'). congruence.
        -- exists c. split; [exact Es |].
           assert (n = c) by congruence. subst n. apply good_refl. exact Hc.
    + pose proof (replaces_numbers c b Hc Hb) as Hrep.
      destruct (Routes.replaces type (VNum c) (VNum b)).
      * split; [| split].
        -- apply in_or_app. right. left. reflexivity.
        -- intros H. congruence.
        -- intros s' n Hs' En. apply in_app_or in Hs'.
           destruct Hs' as [Hs' | [<- | []]].
           ++ destruct (Hnum s' n Hs' En) as (m & Em & Hm).
              assert (m = b) by congruence. subst m.
              exists c. split; [exact Es |]. exact (good_trans c b n Hrep Hm).
           ++ exists c. split; [exact Es |].
              assert (n = c) by congruence. subst n. apply good_refl. exact Hc.
      * split; [| split].
        -- apply in_or_app. left. exact Hin.
        -- intros H. congruence.
        -- intros s' n Hs' En. apply in_app_or in Hs'.
           destruct Hs' as [Hs' | [<- | []]].
           ++ exact (Hnum s' n Hs' En).
           ++ exists b. split; [exact Eb |].
              assert (n = c) by congruence. subst n. exact Hrep.
Qed.

Lemma best_loop (rest : list Routes.Scenario) :
  forall (seen : list Routes.Scenario) (best : Routes.Scenario),
    (forall s, In s (seen ++ rest) -> comparable (Routes.field s metric)) ->
    best_among type metric seen best ->
    best_among type metric (seen ++ rest) (fold_left step rest best).
Proof.
  induction rest as [| s rest IH]; intros seen best Hcmp Hbest.
  - rewrite app_nil_r. exact Hbest.
  - cbn [fold_left].
    replace (seen ++ s :: rest)%list with ((seen ++ [s]) ++ rest)%list in *
      by (rewrite <- app_assoc; reflexivity).
    apply IH; [exact Hcmp |].
    apply best_step.
    + intros s' Hs'. apply Hcmp. apply in_or_app. left.
      apply in_or_app. left. exact Hs'.
    + apply Hcmp. apply in_or_app. left. apply in_or_app. right.
      left. reflexivity.
    + exact Hbest.
Qed.

(** findBestScenario on a list that is not empty and holds no NaN. *)
Lemma findBestScenario_best (scenarios : list Routes.Scenario) :
  scenarios <> [] ->
  (forall s, In s scenarios -> comparable (Routes.field s metric)) ->
  exists best,
    Routes.findBestScenario scenarios metric type
      = Some {| Routes.best_name := Routes.scenario_name best;
                Routes.best_value := Routes.field best metric |} /\
    best_among type metric scenarios best.
Proof.
  intros Hne Hcmp. destruct scenarios as [| first rest]; [contradiction |].
  exists (fold_left step rest first). split; [reflexivity |].
  apply (best_loop rest [first] first); [exact Hcmp |].
  assert (Hfirst : comparable (Routes.field first metric))
    by (apply Hcmp; left; reflexivity).
  split; [left; reflexivity |]. split.
  - intros Hnull s [<- | []]. exact Hnull.
  - intros s n [<- | []] En. exists n. split; [exact En |].
    apply good_refl. destruct Hfirst as [E | (m & E & Hm)]; congruence.
Qed.

End BestScenario.

(** On entries whose metric is null or a number other than NaN,
    findBestScenario returns the name and value of one of the entries; the
    value is null only when the metric of every entry is null; and it is
    the smallest number among the metrics for the type 'min', the largest
    for the type 'max'. *)
Theorem findBestScenario_optimal
  (scenarios : list Routes.Scenario) (metric : Routes.Metric) :
  scenarios <> [] ->
  (forall s, In s scenarios -> comparable (Routes.field s metric)) ->
  (exists best,
     In best scenarios /\
     Routes.findBestScenario scenarios metric "min"
       = Some {| Routes.best_name := Routes.scenario_name best;
                 Routes.best_value := Routes.field best metric |} /\
     (Routes.field best metric = VNull ->
      forall s, In s scenarios -> Routes.field s metric = VNull) /\
     (forall s n, In s scenarios -> Routes.field s metric = VNum n ->
        exists m, Routes.field best metric = VNum m /\ leb m n = true)) /\
  (exists best,
     In best scenarios /\
     Routes.findBestScenario scenarios metric "max"
       = Some {| Routes.best_name := Routes.scenario_name best;
                 Routes.best_value := Routes.field best metric |} /\
     (Routes.field best metric = VNull ->
      forall s, In s scenarios -> Routes.field s metric = VNull) /\
     (forall s n, In s scenarios -> Routes.field s metric = VNum n ->
        exists m, Routes.field best metric = VNum m /\ leb n m = true)).
Proof.
  intros Hne Hcmp. split.
  - destruct (findBestScenario_best "min" metric scenarios Hne Hcmp)
      as (best & E & Hin & Hnull & Hnum).
    exists best. repeat split; assumption.
  - destruct (findBestScenario_best "max" metric scenarios Hne Hcmp)
      as (best & E & Hin & Hnull & Hnum).
    exists best. repeat split; assumption.
Qed.

(** Of two entries that cost 300 and 200, the cheaper is the best for the
    type 'min'. *)
Lemma findBestScenario_optimal_witness :
  exists best,
    In best two_cost_entries /\
    Routes.findBestScenario two_cost_entries Routes.estimated_cost "min"
      = Some {| Routes.best_name := Routes.scenario_name best;
                Routes.best_value :=
                  Routes.field best Routes.estimated_cost |} /\
    (forall s n, In s two_cost_entries ->
       Routes.field s Routes.estimated_cost = VNum n ->
       exists m, Routes.field best Routes.estimated_cost = VNum m /\
                 leb m n = true).
Proof.
  destruct (findBestScenario_optimal two_cost_entries Routes.estimated_cost)
    as [(best & Hin & E & _ & Hmin) _].
  - discriminate.
  - intros s [<- | [<- | []]]; right; eexists; (split; [reflexivity |]);
      discriminate.
  - exists best. repeat split; assumption.
Defined.

(** A NaN in the first entry stays: whatever the type and the other
    entries, findBestScenario then returns the first entry, since no
    comparison with NaN holds. *)
Theorem findBestScenario_nan_first
  (first : Routes.Scenario) (rest : list Routes.Scenario)
  (metric : Routes.Metric) (type : string) :
  Routes.field first metric = VNum NaN ->
  Routes.findBestScenario (first :: rest) metric type
  = Some {| Routes.best_name := Routes.scenario_name first;
            Routes.best_value := VNum NaN |}.
Proof.
  intros Hnan. unfold Routes.findBestScenario.
  assert (Hkeep : forall l,
            fold_left
              (fun bestScenario scenario =>
                 if Routes.replaces type (Routes.field scenario metric)
                                    (Routes.field bestScenario metric)
                 then scenario else bestScenario) l first = first).
  { induction l as [| s l IH]; [reflexivity |]. cbn [fold_left].
    rewrite Hnan.
    assert (Hno : Routes.replaces type (Routes.field s metric) (VNum NaN)
                  = false).
    { unfold Routes.replaces, Routes.value_lt. cbn [Routes.is_null orb ToNumber].
      assert (H1 : forall a, ltb a NaN = false) by (intros []; reflexivity).
      assert (H2 : forall a, ltb NaN a = false) by (intros []; reflexivity).
      rewrite H1, H2, !andb_false_r.
      destruct (String.eqb type "min"); reflexivity. }
    rewrite Hno. exact IH. }
  rewrite Hkeep, Hnan. reflexivity.
Qed.

Lemma findBestScenario_nan_first_witness :
  Routes.findBestScenario
    [ {| Routes.scenario_name := "Base";
         Routes.field := fun _ => VNum NaN |};
      {| Routes.scenario_name := "Solar";
         Routes.field := fun _ => VNum (Fin 4) |} ]
    Routes.payback_years "min"
  = Some {| Routes.best_name := "Base"; Routes.best_value := VNum NaN |}.
Proof. apply findBestScenario_nan_first. reflexivity. Defined.

(** ** POST /compare *)

(** The neutrality of a result is null or a number, never undefined. *)
Lemma neutrality_null_or_number (p : Params) (r : Result) :
  performCalculations p = Return r ->
  neutrality_with_improvements r = VNull \/
  exists y, neutrality_with_improvements r = VNum y.
Proof.
  intros Hr. pose proof (performCalculations_accepted p r Hr) as Hacc.
  destruct (performCalculations_timeline p r Hr) as (Hgrid & _ & Himp & Hni & _).
  pose proof (linspace_length _ _ _ _ Hgrid) as Hlen.
  assert (Hpts : (0 < cfg_points p)%Z) by apply Hacc.
  assert (Hne : timeline_years r <> []).
  { intros E. rewrite E in Hlen. simpl in Hlen. lia. }
  rewrite Hni. unfold years_to_neutrality, neutral_index.
  destruct (0 <? _)%Z eqn:Epos; [| left; reflexivity].
  right. destruct (neutral_index_from_spec (timeline_co2_with_improvements r) 0)
    as [[E _] | (k & E & (c & Hc & _) & _)]; rewrite E in *.
  - discriminate Epos.
  - cbn [Nat.add]. rewrite Nat2Z.id. unfold at_index.
    destruct (nth_error (timeline_years r) k) as [y |] eqn:Ey; [eauto |].
    exfalso. apply nth_error_None in Ey.
    assert (Hin : nth_error (timeline_co2_with_improvements r) k <> None)
      by congruence.
    apply nth_error_Some in Hin.
    rewrite Himp, improved_curve_length in Hin by exact Hne. lia.
Qed.

(** findBestScenario returns an entry of a list that is not empty. *)
Lemma findBestScenario_member
  (scenarios : list Routes.Scenario) (metric : Routes.Metric) (type : string) :
  scenarios <> [] ->
  exists best,
    In best scenarios /\
    Routes.findBestScenario scenarios metric type
    = Some {| Routes.best_name := Routes.scenario_name best;
              Routes.best_value := Routes.field best metric |}.
Proof.
  intros Hne. destruct scenarios as [| first rest]; [contradiction |].
  unfold Routes.findBestScenario.
  eexists. split; [| reflexivity].
  assert (H : forall l b, In b (first :: rest) ->
            (forall s, In s l -> In s (first :: rest)) ->
            In (fold_left
                  (fun bestScenario scenario =>
                     if Routes.replaces type (Routes.field scenario metric)
                                        (Routes.field bestScenario metric)
                     then scenario else bestScenario) l b)
               (first :: rest)).
  { induction l as [| s l IH]; intros b Hb Hl; [exact Hb |].
    cbn [fold_left]. apply IH.
    - destruct (Routes.replaces _ _ _); [apply Hl; left; reflexivity | exact Hb].
    - intros s' Hs'. apply Hl. right. exact Hs'. }
  apply H.
  - left. reflexivity.
  - intros s Hs. right. exact Hs.
Qed.

(** The entries the loop pushes: one per scenario, in order. *)
Lemma compare_loop_Return
  (scenarios : list Routes.ScenarioInput) (results : list Routes.Scenario) :
  Routes.compare_loop scenarios = Return results ->
  Forall2
    (fun s e =>
       exists nm p r,
         Routes.name s = Some nm /\ Routes.blank (Some nm) = false /\
         Routes.parameters s = Some p /\
         performCalculations p = Return r /\
         e = Routes.comparison_entry nm r)
    scenarios results.
Proof.
  revert results. induction scenarios as [| s rest IH]; intros results H.
  - cbn in H. injection H as <-. constructor.
  - cbn [Routes.compare_loop] in H.
    destruct (Routes.name s) as [nm |] eqn:En; [| discriminate H].
    destruct (Routes.parameters s) as [p |] eqn:Ep; [| discriminate H].
    destruct (Routes.blank (Some nm)) eqn:Eb; [discriminate H |].
    destruct (performCalculations p) as [r | msg] eqn:Er; [| discriminate H].
    cbn [bind] in H.
    destruct (Routes.compare_loop rest) as [tail | msg] eqn:Et;
      [| discriminate H].
    cbn [bind] in H. injection H as <-. constructor.
    + exists nm, p, r. repeat split; assumption.
    + apply IH. reflexivity.
Qed.

Lemma compare_loop_passes (scenarios : list Routes.ScenarioInput) :
  (forall s, In s scenarios -> scenario_passes s) ->
  exists results, Routes.compare_loop scenarios = Return results.
Proof.
  induction scenarios as [| s rest IH]; intros Hall.
  - eexists. reflexivity.
  - destruct (Hall s (or_introl eq_refl)) as (Hname & p & Hp & Hacc).
    destruct (IH (fun s' H => Hall s' (or_intror H))) as [tail Ht].
    destruct (accepted_performCalculations p Hacc) as [r Hr].
    cbn [Routes.compare_loop]. rewrite Hp.
    destruct (Routes.name s) as [nm |]; [| discriminate Hname].
    rewrite Hname, Hr. cbn [bind]. rewrite Ht. cbn [bind].
    eexists. reflexivity.
Qed.

(** On entries made from results the four template strings of the summary
    raise nothing. *)
Lemma summary_of_results (results : list Routes.Scenario) :
  results <> [] ->
  (forall e, In e results ->
     exists nm p r, performCalculations p = Return r /\
                    e = Routes.comparison_entry nm r) ->
  Routes.generateComparisonSummary
    {| Routes.best_neutrality :=
         Routes.findBestScenario results Routes.neutrality_years "min";
       Routes.best_annual_savings :=
         Routes.findBestScenario results Routes.annual_savings "max";
       Routes.best_ten_year_savings :=
         Routes.findBestScenario results Routes.ten_year_savings "max";
       Routes.best_cost :=
         Routes.findBestScenario results Routes.estimated_cost "min";
       Routes.best_payback :=
         Routes.findBestScenario results Routes.payback_years "min";
       Routes.best_roi :=
         Routes.findBestScenario results Routes.roi_10yr "max" |}
  = Return tt.
Proof.
  intros Hne Hres. unfold Routes.generateComparisonSummary.
  cbn [Routes.best_roi Routes.best_neutrality Routes.best_ten_year_savings
       Routes.best_payback].
  destruct (findBestScenario_member results Routes.roi_10yr "max" Hne)
    as (b1 & Hb1 & ->).
  destruct (findBestScenario_member results Routes.neutrality_years "min" Hne)
    as (b2 & Hb2 & ->).
  destruct (findBestScenario_member results Routes.ten_year_savings "max" Hne)
    as (b3 & Hb3 & ->).
  destruct (findBestScenario_member results Routes.payback_years "min" Hne)
    as (b4 & Hb4 & ->).
  destruct (Hres b1 Hb1) as (n1 & p1 & r1 & Hr1 & ->).
  destruct (Hres b2 Hb2) as (n2 & p2 & r2 & Hr2 & ->).
  destruct (Hres b3 Hb3) as (n3 & p3 & r3 & Hr3 & ->).
  destruct (Hres b4 Hb4) as (n4 & p4 & r4 & Hr4 & ->).
  cbn [Routes.value_of Routes.best_value Routes.comparison_entry Routes.field
       bind Routes.toFixed_of].
  destruct (performCalculations_economics p4 r4 Hr4) as (_ & _ & _ & _ & _ & ->).
  destruct (neutrality_null_or_number p2 r2 Hr2) as [-> | [y ->]]; reflexivity.
Qed.

(** A comparison is answered with status 200 exactly when there are at
    least two scenarios and every one of them has a name, has parameters
    and is accepted by performCalculations: one scenario that fails makes
    the whole comparison fail.  The answer then holds one entry per
    scenario and a best scenario for every metric. *)
Theorem compare_all_or_nothing (scenarios : list Routes.ScenarioInput) :
  ((exists c, Routes.compare (Some scenarios) = Ok c) <->
   (2 <= List.length scenarios)%nat /\
   forall s, In s scenarios -> scenario_passes s) /\
  (forall c, Routes.compare (Some scenarios) = Ok c ->
     List.length (Routes.compared c) = List.length scenarios /\
     Routes.best_neutrality (Routes.best_scenarios c) <> None /\
     Routes.best_annual_savings (Routes.best_scenarios c) <> None /\
     Routes.best_ten_year_savings (Routes.best_scenarios c) <> None /\
     Routes.best_cost (Routes.best_scenarios c) <> None /\
     Routes.best_payback (Routes.best_scenarios c) <> None /\
     Routes.best_roi (Routes.best_scenarios c) <> None).
Proof.
  assert (Hinv : forall c, Routes.compare (Some scenarios) = Ok c ->
            (2 <= List.length scenarios)%nat /\
            Forall2
              (fun s e =>
                 exists nm p r,
                   Routes.name s = Some nm /\ Routes.blank (Some nm) = false /\
                   Routes.parameters s = Some p /\
                   performCalculations p = Return r /\
                   e = Routes.comparison_entry nm r)
              scenarios (Routes.compared c)).
  { intros c H. unfold Routes.compare in H.
    destruct (List.length scenarios <? 2)%nat eqn:El; [discriminate H |].
    apply Nat.ltb_ge in El. split; [exact El |].
    destruct (Routes.compare_loop scenarios) as [results | msg] eqn:Eloop;
      [| discriminate H].
    cbv zeta in H.
    destruct (Routes.generateComparisonSummary _); [| discriminate H].
    injection H as <-. cbn [Routes.compared].
    exact (compare_loop_Return _ _ Eloop). }
  split; [split |].
  - intros [c Hc]. destruct (Hinv c Hc) as (Hlen & Hall).
    split; [exact Hlen |]. intros s Hs.
    clear Hc Hinv Hlen. induction Hall as [| s0 e0 ss es Hhead _ IH];
      [contradiction |].
    destruct Hs as [<- | Hs]; [| exact (IH Hs)].
    + destruct Hhead as (nm & p & r & Hn & Hb & Hp & Hr & _).
      split; [rewrite Hn; exact Hb |]. exists p. split; [exact Hp |].
      exact (performCalculations_accepted p r Hr).
  - intros [Hlen Hall]. destruct (compare_loop_passes scenarios Hall)
      as [results Hloop].
    unfold Routes.compare.
    replace (List.length scenarios <? 2)%nat with false
      by (symmetry; apply Nat.ltb_ge; exact Hlen).
    rewrite Hloop. cbv zeta.
    pose proof (compare_loop_Return _ _ Hloop) as Hshape.
    rewrite summary_of_results.
    + eexists. reflexivity.
    + intros E. subst results. inversion Hshape. subst scenarios.
      simpl in Hlen. lia.
    + intros e He. clear Hloop Hall Hlen Hinv.
      induction Hshape as [| s0 e0 ss es Hhead _ IH]; [contradiction |].
      destruct He as [<- | He]; [| exact (IH He)].
      destruct Hhead as (nm & p & r & _ & _ & _ & Hr & ->). eauto.
  - intros c Hc. destruct (Hinv c Hc) as (Hlen & Hall).
    assert (Hsame : List.length (Routes.compared c) = List.length scenarios).
    { clear Hc Hinv Hlen. induction Hall; simpl; [reflexivity | lia]. }
    split; [exact Hsame |].
    assert (Hne : Routes.compared c <> []).
    { intros E. rewrite E in Hsame. simpl in Hsame. lia. }
    unfold Routes.compare in Hc.
    destruct (List.length scenarios <? 2)%nat; [discriminate Hc |].
    destruct (Routes.compare_loop scenarios) as [results | msg];
      [| discriminate Hc].
    cbv zeta in Hc.
    destruct (Routes.generateComparisonSummary _); [| discriminate Hc].
    injection Hc as <-.
    cbn [Routes.compared Routes.best_scenarios Routes.best_neutrality
         Routes.best_annual_savings Routes.best_ten_year_savings
         Routes.best_cost Routes.best_payback Routes.best_roi] in *.
    repeat split;
      match goal with
      | |- Routes.findBestScenario _ ?m ?t <> None =>
          destruct (findBestScenario_member results m t Hne) as (b & _ & ->);
          discriminate
      end.
Qed.

(** Two scenarios on the default parameters are compared. *)
Lemma compare_all_or_nothing_witness :
  exists c,
    Routes.compare (Some two_default_scenarios) = Ok c /\
    List.length (Routes.compared c) = 2%nat.
Proof.
  destruct (compare_all_or_nothing two_default_scenarios) as [[_ Hok] Hshape].
  destruct Hok as [c Hc].
  - split; [cbn; lia |].
    intros s [<- | [<- | []]]; (split; [reflexivity |]);
      exists default_params; (split; [reflexivity | exact accepted_default]).
  - exists c. split; [exact Hc |]. apply Hshape. exact Hc.
Defined.

(** ** POST /sales *)

(** The sales summary of an accepted configuration is answered with status
    200, and its [years_saved] is null: in exact arithmetic the natural
    curve has no neutrality year to compare with.  Any other configuration
    is answered with status 400 and the message performCalculations
    throws: one of its six validation messages or, for too many points,
    'Invalid array length'. *)
Theorem sales_years_saved_null
  (p : Params) (building_address company_id : option string) :
  (accepted p ->
   exists s,
     Routes.sales p building_address company_id = Ok s /\
     Routes.sales_years_saved s = VNull) /\
  (~ accepted p ->
   exists msg,
     In msg ("Invalid array length" :: validation_messages) /\
     Routes.sales p building_address company_id = BadRequest msg).
Proof.
  split.
  - intros Hacc. destruct (accepted_performCalculations p Hacc) as [r Hr].
    destruct (natural_decline_never_neutral p r Hacc Hr) as [_ Hnull].
    unfold Routes.sales. rewrite Hr. cbv zeta. eexists. split; [reflexivity |].
    cbn [Routes.sales_years_saved]. rewrite Hnull. reflexivity.
  - intros Hnot. destruct (performCalculations_rejected p Hnot)
      as (msg & Hin & Hmsg).
    exists msg. split; [exact Hin |]. unfold Routes.sales. rewrite Hmsg.
    reflexivity.
Qed.

Lemma sales_years_saved_null_witness :
  exists s,
    Routes.sales default_params None None = Ok s /\
    Routes.sales_years_saved s = VNull.
Proof.
  exact (proj1 (sales_years_saved_null default_params None None)
               accepted_default).
Defined.

(** ** POST /simple-calculate *)

Lemma accepted_simple_params (area : R) (division : obj R) :
  0 < area ->
  Rabs (sum_valuesR division - 100) <= 0.01 ->
  accepted (Routes.simple_params area division).
Proof.
  intros Harea Hsum. unfold accepted, max_array_length, Routes.simple_params, cfg_roof_area,
    cfg_GWP_roof, cfg_decline_rate, cfg_years_to_calculate, cfg_points,
    cfg_roof_division, default. cbn.
  repeat split; try lra; try lia. exact Hsum.
Qed.

Lemma simple_calculate_cases (area : R) (division : obj R) :
  let response :=
    Routes.simple_calculate
      {| Routes.simple_roof_area := Some area;
         Routes.simple_roof_division := Some division |} in
  (area = 0 /\
   response = BadRequest "Roof area and roof division are required") \/
  (area < 0 /\ response = BadRequest "Roof area must be positive") \/
  (0 < area /\ 0.01 < Rabs (sum_valuesR division - 100) /\
   response = BadRequest "Roof division percentages must sum to 100%") \/
  (0 < area /\ Rabs (sum_valuesR division - 100) <= 0.01 /\
   exists r, response = Ok r).
Proof.
  cbv zeta. unfold Routes.simple_calculate.
  cbn [Routes.simple_roof_area Routes.simple_roof_division].
  unfold truthy. destruct (Req_dec_T area 0) as [E0 | N0].
  { left. split; [exact E0 | reflexivity]. }
  cbn [negb]. destruct (leb (Fin area) (Fin 0)) eqn:El.
  { apply leb_Fin_true in El. right. left. split; [lra | reflexivity]. }
  apply leb_Fin_false in El. cbv zeta.
  destruct (Rle_dec (Rabs (sum_valuesR division - 100)) 0.01) as [Hs | Hs].
  - right. right. right. split; [exact El |]. split; [exact Hs |].
    rewrite (proj2 (percentage_check _) Hs).
    destruct (accepted_performCalculations _
                (accepted_simple_params area division El Hs)) as [r ->].
    eexists. reflexivity.
  - right. right. left. split; [exact El |]. split; [lra |].
    rewrite percentage_check_fails by lra. reflexivity.
Qed.

(** The four answers of the simplified calculation.  A missing area, an
    area of 0 or a missing division is answered with "Roof area and roof
    division are required"; a negative area with "Roof area must be
    positive"; a division whose sum is more than 0.01 away from 100 with
    "Roof division percentages must sum to 100%"; every other request is
    answered with status 200: performCalculations rejects nothing that
    these checks let through. *)
Theorem simple_calculate_responses
  (area : option R) (division : option (obj R)) :
  (Routes.simple_calculate
     {| Routes.simple_roof_area := area;
        Routes.simple_roof_division := division |}
   = BadRequest "Roof area and roof division are required" <->
   area = None \/ area = Some 0 \/ division = None) /\
  (Routes.simple_calculate
     {| Routes.simple_roof_area := area;
        Routes.simple_roof_division := division |}
   = BadRequest "Roof area must be positive" <->
   exists a d, area = Some a /\ division = Some d /\ a < 0) /\
  (Routes.simple_calculate
     {| Routes.simple_roof_area := area;
        Routes.simple_roof_division := division |}
   = BadRequest "Roof division percentages must sum to 100%" <->
   exists a d, area = Some a /\ division = Some d /\ 0 < a /\
               0.01 < Rabs (sum_valuesR d - 100)) /\
  ((exists r,
      Routes.simple_calculate
        {| Routes.simple_roof_area := area;
           Routes.simple_roof_division := division |} = Ok r) <->
   exists a d, area = Some a /\ division = Some d /\ 0 < a /\
               Rabs (sum_valuesR d - 100) <= 0.01).
Proof.
  destruct area as [a |]; [destruct division as [d |] |].
  - pose proof (simple_calculate_cases a d) as H. cbv zeta in H.
    destruct H as [[Ha ->] | [[Ha ->] | [(Ha & Hs & ->) | (Ha & Hs & r & ->)]]].
    + repeat split.
      * intros _. right. left. f_equal. exact Ha.
      * discriminate.
      * intros (a' & d' & Ea & _ & Hneg). injection Ea as <-. lra.
      * discriminate.
      * intros (a' & d' & Ea & _ & Hpos & _). injection Ea as <-. lra.
      * intros [r Hr]. discriminate Hr.
      * intros (a' & d' & Ea & _ & Hpos & _). injection Ea as <-. lra.
    + repeat split.
      * discriminate.
      * intros [E | [E | E]]; try discriminate E. injection E as E. lra.
      * intros _. exists a, d. auto.
      * discriminate.
      * intros (a' & d' & Ea & _ & Hpos & _). injection Ea as <-. lra.
      * intros [r Hr]. discriminate Hr.
      * intros (a' & d' & Ea & _ & Hpos & _). injection Ea as <-. lra.
    + repeat split.
      * discriminate.
      * intros [E | [E | E]]; try discriminate E. injection E as E. lra.
      * discriminate.
      * intros (a' & d' & Ea & _ & Hneg). injection Ea as <-. lra.
      * intros _. exists a, d. auto.
      * intros [r Hr]. discriminate Hr.
      * intros (a' & d' & Ea & Ed & _ & Hle).
        injection Ea as <-. injection Ed as <-. lra.
    + repeat split.
      * discriminate.
      * intros [E | [E | E]]; try discriminate E. injection E as E. lra.
      * discriminate.
      * intros (a' & d' & Ea & _ & Hneg). injection Ea as <-. lra.
      * discriminate.
      * intros (a' & d' & Ea & Ed & _ & Hlt).
        injection Ea as <-. injection Ed as <-. lra.
      * intros _. exists a, d. auto.
      * intros _. exists r. reflexivity.
  - cbn. repeat split; auto; try discriminate.
    + intros (a' & d' & _ & E & _). discriminate E.
    + intros (a' & d' & _ & E & _). discriminate E.
    + intros [r Hr]. discriminate Hr.
    + intros (a' & d' & _ & E & _). discriminate E.
  - cbn. repeat split; auto; try discriminate.
    + intros (a' & d' & E & _). discriminate E.
    + intros (a' & d' & E & _). discriminate E.
    + intros [r Hr]. discriminate Hr.
    + intros (a' & d' & E & _). discriminate E.
Qed.

Lemma simple_calculate_responses_witness :
  exists r,
    Routes.simple_calculate
      {| Routes.simple_roof_area := Some 100;
         Routes.simple_roof_division := Some default_roof_division |} = Ok r.
Proof.
  apply (proj2 (proj2 (proj2 (proj2
           (simple_calculate_responses
              (Some 100) (Some default_roof_division)))))).
  exists 100, default_roof_division.
  split; [reflexivity |]. split; [reflexivity |]. split; [lra |].
  exact (proj2 (proj2 (proj2 (proj2 (proj2 accepted_default))))).
Defined.

(** ** POST /batch *)

Lemma override_None {A} (building : option A) :
  Routes.override None building = building.
Proof. destruct building; reflexivity. Qed.

Lemma batch_loop_Return
  (common : Params) (buildings : list Routes.Building)
  (results : list Routes.BatchEntry) :
  Routes.batch_loop common buildings = Return results ->
  Forall2
    (fun building entry =>
       Routes.building_id building = Some (Routes.entry_building_id entry) /\
       Routes.blank (Routes.building_id building) = false /\
       performCalculations
         (Routes.merge common (Routes.building_parameters building))
       = Return (Routes.entry_results entry))
    buildings results.
Proof.
  revert results. induction buildings as [| b rest IH]; intros results H.
  - cbn in H. injection H as <-. constructor.
  - cbn [Routes.batch_loop] in H.
    destruct (Routes.building_id b) as [id |] eqn:Ei; [| discriminate H].
    destruct (Routes.blank (Some id)) eqn:Eb; [discriminate H |].
    destruct (performCalculations _) as [r | msg] eqn:Er; [| discriminate H].
    cbn [bind] in H.
    destruct (Routes.batch_loop common rest) as [tail | msg] eqn:Et;
      [| discriminate H].
    cbn [bind] in H. injection H as <-. constructor.
    + cbn [Routes.entry_building_id Routes.entry_results].
      rewrite Ei. repeat split; assumption.
    + apply IH. reflexivity.
Qed.

Lemma batch_loop_passes (common : Params) (buildings : list Routes.Building) :
  (forall b, In b buildings -> building_passes common b) ->
  exists results, Routes.batch_loop common buildings = Return results.
Proof.
  induction buildings as [| b rest IH]; intros Hall.
  - eexists. reflexivity.
  - destruct (Hall b (or_introl eq_refl)) as (Hid & Hacc).
    destruct (IH (fun b' H => Hall b' (or_intror H))) as [tail Ht].
    destruct (accepted_performCalculations _ Hacc) as [r Hr].
    cbn [Routes.batch_loop].
    destruct (Routes.building_id b) as [id |]; [| discriminate Hid].
    rewrite Hid, Hr. cbn [bind]. rewrite Ht. cbn [bind].
    eexists. reflexivity.
Qed.

(** A batch is answered with status 200 exactly when it is not empty and
    every building has an identifier and parameters that, laid over the
    common ones, are accepted by performCalculations: one building that
    fails makes the whole batch fail.  The answer then holds, in the order
    of the request, the result of every building on its merged parameters,
    where a parameter of the building replaces the common one; with no
    common parameters a building is calculated on its own. *)
Theorem batch_all_or_nothing
  (buildings : list Routes.Building) (common_parameters : option Params) :
  ((exists b, Routes.batch (Some buildings) common_parameters = Ok b) <->
   buildings <> [] /\
   forall b, In b buildings ->
     building_passes (default Routes.no_parameters common_parameters) b) /\
  (forall b, Routes.batch (Some buildings) common_parameters = Ok b ->
     Routes.batch_size b = List.length buildings /\
     Forall2
       (fun building entry =>
          Routes.building_id building
          = Some (Routes.entry_building_id entry) /\
          performCalculations
            (Routes.merge (default Routes.no_parameters common_parameters)
                          (Routes.building_parameters building))
          = Return (Routes.entry_results entry))
       buildings (Routes.batch_results b)) /\
  (forall p, Routes.merge Routes.no_parameters p = p).
Proof.
  set (common := default Routes.no_parameters common_parameters).
  assert (Hinv : forall b,
            Routes.batch (Some buildings) common_parameters = Ok b ->
            buildings <> [] /\
            Routes.batch_size b = List.length buildings /\
            Routes.batch_loop common buildings
            = Return (Routes.batch_results b)).
  { intros b H. unfold Routes.batch in H. fold common in H. cbv zeta in H.
    destruct (List.length buildings =? 0)%nat eqn:El; [discriminate H |].
    apply Nat.eqb_neq in El.
    destruct (Routes.batch_loop common buildings) as [results | msg];
      [| discriminate H].
    injection H as <-. cbn [Routes.batch_size Routes.batch_results].
    split; [| split; reflexivity].
    intros ->. apply El. reflexivity. }
  split; [split | split].
  - intros [b Hb]. destruct (Hinv b Hb) as (Hne & _ & Hloop).
    split; [exact Hne |]. intros building Hin.
    pose proof (batch_loop_Return _ _ _ Hloop) as Hall.
    clear Hb Hinv Hne Hloop.
    induction Hall as [| b0 e0 bs es Hhead _ IH]; [contradiction |].
    destruct Hin as [<- | Hin]; [| exact (IH Hin)].
    destruct Hhead as (_ & Hblank & Hr).
    split; [exact Hblank |].
    exact (performCalculations_accepted _ _ Hr).
  - intros [Hne Hall].
    destruct (batch_loop_passes common buildings Hall) as [results Hloop].
    unfold Routes.batch. fold common. cbv zeta.
    replace (List.length buildings =? 0)%nat with false.
    + rewrite Hloop. eexists. reflexivity.
    + symmetry. apply Nat.eqb_neq. destruct buildings; [congruence |].
      discriminate.
  - intros b Hb. destruct (Hinv b Hb) as (_ & Hsize & Hloop).
    split; [exact Hsize |].
    pose proof (batch_loop_Return _ _ _ Hloop) as Hall.
    clear Hb Hinv Hsize Hloop.
    induction Hall as [| b0 e0 bs es Hhead _ IH]; constructor.
    + destruct Hhead as (Hid & _ & Hr). split; assumption.
    + exact IH.
  - intros p. destruct p. unfold Routes.merge, Routes.no_parameters.
    cbn [roof_area GWP_roof decline_rate roof_division full_savings
         improvement_years years_to_calculate points efficiency_degradation
         climate_zone].
    rewrite !override_None. reflexivity.
Qed.

Lemma batch_all_or_nothing_witness :
  exists b,
    Routes.batch
      (Some [ {| Routes.building_id := Some "B1";
                 Routes.building_parameters := default_params |} ])
      None = Ok b.
Proof.
  apply (proj1 (batch_all_or_nothing _ None)).
  split; [discriminate |].
  intros b [<- | []]. split; [reflexivity | exact accepted_default].
Defined.

(** * The rating scales *)

(** The three rating scales are monotone: a score that is not below
    another never gets a lower tier.  A score that is NaN gets the lowest
    tier of each scale. *)
Theorem ratings_monotone (a b : num) :
  (leb a b = true ->
   (place (getSustainabilityRating a) sustainability_tiers
    <= place (getSustainabilityRating b) sustainability_tiers)%nat /\
   (place (getSdgAlignmentRating a) sdg_alignment_tiers
    <= place (getSdgAlignmentRating b) sdg_alignment_tiers)%nat /\
   (place (getHealthImpactRating a) health_impact_tiers
    <= place (getHealthImpactRating b) health_impact_tiers)%nat) /\
  getSustainabilityRating NaN = "Needs Improvement" /\
  getSdgAlignmentRating NaN = "Limited" /\
  getHealthImpactRating NaN = "Minimal".
Proof.
  split; [| repeat split; reflexivity].
  intros Hab.
  destruct a as [x | | |], b as [y | | |]; try discriminate Hab;
    try (apply leb_Fin_true in Hab);
    (split; [| split]); tier_cases.
Qed.

Lemma ratings_monotone_witness :
  (place (getSustainabilityRating (Fin 65)) sustainability_tiers
   <= place (getSustainabilityRating (Fin 85)) sustainability_tiers)%nat /\
  (place (getSdgAlignmentRating (Fin 65)) sdg_alignment_tiers
   <= place (getSdgAlignmentRating (Fin 85)) sdg_alignment_tiers)%nat /\
  (place (getHealthImpactRating (Fin 65)) health_impact_tiers
   <= place (getHealthImpactRating (Fin 85)) health_impact_tiers)%nat.
Proof.
  apply (proj1 (ratings_monotone (Fin 65) (Fin 85))).
  apply leb_Fin_true. lra.
Defined.

(** * The two engines on the same roof *)

Lemma performEnhancedCalculations_cost
  (q : Enhanced.Params) (e : Enhanced.Result) :
  Enhanced.performEnhancedCalculations q = Return e ->
  Enhanced.initial_co2 e
  = mul (Fin (default 3.33 (Enhanced.GWP_roof q)))
        (Fin (default 2776 (Enhanced.roof_area q))) /\
  Enhanced.estimated_cost e
  = Enhanced.calculateEnhancedEstimatedCost
      (Fin (default 2776 (Enhanced.roof_area q)))
      (default default_roof_division (Enhanced.roof_division q)) /\
  Enhanced.simple_payback_years e
  = div (Enhanced.estimated_cost e) (Enhanced.annual_economic_benefit e).
Proof.
  unfold Enhanced.performEnhancedCalculations. cbv zeta. intros H.
  repeat (apply throw_if_Return in H; destruct H as [_ H]).
  destruct (Enhanced.social_loop _) as [ws tw].
  apply throw_if_Return in H. destruct H as [_ H].
  injection H as <-. repeat split; reflexivity.
Qed.

(** Whatever performCalculations accepts, performEnhancedCalculations
    accepts too when it is given the same area, GWP and division (and a
    projection that fits an array), and the two results show the same
    initial CO2 and the same estimated cost: the enhanced cost table prices
    no category differently. *)
Theorem engines_agree_on_cost (p : Params) (q : Enhanced.Params) :
  cfg_roof_area p = default 2776 (Enhanced.roof_area q) ->
  cfg_GWP_roof p = default 3.33 (Enhanced.GWP_roof q) ->
  cfg_roof_division p
  = default default_roof_division (Enhanced.roof_division q) ->
  (default 50 (Enhanced.years_to_calculate q) + 1 <= max_array_length)%Z ->
  accepted p ->
  exists r e,
    performCalculations p = Return r /\
    Enhanced.performEnhancedCalculations q = Return e /\
    Enhanced.initial_co2 e = r_initial_co2 r /\
    Enhanced.estimated_cost e = economics_estimated_cost r.
Proof.
  intros Harea Hgwp Hdiv Hlen Hacc.
  destruct (accepted_performCalculations p Hacc) as [r Hr].
  assert (Hq : enhanced_accepted q).
  { destruct Hacc as (Ha & Hg & _ & _ & _ & Hsum).
    unfold enhanced_accepted. rewrite <- Harea, <- Hgwp, <- Hdiv. auto. }
  destruct (enhanced_accepted_Return q Hq) as [e He].
  exists r, e. split; [exact Hr |]. split; [exact He |].
  destruct (performCalculations_economics p r Hr)
    as (Hinit & _ & _ & _ & Hcost & _).
  destruct (performEnhancedCalculations_cost q e He) as (Hinit' & Hcost' & _).
  rewrite Hinit, Hcost, Hinit', Hcost', <- Harea, <- Hgwp, <- Hdiv.
  split; reflexivity.
Qed.

Lemma engines_agree_on_cost_witness :
  exists r e,
    performCalculations default_params = Return r /\
    Enhanced.performEnhancedCalculations enhanced_default_params = Return e /\
    Enhanced.initial_co2 e = r_initial_co2 r /\
    Enhanced.estimated_cost e = economics_estimated_cost r.
Proof.
  apply (engines_agree_on_cost default_params enhanced_default_params);
    try reflexivity.
  - unfold max_array_length. cbn. lia.
  - exact accepted_default.
Defined.

(** * A partial [health_metrics] *)

Lemma performEnhancedCalculations_health
  (p : Enhanced.Params) (r : Enhanced.Result) :
  Enhanced.performEnhancedCalculations p = Return r ->
  let metrics :=
    default Enhanced.default_health_metrics (Enhanced.health_metrics p) in
  Enhanced.health_impact_score r
  = div (add (ToNumber (getR metrics "hypertension_reduction"))
             (ToNumber (getR metrics "mortality_reduction")))
        (Fin 2) /\
  Enhanced.heat_wave_resilience r
  = (if gtb (ToNumber (getR metrics "heat_wave_temperature")) (Fin 25)
     then "Improved" else "Standard") /\
  (exists environmental social sdg,
     Enhanced.sustainability_score r =
       add (add (add environmental social)
                (mul (Enhanced.health_impact_score r) (Fin 0.2)))
           sdg) /\
  (exists others,
     Enhanced.annual_economic_benefit r =
       add others
           (div (mul (mul (Enhanced.health_impact_score r) (Fin 100))
                     (Fin 50))
                (Fin 100))).
Proof.
  unfold Enhanced.performEnhancedCalculations. cbv zeta. intros H.
  repeat (apply throw_if_Return in H; destruct H as [_ H]).
  destruct (Enhanced.social_loop _) as [ws tw].
  apply throw_if_Return in H. destruct H as [_ H].
  injection H as <-.
  cbn [Enhanced.health_impact_score Enhanced.heat_wave_resilience
       Enhanced.sustainability_score Enhanced.annual_economic_benefit].
  split; [reflexivity |]. split; [reflexivity |].
  split; [do 3 eexists; reflexivity |].
  unfold Enhanced.calculateAnnualEconomicBenefit. cbv zeta.
  eexists. reflexivity.
Qed.

(** A [health_metrics] object replaces the default one as a whole.  When it
    lacks [hypertension_reduction] or [mortality_reduction], the health
    impact score is NaN, and with it the sustainability score, the annual
    economic benefit and the payback; the rating is 'Needs Improvement'.
    When it lacks [heat_wave_temperature], the resilience is 'Standard'. *)
Theorem partial_health_metrics_nan
  (p : Enhanced.Params) (metrics : obj R) :
  enhanced_accepted p ->
  Enhanced.health_metrics p = Some metrics ->
  exists r,
    Enhanced.performEnhancedCalculations p = Return r /\
    (own_get metrics "hypertension_reduction" = None \/
     own_get metrics "mortality_reduction" = None ->
     Enhanced.health_impact_score r = NaN /\
     Enhanced.sustainability_score r = NaN /\
     Enhanced.sustainability_rating r = "Needs Improvement" /\
     Enhanced.annual_economic_benefit r = NaN /\
     Enhanced.simple_payback_years r = NaN) /\
    (own_get metrics "heat_wave_temperature" = None ->
     Enhanced.heat_wave_resilience r = "Standard").
Proof.
  intros Hacc Hmetrics. destruct (enhanced_accepted_Return p Hacc) as [r Hr].
  exists r. split; [exact Hr |].
  pose proof (performEnhancedCalculations_health p r Hr) as H.
  cbv zeta in H. rewrite Hmetrics in H. cbn [default] in H.
  destruct H as (Hhealth & Hheat & (env & soc & sdg & Hscore) & (o & Hben)).
  split.
  - intros Hmissing.
    assert (Hnan : Enhanced.health_impact_score r = NaN).
    { rewrite Hhealth. unfold getR.
      destruct Hmissing as [-> | ->]; cbn [option_map prop inherited existsb
        prototype_names ToNumber]; [reflexivity |].
      rewrite add_NaN_r. reflexivity. }
    assert (Hs : Enhanced.sustainability_score r = NaN).
    { rewrite Hscore, Hnan. cbn [mul]. rewrite add_NaN_r. reflexivity. }
    assert (Hb : Enhanced.annual_economic_benefit r = NaN).
    { rewrite Hben, Hnan. cbn [mul div]. apply add_NaN_r. }
    split; [exact Hnan |]. split; [exact Hs |].
    split; [rewrite (performEnhancedCalculations_rating p r Hr), Hs;
            reflexivity |].
    split; [exact Hb |].
    destruct (performEnhancedCalculations_cost p r Hr) as (_ & _ & ->).
    rewrite Hb. apply div_NaN_r.
  - intros Hmissing. rewrite Hheat. unfold getR. rewrite Hmissing.
    reflexivity.
Qed.

Lemma partial_health_metrics_nan_witness :
  exists r,
    Enhanced.performEnhancedCalculations
      {| Enhanced.roof_area := None; Enhanced.GWP_roof := None;
         Enhanced.roof_division := None; Enhanced.plant_absorption := None;
         Enhanced.energy_emission := None; Enhanced.solar_emission := None;
         Enhanced.solar_reduction := None; Enhanced.heating_original := None;
         Enhanced.heating_reduced := None; Enhanced.water_emission := None;
         Enhanced.water_mitigated := None; Enhanced.water_collected := None;
         Enhanced.social_metrics := None;
         Enhanced.health_metrics := Some [("mortality_reduction", 15)];
         Enhanced.sdg_focus := None; Enhanced.years_to_calculate := None |}
      = Return r /\
    Enhanced.health_impact_score r = NaN /\
    Enhanced.sustainability_rating r = "Needs Improvement" /\
    Enhanced.heat_wave_resilience r = "Standard".
Proof.
  destruct (partial_health_metrics_nan
              {| Enhanced.roof_area := None; Enhanced.GWP_roof := None;
                 Enhanced.roof_division := None;
                 Enhanced.plant_absorption := None;
                 Enhanced.energy_emission := None;
                 Enhanced.solar_emission := None;
                 Enhanced.solar_reduction := None;
                 Enhanced.heating_original := None;
                 Enhanced.heating_reduced := None;
                 Enhanced.water_emission := None;
                 Enhanced.water_mitigated := None;
                 Enhanced.water_collected := None;
                 Enhanced.social_metrics := None;
                 Enhanced.health_metrics := Some [("mortality_reduction", 15)];
                 Enhanced.sdg_focus := None;
                 Enhanced.years_to_calculate := None |}
              [("mortality_reduction", 15)]
              accepted_enhanced_default eq_refl)
    as (r & Hr & Hnan & Hheat).
  exists r. split; [exact Hr |].
  destruct (Hnan (or_introl eq_refl)) as (H1 & _ & H3 & _).
  split; [exact H1 |]. split; [exact H3 |].
  exact (Hheat eq_refl).
Defined.
